(** * ChartDrawer: the decay-mode resolver, the grid layout and the axis
      renderers of the chart-of-nuclides drawer, embedded from
      [ChartDrawer.py].

    Python integers are [Z], strings are [string], the branching values
    are binary64 floats ([PrimFloat.float]).  Lists that the script indexes
    or updates in place are stdpp lists with [!!] and [<[i:=x]>]; the
    dictionaries that the script iterates in insertion order
    ([n_magic], [z_magic]) are association lists. *)

From Stdlib Require Import ZArith QArith String Ascii Bool Lia PrimFloat Permutation.
From Stdlib Require Import DecimalString.
From stdpp Require Import base option list.

Open Scope string_scope.
Open Scope list_scope.
Open Scope Z_scope.

(** ** Python exceptions and control flow *)

Inductive exn := IndexError | ValueError | KeyError | TypeError | UnboundLocalError.

(** A block of the script either falls through with a value, executes
    [return], or raises. *)
Inductive flow (A : Type) :=
| Go (a : A)
| Return
| Raise (e : exn).
Arguments Go {A} a.
Arguments Return {A}.
Arguments Raise {A} e.

#[global] Instance flow_ret : MRet flow := fun _ a => Go a.

#[global] Instance flow_bind : MBind flow := fun _ _ k c =>
  match c with
  | Go a => k a
  | Return => Return
  | Raise e => Raise e
  end.

(** ** Strings *)

Module PyStr.

Definition is_digit (c : ascii) : bool :=
  let n := nat_of_ascii c in (48 <=? n)%nat && (n <=? 57)%nat.

Definition is_lower (c : ascii) : bool :=
  let n := nat_of_ascii c in (97 <=? n)%nat && (n <=? 122)%nat.

Definition chars (s : string) : list ascii := list_ascii_of_string s.

(** [s.strip(c)]: leading and trailing occurrences of [c] removed. *)
Fixpoint lstrip (c : ascii) (s : string) : string :=
  match s with
  | EmptyString => EmptyString
  | String a s' => if Ascii.eqb a c then lstrip c s' else s
  end.

Fixpoint rstrip (c : ascii) (s : string) : string :=
  match s with
  | EmptyString => EmptyString
  | String a s' =>
      match rstrip c s' with
      | EmptyString => if Ascii.eqb a c then EmptyString else String a EmptyString
      | r => String a r
      end
  end.

Definition strip (c : ascii) (s : string) : string := rstrip c (lstrip c s).

(** [s.find(sub) >= 0] *)
Fixpoint contains (sub s : string) : bool :=
  String.prefix sub s ||
  match s with
  | EmptyString => false
  | String _ s' => contains sub s'
  end.

End PyStr.

(** ** Constants of the script *)

Definition COLORS : list (string * string) :=
  [ ("is", "#000000");
    ("b-", "#62aeff");
    ("2b-", "#62aeff");
    ("b+", "#ff7e75");
    ("ec", "#ff7e75");
    ("2ec", "#ff7e75");
    ("a", "#fffe49");
    ("sf", "#5cbc57");
    ("p", "#ffa425");
    ("2p", "#ffa425");
    ("n", "#9fd7ff");
    ("2n", "#9fd7ff");
    ("it", "#ffffff");
    ("cluster", "#a564cc");
    ("?", "#cccccc") ].

(** Dictionary lookup, [d.get(k)]. *)
Fixpoint dict_get {V} (d : list (string * V)) (k : string) : option V :=
  match d with
  | [] => None
  | (k', v) :: d' => if String.eqb k' k then Some v else dict_get d' k
  end.

(** [COLORS[k]] for a key computed at run time: a missing key raises. *)
Definition COLORS_at (k : string) : flow string :=
  match dict_get COLORS k with
  | Some c => Go c
  | None => Raise KeyError
  end.

(** [COLORS['...']] for the literal keys the script writes out. *)
Definition COLORS_is : string := Eval cbv in default "" (dict_get COLORS "is").
Definition COLORS_a : string := Eval cbv in default "" (dict_get COLORS "a").
Definition COLORS_bplus : string := Eval cbv in default "" (dict_get COLORS "b+").
Definition COLORS_p : string := Eval cbv in default "" (dict_get COLORS "p").
Definition COLORS_cluster : string := Eval cbv in default "" (dict_get COLORS "cluster").
Definition COLORS_unknown : string := Eval cbv in default "" (dict_get COLORS "?").

Definition FONT_COLOR_DARK := "#000000".
Definition FONT_COLOR_BRIGHT := "#aaaaaa".

Definition SIZE_SHAPE : Z := 30.
Definition SIZE_GAP : Z := 2.
Definition SIZE_FIELD : Z := SIZE_SHAPE + SIZE_GAP.
Definition SIZE_FONT : Z := 7.
Definition SIZE_FONT_HL : Z := 5.

Definition MAGIC_NUMBERS : list Z := [2; 8; 20; 28; 50; 82; 126].

Definition basic_decay_modes : list string :=
  [ "is"; "a"; "b-"; "b+"; "ec"; "p"; "2p"; "sf"; "n"; "2n"; "2ec"; "2b-" ].

Definition in_basic (m : string) : bool :=
  existsb (String.eqb m) basic_decay_modes.

(** [re.search(r'[0-9]{2}([a-z]+)$', m) is not None]: two digits and then
    one or more lower-case letters up to the end of the string; [$] also
    matches just before one final newline. *)
Module ClusterRe.
Import PyStr.

(** The reversed string starts with one or more letters, then two digits. *)
Fixpoint letters_then_digits (seen_letter : bool) (r : list ascii) : bool :=
  match r with
  | c :: r' =>
      if is_lower c then letters_then_digits true r'
      else seen_letter && is_digit c &&
           match r' with
           | d :: _ => is_digit d
           | [] => false
           end
  | [] => false
  end.

Definition search (m : string) : bool :=
  let r := rev (chars m) in
  letters_then_digits false r ||
  match r with
  | c :: r' => Ascii.eqb c "010"%char && letters_then_digits false r'
  | [] => false
  end.

End ClusterRe.


(** [re.search(r'^[-+]?[0-9]*\.?[0-9]+([eE]+[-+]?[0-9]+)$', s) is not None] *)
Module SciRe.
Import PyStr.

Fixpoint skip_while (p : ascii -> bool) (l : list ascii) : nat * list ascii :=
  match l with
  | c :: l' => if p c then let '(n, r) := skip_while p l' in (S n, r) else (O, l)
  | [] => (O, [])
  end.

Definition is_sign (c : ascii) : bool := Ascii.eqb c "-" || Ascii.eqb c "+".
Definition is_e (c : ascii) : bool := Ascii.eqb c "e" || Ascii.eqb c "E".

Definition skip_sign (l : list ascii) : list ascii :=
  match l with
  | c :: l' => if is_sign c then l' else l
  | [] => []
  end.

Definition at_end (l : list ascii) : bool :=
  match l with
  | [] => true
  | [c] => Ascii.eqb c "010"
  | _ => false
  end.

Definition search (s : string) : bool :=
  let l := skip_sign (chars s) in
  let '(a, l) := skip_while is_digit l in
  let mantissa :=
    match l with
    | c :: l' =>
        if Ascii.eqb c "." then
          let '(b, l'') := skip_while is_digit l' in
          if (0 <? b)%nat then Some l'' else None
        else if (0 <? a)%nat then Some l else None
    | [] => None
    end in
  match mantissa with
  | None => false
  | Some l =>
      let '(e, l) := skip_while is_e l in
      let '(d, l) := skip_while is_digit (skip_sign l) in
      (0 <? e)%nat && (0 <? d)%nat && at_end l
  end.

End SciRe.

(** ** Builtins of the language the script relies on *)

Class PyEnv := {
  (** [float(s)]; [None] when it raises [ValueError] *)
  py_float : string -> option float;
  (** [int(s)]; [None] when it raises [ValueError] *)
  py_int : string -> option Z;
  (** ['{0:.1e}'.format(x)] *)
  format_1e : float -> string
}.

(** [str(n)] for an integer. *)
Definition str_int (n : Z) : string := NilZero.string_of_int (Z.to_int n).

(** ** Data model *)

(** One entry of [nuclide.decay_modes], a dictionary read at the keys
    ['mode'] and ['value']. *)
Record DecayMode := { mode : string; value : string }.

Record HalfLife := {
  hl_value : string;
  hl_unit : string;
  hl_relation : string;
  hl_extrapolated : string
}.

Record Nuclide := {
  nuc_Z : Z;
  nuc_A : Z;
  nuc_N : Z;
  element : string;
  decay_modes : list DecayMode;
  half_life : HalfLife
}.

Definition set_decay_modes (n : Nuclide) (dm : list DecayMode) : Nuclide :=
  {| nuc_Z := nuc_Z n; nuc_A := nuc_A n; nuc_N := nuc_N n;
     element := element n; decay_modes := dm; half_life := half_life n |}.

(** The namespace [parser.parse_args()] returns; parsing has opened both
    files, and the output file is written to at line 607 only. *)
Record Args := {
  names : bool;
  halflives : bool;
  magic : bool;
  numbers : bool;
  unknown : bool;
  arg_Z : Z * Z;
  arg_N : Z * Z
}.

(** ** The scene: four layers of elements *)

Inductive corner := lt | rt | rb.
Inductive size_class := large | small.

(** Modelled from the spec: the [Nuclide] class and its [__str__] are not
    among the sources; the spec derives an element identifier from the
    isotope's (N, Z) coordinate plus a marker index suffix. *)
Definition nuclide_str (n : Nuclide) : Z * Z := (nuc_N n, nuc_Z n).

Inductive svg_element :=
| rect (id : Z * Z * nat) (position : Z * Z) (fill : string)
| triangle (id : Z * Z * nat) (position : Z * Z) (fill : string) (c : corner)
| small_triangle (id : Z * Z * nat) (position : Z * Z) (fill : string) (c : corner)
| text (x y : Q) (font_color : string) (font_size : Q) (content : string)
| line (id : Z * string) (x1 y1 x2 y2 : Q).

Inductive layer_id := layer0 | layer1 | layer2 | layer3.

Record Layers := {
  squares : list svg_element;
  triangles : list svg_element;
  lines : list svg_element;
  texts : list svg_element
}.

Definition no_layers : Layers :=
  {| squares := []; triangles := []; lines := []; texts := [] |}.

Definition appendChild (l : layer_id) (e : svg_element) (ls : Layers) : Layers :=
  match l with
  | layer0 => {| squares := squares ls ++ [e]; triangles := triangles ls;
                 lines := lines ls; texts := texts ls |}
  | layer1 => {| squares := squares ls; triangles := triangles ls ++ [e];
                 lines := lines ls; texts := texts ls |}
  | layer2 => {| squares := squares ls; triangles := triangles ls;
                 lines := lines ls ++ [e]; texts := texts ls |}
  | layer3 => {| squares := squares ls; triangles := triangles ls;
                 lines := lines ls; texts := texts ls ++ [e] |}
  end.

Definition _draw_rectangle (layer : layer_id) (position : Z * Z) (color : string)
    (name : Z * Z * nat) : Layers -> Layers :=
  appendChild layer (rect name position color).

(** The points of a triangle are a function of [position] and of the
    corner; [_draw_triangle] knows ['lt'] and treats every other corner as
    the right bottom one. *)
Definition _draw_triangle (layer : layer_id) (position : Z * Z) (color : string)
    (name : Z * Z * nat) (c : corner) : Layers -> Layers :=
  appendChild layer (triangle name position color (match c with lt => lt | _ => rb end)).

Definition _draw_small_triangle (layer : layer_id) (position : Z * Z) (color : string)
    (name : Z * Z * nat) (c : corner) : Layers -> Layers :=
  appendChild layer (small_triangle name position color c).

Definition _draw_text (layer : layer_id) (position : Q * Q) (font_color : string)
    (font_size : Q) (content : string) : Layers -> Layers :=
  appendChild layer (text (fst position) (snd position) font_color font_size content).

Definition _draw_line (layer : layer_id) (begin_ end_ : Q * Q) (name : Z * string)
  : Layers -> Layers :=
  appendChild layer (line name (fst begin_) (snd begin_) (fst end_) (snd end_)).

(** ** Statements that update a state and may return or raise *)

Definition stateful (S A : Type) : Type := S -> flow A * S.

#[global] Instance stateful_ret {S} : MRet (stateful S) := fun _ a s => (Go a, s).

#[global] Instance stateful_bind {S} : MBind (stateful S) := fun _ _ k c s =>
  match c s with
  | (Go a, s') => k a s'
  | (Return, s') => (Return, s')
  | (Raise e, s') => (Raise e, s')
  end.

(** A computation that does not touch the state. *)
Definition pure {S A} (c : flow A) : stateful S A := fun s => (c, s).

(** A statement that only updates the state. *)
Definition update {S} (f : S -> S) : stateful S unit := fun s => (Go tt, f s).

Definition when {S} (b : bool) (c : stateful S unit) : stateful S unit :=
  if b then c else mret tt.

(** [for i in l: body(i)] *)
Fixpoint for_each {S A} (l : list A) (body : A -> stateful S unit) : stateful S unit :=
  match l with
  | [] => mret tt
  | a :: l' => body a;; for_each l' body
  end.

(** Reading a local variable that may not have been assigned. *)
Definition read_local {A} (v : option A) : flow A :=
  match v with
  | Some a => Go a
  | None => Raise UnboundLocalError
  end.

(** [l[i]] for a Python list: negative indices count from the end. *)
Definition py_getitem {A} (l : list A) (i : Z) : flow A :=
  let len := Z.of_nat (length l) in
  let j := if i <? 0 then i + len else i in
  if (0 <=? j) && (j <? len) then
    match l !! Z.to_nat j with
    | Some a => Go a
    | None => Raise IndexError
    end
  else Raise IndexError.

(** [l[i] = x] *)
Definition py_setitem {A} (l : list A) (i : Z) (x : A) : flow (list A) :=
  let len := Z.of_nat (length l) in
  let j := if i <? 0 then i + len else i in
  if (0 <=? j) && (j <? len) then Go (<[Z.to_nat j := x]> l)
  else Raise IndexError.

(** ** draw_nuclide *)

Section DrawNuclide.
Context `{PyEnv}.

(** [for i in range(k, len(decay_modes))]: the first index, counted
    from [i], whose mode is a basic one. *)
Fixpoint first_basic (i : nat) (l : list DecayMode) : option nat :=
  match l with
  | [] => None
  | m :: l' => if in_basic (mode m) then Some i else first_basic (S i) l'
  end.

(** [dm[0], dm[i] = dm[i], dm[0]] *)
Definition swap_modes (dm : list DecayMode) (i : nat) : list DecayMode :=
  match dm !! 0%nat, dm !! i with
  | Some a, Some b => <[i := a]> (<[0%nat := b]> dm)
  | _, _ => dm
  end.

(** Lines 293 to 311, the choice of the primary colour, as a statement
    over the decay-mode list, which it may reorder in place. *)
Definition primary_step (unknown : bool) : stateful (list DecayMode) string :=
  fun dm =>
  match dm !! 0%nat with
  | None => (Raise IndexError, dm)
  | Some m0 =>
      if in_basic (mode m0) then (COLORS_at (mode m0), dm)
      else if String.eqb (mode m0) "?" && unknown then (Go COLORS_unknown, dm)
      else if (1 <? length dm)%nat then
        match first_basic 1 (drop 1 dm) with
        | Some i =>
            let dm' := swap_modes dm i in
            (m ← py_getitem dm' 0; COLORS_at (mode m), dm')
        | None => (Return, dm)
        end
      else (Return, dm)
  end.

(** [secondary_size] and [secondary_color] (likewise the tertiary
    pair); the colour is unbound until first assigned. *)
Record marker := { m_size : option size_class; m_color : option string }.

Definition no_marker : marker := {| m_size := None; m_color := None |}.

Definition branching (m : DecayMode) : option float :=
  py_float (PyStr.strip "#" (value m)).

(** The loop over [range(1, len(decay_modes))]; [l] holds the modes not
    visited yet. *)
Fixpoint secondary_scan (primary_color : string) (l : list DecayMode)
    (st : marker) : flow marker :=
  match l with
  | [] => Go st
  | m :: l' =>
      if in_basic (mode m) then
        match branching m with
        | None => secondary_scan primary_color l' st
        | Some v =>
            c ← COLORS_at (mode m);
            let size :=
              if (5 <? v)%float && negb (String.eqb primary_color COLORS_is)
              then Some large
              else if (0 <? v)%float then Some small
              else m_size st in
            secondary_scan primary_color l' {| m_size := size; m_color := Some c |}
        end
      else if ClusterRe.search (mode m) then
        Go {| m_size := Some small; m_color := Some COLORS_cluster |}
      else secondary_scan primary_color l' st
  end.

(** The loop over [range(2, len(decay_modes))]. *)
Fixpoint tertiary_scan (l : list DecayMode) (st : marker) : flow marker :=
  match l with
  | [] => Go st
  | m :: l' =>
      if in_basic (mode m) then
        match branching m with
        | None => tertiary_scan l' st
        | Some v =>
            if (0 <? v)%float then
              c ← COLORS_at (mode m);
              Go {| m_size := Some small; m_color := Some c |}
            else Go st
        end
      else if ClusterRe.search (mode m) then
        Go {| m_size := Some small; m_color := Some COLORS_cluster |}
      else tertiary_scan l' st
  end.

Definition is_size (s : size_class) (o : option size_class) : bool :=
  match o, s with
  | Some large, large | Some small, small => true
  | _, _ => false
  end.

(** Lines 326 to 364: both scans. *)
Definition resolve_markers (primary_color : string) (dm : list DecayMode)
  : flow (marker * marker) :=
  if (1 <? length dm)%nat then
    sec ← secondary_scan primary_color (drop 1 dm) no_marker;
    if (2 <? length dm)%nat &&
       (is_size large (m_size sec) ||
        (is_size small (m_size sec) && String.eqb primary_color COLORS_is))
    then
      ter ← tertiary_scan (drop 2 dm) no_marker;
      Go (sec, ter)
    else Go (sec, no_marker)
  else Go (no_marker, no_marker).

Definition secondary_corner (large_one : bool) (primary_color secondary_color : string)
  : corner :=
  if String.eqb secondary_color COLORS_a then lt
  else if String.eqb secondary_color COLORS_bplus &&
          negb (String.eqb primary_color COLORS_a) &&
          negb (String.eqb primary_color COLORS_p) then lt
  else if negb large_one && String.eqb secondary_color COLORS_cluster then rt
  else rb.

Definition tertiary_corner (primary_color : string) (secondary_color : option string)
    (tertiary_color : string) : flow corner :=
  if String.eqb tertiary_color COLORS_a then Go lt
  else if String.eqb tertiary_color COLORS_bplus &&
          negb (String.eqb primary_color COLORS_a) then
    sc ← read_local secondary_color;
    if negb (String.eqb sc COLORS_a) then Go lt
    else if String.eqb tertiary_color COLORS_cluster then Go rt
    else Go rb
  else if String.eqb tertiary_color COLORS_cluster then Go rt
  else Go rb.

Definition half_life_string (nuclide : Nuclide) (primary_color : string) : flow string :=
  let hl := half_life nuclide in
  if negb (String.eqb primary_color COLORS_is) then
    s ← (if SciRe.search (hl_value hl) then
           match py_float (hl_value hl) with
           | Some x => Go (format_1e x)
           | None => Raise ValueError
           end
         else Go (hl_value hl));
    if negb (String.eqb (hl_value hl) "?") then
      let s := String.append s (String.append " " (hl_unit hl)) in
      if negb (String.eqb (hl_relation hl) "=")
      then Go (String.append (hl_relation hl) (String.append " " s))
      else Go s
    else Go s
  else
    m ← py_getitem (decay_modes nuclide) 0; Go (value m).

(** Lines 366 to 441: what is appended to the layers once the colours
    and the marker sizes are known. *)
Definition draw_shapes (nuclide : Nuclide) (position : Z * Z) (args : Args)
    (primary_color : string) (sec ter : marker) : stateful Layers unit :=
  let name k := (nuclide_str nuclide, k) in
  update (_draw_rectangle layer0 position primary_color (name 0%nat));;
  match m_size sec with
  | Some large =>
      c ← pure (read_local (m_color sec));
      update (_draw_triangle layer1 position c (name 1%nat)
                (secondary_corner true primary_color c))
  | Some small =>
      c ← pure (read_local (m_color sec));
      update (_draw_small_triangle layer1 position c (name 1%nat)
                (secondary_corner false primary_color c))
  | None => mret tt
  end;;
  match m_size ter with
  | Some small =>
      c ← pure (read_local (m_color ter));
      k ← pure (tertiary_corner primary_color (m_color sec) c);
      update (_draw_small_triangle layer1 position c (name 2%nat) k)
  | _ => mret tt
  end;;
  let font_color :=
    if String.eqb primary_color COLORS_is then FONT_COLOR_BRIGHT else FONT_COLOR_DARK in
  when (names args)
    (let element_name :=
       String.append (element nuclide) (String.append " " (str_int (nuc_A nuclide))) in
     let tx := Qred (inject_Z (fst position) + inject_Z SIZE_SHAPE / 2) in
     let ty := Qred (inject_Z (snd position) + inject_Z SIZE_GAP
                     + (5 # 4) * inject_Z SIZE_FONT) in
     update (_draw_text layer3 (tx, ty) font_color (inject_Z SIZE_FONT) element_name));;
  when (halflives args && negb (String.eqb (hl_extrapolated (half_life nuclide)) "True"))
    (s ← pure (half_life_string nuclide primary_color);
     let tx := Qred (inject_Z (fst position) + inject_Z SIZE_SHAPE / 2) in
     let ty := Qred (inject_Z (snd position) + inject_Z SIZE_SHAPE
                     - (3 # 2) * inject_Z SIZE_FONT_HL) in
     update (_draw_text layer3 (tx, ty) font_color (inject_Z SIZE_FONT_HL) s)).

(** [draw_nuclide(nuclide, layers, position, args)]: how the call ends,
    and the nuclide and the layers as it leaves them. *)
Definition draw_nuclide (nuclide : Nuclide) (layers : Layers) (position : Z * Z)
    (args : Args) : flow unit * (Nuclide * Layers) :=
  let '(r, dm) := primary_step (unknown args) (decay_modes nuclide) in
  let nuclide := set_decay_modes nuclide dm in
  match r with
  | Return => (Return, (nuclide, layers))
  | Raise e => (Raise e, (nuclide, layers))
  | Go primary_color =>
      if PyStr.contains "unstable" (hl_value (half_life nuclide))
      then (Return, (nuclide, layers))
      else
        match resolve_markers primary_color (decay_modes nuclide) with
        | Return => (Return, (nuclide, layers))
        | Raise e => (Raise e, (nuclide, layers))
        | Go (sec, ter) =>
            let '(r, layers) :=
              draw_shapes nuclide position args primary_color sec ter layers in
            (r, (nuclide, layers))
        end
  end.

End DrawNuclide.

(** ** load_xml_nuclear_table *)

(** What the constructor reads below a [nuclide] node. *)
Record NuclideFields := {
  f_element : string;
  f_decay_modes : list DecayMode;
  f_half_life : HalfLife
}.

(** A [nuclide] node of the document: its attributes, and what the
    constructor finds below it ([None] when it raises [ValueError] or
    [LookupError]). *)
Record XmlNuclide := {
  attr_A : string;
  attr_Z : string;
  attr_id : string;
  fields : option NuclideFields
}.

(** Modelled from the spec: the [Nuclide] module with [NuclideXml] is
    not among the sources; an isotope has the identity (Z, A), the
    derived N = A - Z, and the fields of its record. *)
Definition NuclideXml (Z A : Z) (node : XmlNuclide) : option Nuclide :=
  match fields node with
  | Some f =>
      Some {| nuc_Z := Z; nuc_A := A; nuc_N := A - Z;
              element := f_element f; decay_modes := f_decay_modes f;
              half_life := f_half_life f |}
  | None => None
  end.

Inductive message :=
| import_error (id : string)
| document_error
| wrong_N_range (lo hi : Z)
| wrong_Z_range (lo hi : Z)
| try_help
| index_error (nuclide : Z * Z).

(** The variables of the ingestion loop. *)
Record Ingest := {
  data : list Nuclide;
  n_limits : Z * Z;
  z_limits : Z * Z;
  printed : list message
}.

Section Load.
Context `{PyEnv}.

Definition in_window (n_range z_range : Z * Z) (N Z : Z) : bool :=
  (fst n_range <=? N) && (N <=? snd n_range) &&
  (fst z_range <=? Z) && (Z <=? snd z_range).

(** Lines 136 to 143. *)
Definition widen (limits : Z * Z) (v : Z) : Z * Z :=
  let limits := if v <? fst limits then (v, snd limits) else limits in
  if snd limits <? v then (fst limits, v) else limits.

Definition complain (node : XmlNuclide) (st : Ingest) : Ingest :=
  {| data := data st; n_limits := n_limits st; z_limits := z_limits st;
     printed := printed st ++ [import_error (attr_id node)] |}.

(** The loop over the [nuclide] nodes, lines 124 to 148. *)
Fixpoint ingest (n_range z_range : Z * Z) (nodes : list XmlNuclide) (st : Ingest)
  : Ingest :=
  match nodes with
  | [] => st
  | node :: rest =>
      match py_int (attr_A node), py_int (attr_Z node) with
      | Some A, Some Z =>
          let N := A - Z in
          if negb (in_window n_range z_range N Z) then
            ingest n_range z_range rest st
          else if (snd n_range <? N) && (snd z_range <? Z) then st
          else
            let nl := widen (n_limits st) N in
            let zl := widen (z_limits st) Z in
            match NuclideXml Z A node with
            | Some isotope =>
                ingest n_range z_range rest
                  {| data := data st ++ [isotope]; n_limits := nl; z_limits := zl;
                     printed := printed st |}
            | None =>
                ingest n_range z_range rest
                  (complain node {| data := data st; n_limits := nl; z_limits := zl;
                                    printed := printed st |})
            end
      | _, _ => ingest n_range z_range rest (complain node st)
      end
  end.

(** [load_xml_nuclear_table]; the document is [None] when it cannot be
    read or parsed, and then the function returns [None] for the data. *)
Definition load_xml_nuclear_table (datafile : option (list XmlNuclide))
    (n_range z_range : Z * Z) : option (list Nuclide) * Ingest :=
  let st := {| data := [];
               n_limits := (snd n_range, fst n_range);
               z_limits := (snd z_range, fst z_range);
               printed := [] |} in
  match datafile with
  | None =>
      (None, {| data := []; n_limits := n_limits st; z_limits := z_limits st;
                printed := [document_error] |})
  | Some nodes =>
      let st' := ingest n_range z_range nodes st in
      (Some (data st'), st')
  end.

End Load.

(** ** Magic numbers and axis numbering *)

(** [n_magic] and [z_magic]: dictionaries from a magic number to the list
    [[low, high]], in insertion order. *)
Definition magic_dict := list (Z * (Z * Z)).

Fixpoint magic_get (d : magic_dict) (k : Z) : option (Z * Z) :=
  match d with
  | [] => None
  | (k', v) :: d' => if k' =? k then Some v else magic_get d' k
  end.

(** [d[k] = v]: an existing key keeps its place. *)
Fixpoint magic_set (d : magic_dict) (k : Z) (v : Z * Z) : magic_dict :=
  match d with
  | [] => [(k, v)]
  | (k', v') :: d' => if k' =? k then (k, v) :: d' else (k', v') :: magic_set d' k v
  end.

Definition is_magic (k : Z) : bool := existsb (Z.eqb k) MAGIC_NUMBERS.

(** Lines 580 to 585 (and 586 to 591 with the coordinates exchanged). *)
Definition magic_record (d : magic_dict) (k other : Z) : magic_dict :=
  if is_magic k then
    match magic_get d k with
    | Some (lo, hi) => if hi <? other then magic_set d k (lo, other) else d
    | None => magic_set d k (other, other)
    end
  else d.

Definition Qz (z : Z) : Q := inject_Z z.

(** [range(0, k)] *)
Definition range0 (k : Z) : list Z := map Z.of_nat (seq 0 (Z.to_nat k)).

(** [range(a, b)] *)
Definition range (a b : Z) : list Z := map (fun i => a + i) (range0 (b - a)).

Definition draw_magic_lines (n_magic z_magic : magic_dict) (n_limits z_limits : Z * Z)
    (size : Z * Z) (layers : Layers) : Layers :=
  let half_gap := (Qz SIZE_GAP / 2)%Q in
  let layers :=
    fold_left (fun layers '(N, limits) =>
      let x1 := Qred (Qz ((N - fst n_limits + 1) * SIZE_FIELD) + half_gap) in
      let y1 := Qred (Qz (snd size - (snd limits - fst z_limits + 2) * SIZE_FIELD) - half_gap) in
      let y2 := Qred (Qz (snd size - (fst limits - fst z_limits + 1) * SIZE_FIELD) - half_gap) in
      let layers := _draw_line layer2 (x1, y1) (x1, y2) (N, "n0") layers in
      let x1 := Qred (Qz ((N - fst n_limits + 2) * SIZE_FIELD) + half_gap) in
      _draw_line layer2 (x1, y1) (x1, y2) (N, "n1") layers)
      n_magic layers in
  fold_left (fun layers '(Z, limits) =>
    let x1 := Qred (Qz ((fst limits - fst n_limits + 1) * SIZE_FIELD) + half_gap) in
    let x2 := Qred (Qz ((snd limits - fst n_limits + 2) * SIZE_FIELD) + half_gap) in
    let y1 := Qred (Qz (snd size - (Z - fst z_limits + 2) * SIZE_FIELD) - half_gap) in
    let layers := _draw_line layer2 (x1, y1) (x2, y1) (Z, "z0") layers in
    let y1 := Qred (Qz (snd size - (Z - fst z_limits + 1) * SIZE_FIELD) - half_gap) in
    _draw_line layer2 (x1, y1) (x2, y1) (Z, "z1") layers)
    z_magic layers.

(** The [while] of lines 470 and 480, as a loop with a step budget:
    [cell k] is the indexing expression at counter [k];
    [None] when the budget runs out. *)
Fixpoint while_unoccupied (fuel : nat) (cell : Z -> flow bool) (bound k : Z)
  : option (flow Z) :=
  match fuel with
  | O => None
  | S fuel' =>
      match cell k with
      | Go occupied =>
          if negb occupied && (k <? bound)
          then while_unoccupied fuel' cell bound (k + 1)
          else Some (Go k)
      | Return => Some Return
      | Raise e => Some (Raise e)
      end
  end.

(** The same loop, walking the cells from counter [k] on; running past
    the last cell is the indexing error. *)
Fixpoint first_occupied (cells : list (flow bool)) (bound k : Z) : flow Z :=
  match cells with
  | [] => Raise IndexError
  | c :: cells' =>
      occupied ← c;
      if negb occupied && (k <? bound)
      then first_occupied cells' bound (k + 1)
      else Go k
  end.

Section DrawNumbers.
Context `{PyEnv}.

(** One turn of the loop over [n], lines 468 to 476. *)
Definition number_column (shape : list (list bool)) (n_limits z_limits size : Z * Z)
    (n : Z) : stateful Layers unit :=
  if ((n + fst n_limits) mod 2 =? 0) && (0 <? n + fst n_limits) then
    z_first ← pure (row ← py_getitem shape n;
                    first_occupied (map Go row) (snd z_limits - fst z_limits + 1) 0);
    let x := Qred (Qz ((n + 1) * SIZE_FIELD + SIZE_GAP) + Qz SIZE_SHAPE / 2) in
    let y := Qred (Qz (snd size - (z_first + 1) * SIZE_FIELD + SIZE_GAP)
                   + (5 # 4) * Qz SIZE_FONT) in
    update (_draw_text layer3 (x, y) "#000000" (Qz SIZE_FONT * (3 # 2))
              (str_int (n + fst n_limits)))
  else mret tt.

(** One turn of the loop over [z], lines 478 to 486. *)
Definition number_row (shape : list (list bool)) (n_limits z_limits size : Z * Z)
    (z : Z) : stateful Layers unit :=
  if ((z + fst z_limits mod 2) mod 2 =? 0) && (0 <? z + fst z_limits) then
    n_first ← pure (first_occupied (map (fun row => py_getitem row z) shape)
                      (snd n_limits - fst n_limits + 1) 0);
    let x := Qred (Qz (n_first * SIZE_FIELD) + Qz SIZE_SHAPE / 2 + Qz (3 * SIZE_GAP)) in
    let y := Qred (Qz (snd size - (z + 2) * SIZE_FIELD) + Qz SIZE_SHAPE / 2
                   + Qz (2 * SIZE_GAP)) in
    update (_draw_text layer3 (x, y) "#000000" (Qz SIZE_FONT * (3 # 2))
              (str_int (z + fst z_limits)))
  else mret tt.

Definition draw_numbers (shape : list (list bool)) (n_limits z_limits size : Z * Z)
  : stateful Layers unit :=
  for_each (range0 (snd n_limits - fst n_limits + 1))
    (number_column shape n_limits z_limits size);;
  for_each (range0 (snd z_limits - fst z_limits + 1))
    (number_row shape n_limits z_limits size).

End DrawNumbers.

(** ** The script body *)

Record Svg := { width : Z; height : Z; groups : Layers }.

(** What a run does that can be observed from outside. *)
Inductive event :=
| Print (m : message)
| ParseDatafile
| WriteOutfile (doc : Svg).

Record Run := { trace : list event; exit_status : Z }.

(** [exit(code)] raises [SystemExit(code)]; the interpreter ends with
    status 0 when the code is [None]. *)
Definition exit (code : option Z) : Z :=
  match code with
  | None => 0
  | Some c => c
  end.

(** An exception nobody catches ends the interpreter with status 1. *)
Definition uncaught (e : exn) : Z := 1.

(** The variables of the loop of lines 577 to 601; [drawn] collects the
    nuclides as [draw_nuclide] leaves them. *)
Record Plot := {
  n_magic : magic_dict;
  z_magic : magic_dict;
  shape : list (list bool);
  layers : Layers;
  drawn : list Nuclide;
  said : list message
}.

Section Main.
Context `{PyEnv}.

(** Lines 559 and 560. *)
Definition canvas_size (n_limits z_limits : Z * Z) : Z * Z :=
  ((snd n_limits - fst n_limits + 2) * SIZE_FIELD + SIZE_GAP,
   (snd z_limits - fst z_limits + 2) * SIZE_FIELD + SIZE_GAP).

(** Lines 568 to 573. *)
Definition empty_shape (n_limits z_limits : Z * Z) : list (list bool) :=
  map (fun _ => map (fun _ => false) (range (fst z_limits) (snd z_limits + 1)))
      (range (fst n_limits) (snd n_limits + 1)).

(** [shape[i][j] = True] *)
Definition mark (shape : list (list bool)) (i j : Z) : flow (list (list bool)) :=
  row ← py_getitem shape i;
  row' ← py_setitem row j true;
  py_setitem shape i row'.

(** One turn of the loop over [data]. *)
Definition plot (args : Args) (n_limits z_limits size : Z * Z) (nuclide : Nuclide)
  : stateful Plot unit := fun st =>
  let N := nuc_N nuclide in
  let Z := nuc_Z nuclide in
  let nm := magic_record (n_magic st) N Z in
  let zm := magic_record (z_magic st) Z N in
  match mark (shape st) (N - fst n_limits) (Z - fst z_limits) with
  | Go shape' =>
      let x := (N - fst n_limits + 1) * SIZE_FIELD + SIZE_GAP in
      let y := snd size - (Z - fst z_limits + 2) * SIZE_FIELD in
      let '(r, (nuclide', layers')) := draw_nuclide nuclide (layers st) (x, y) args in
      let st' (msgs : list message) :=
        {| n_magic := nm; z_magic := zm; shape := shape'; layers := layers';
           drawn := drawn st ++ [nuclide']; said := said st ++ msgs |} in
      match r with
      | Raise IndexError => (Go tt, st' [index_error (nuclide_str nuclide')])
      | Raise e => (Raise e, st' [])
      | _ => (Go tt, st' [])
      end
  | Return => (Return, st)
  | Raise e =>
      (Raise e, {| n_magic := nm; z_magic := zm; shape := shape st; layers := layers st;
                   drawn := drawn st; said := said st |})
  end.

(** The loop over [data], from the empty dictionaries, the blank grid
    and the empty layers. *)
Definition plot_all (args : Args) (n_limits z_limits : Z * Z) (data : list Nuclide)
  : flow unit * Plot :=
  for_each data (plot args n_limits z_limits (canvas_size n_limits z_limits))
    {| n_magic := []; z_magic := [];
       shape := empty_shape n_limits z_limits;
       layers := no_layers; drawn := []; said := [] |}.

Definition main (args : Args) (datafile : option (list XmlNuclide)) : Run :=
  if snd (arg_N args) <? fst (arg_N args) then
    {| trace := [Print (wrong_N_range (fst (arg_N args)) (snd (arg_N args)));
                 Print try_help];
       exit_status := exit None |}
  else if snd (arg_Z args) <? fst (arg_Z args) then
    {| trace := [Print (wrong_Z_range (fst (arg_Z args)) (snd (arg_Z args)));
                 Print try_help];
       exit_status := exit None |}
  else
    let '(data, st) := load_xml_nuclear_table datafile (arg_N args) (arg_Z args) in
    let loading := ParseDatafile :: map Print (printed st) in
    let size := canvas_size (n_limits st) (z_limits st) in
    match data with
    | None => {| trace := loading; exit_status := uncaught TypeError |}
    | Some data =>
        let '(r, st1) := plot_all args (n_limits st) (z_limits st) data in
        let plotting := loading ++ map Print (said st1) in
        match r with
        | Raise e => {| trace := plotting; exit_status := uncaught e |}
        | _ =>
            let layers1 :=
              if magic args
              then draw_magic_lines (n_magic st1) (z_magic st1)
                     (n_limits st) (z_limits st) size (layers st1)
              else layers st1 in
            let '(r, layers2) :=
              if numbers args
              then draw_numbers (shape st1) (n_limits st) (z_limits st) size layers1
              else (Go tt, layers1) in
            match r with
            | Raise e => {| trace := plotting; exit_status := uncaught e |}
            | _ =>
                {| trace := plotting ++
                     [WriteOutfile {| width := fst size; height := snd size;
                                      groups := layers2 |}];
                   exit_status := 0 |}
            end
        end
    end.

End Main.

(** A decimal reader for short plain literals such as [99.98], used to
    run the definitions: digits, at most one point, nothing else.  On
    these (up to fifteen digits) the quotient of the two exactly
    represented integers is the correctly rounded value, which is what
    [float] returns. *)
Module Decimal.
Import PyStr.

Fixpoint digits (acc : Z) (l : list ascii) : option (Z * list ascii) :=
  match l with
  | c :: l' =>
      if is_digit c then digits (10 * acc + (Z.of_nat (nat_of_ascii c) - 48)) l'
      else Some (acc, l)
  | [] => Some (acc, [])
  end.

Fixpoint float_of_positive (p : positive) : float :=
  match p with
  | xH => 1%float
  | xO q => (2 * float_of_positive q)%float
  | xI q => (2 * float_of_positive q + 1)%float
  end.

Definition float_of_Z (z : Z) : float :=
  match z with
  | Z0 => 0%float
  | Zpos p => float_of_positive p
  | Zneg p => PrimFloat.opp (float_of_positive p)
  end.

Definition read_float (s : string) : option float :=
  match chars s with
  | [] => None
  | l =>
      if forallb (fun c => is_digit c || Ascii.eqb c ".") l &&
         (length (filter (fun c => Ascii.eqb c "." = true) l) <=? 1)%nat &&
         existsb is_digit l && (length l <=? 15)%nat
      then
        match digits 0 l with
        | Some (a, []) => Some (float_of_Z a)
        | Some (a, _ :: frac) =>
            match digits 0 frac with
            | Some (b, _) =>
                let scale := 10 ^ Z.of_nat (length frac) in
                Some (PrimFloat.div (float_of_Z (a * scale + b)) (float_of_Z scale))
            | None => None
            end
        | None => None
        end
      else None
  end.

Definition read_int (s : string) : option Z :=
  match chars s with
  | [] => None
  | l => if forallb is_digit l then option_map fst (digits 0 l) else None
  end.

End Decimal.

(** The instance used to evaluate the script on examples; no half-life
    of the samples is in scientific notation, so the formatter is not
    exercised. *)
Definition example_env : PyEnv :=
  {| py_float := Decimal.read_float;
     py_int := Decimal.read_int;
     format_1e := fun _ => "" |}.



(** ** Sample inputs *)

Module Sample.

Definition dm (m v : string) : DecayMode := {| mode := m; value := v |}.

Definition seconds (v : string) : HalfLife :=
  {| hl_value := v; hl_unit := "s"; hl_relation := "="; hl_extrapolated := "False" |}.

Definition nuclide (Z A : Z) (modes : list DecayMode) : Nuclide :=
  {| nuc_Z := Z; nuc_A := A; nuc_N := A - Z; element := "X";
     decay_modes := modes; half_life := seconds "12.3" |}.

Definition node (A Z : string) (modes : list DecayMode) : XmlNuclide :=
  {| attr_A := A; attr_Z := Z; attr_id := A;
     fields := Some {| f_element := "X"; f_decay_modes := modes;
                       f_half_life := seconds "12.3" |} |}.

(** Every display switch on. *)
Definition args (N Z : Z * Z) : Args :=
  {| names := true; halflives := true; magic := true; numbers := true;
     unknown := true; arg_Z := Z; arg_N := N |}.

(** Shapes only. *)
Definition bare (unknown : bool) : Args :=
  {| names := false; halflives := false; magic := false; numbers := false;
     unknown := unknown; arg_Z := (0, 120); arg_N := (0, 180) |}.

End Sample.

(** ** Vocabulary of the statements about the two scans *)

Section Scans.
Context `{PyEnv}.

(** The secondary scan goes on to the next mode after [x]: only a
    cluster emission ends it. *)
Definition secondary_passes (x : DecayMode) : bool :=
  in_basic (mode x) || negb (ClusterRe.search (mode x)).

(** [x] assigns [secondary_size] when the secondary scan visits it. *)
Definition assigns_size (primary_color : string) (x : DecayMode) : bool :=
  if in_basic (mode x) then
    match branching x with
    | Some v =>
        ((5 <? v)%float && negb (String.eqb primary_color COLORS_is)) || (0 <? v)%float
    | None => false
    end
  else ClusterRe.search (mode x).

(** [m], met after the modes [pre] and followed by the modes [post], is
    the mode whose assignment the secondary scan ends with: the scan
    reaches [m], no later mode assigns the size, and, should [m] assign
    none itself, no earlier mode did. *)
Definition selects (primary_color : string) (pre : list DecayMode) (m : DecayMode)
    (post : list DecayMode) : Prop :=
  Forall (fun x => secondary_passes x = true) pre /\
  Forall (fun x => assigns_size primary_color x = false) post /\
  (assigns_size primary_color m = true \/
   Forall (fun x => assigns_size primary_color x = false) pre).

(** The tertiary scan goes on to the next mode after [x]: [x] is a
    basic mode whose value does not parse, or neither basic nor a
    cluster emission. *)
Definition tertiary_passes (x : DecayMode) : bool :=
  if in_basic (mode x) then
    match branching x with
    | Some _ => false
    | None => true
    end
  else negb (ClusterRe.search (mode x)).

(** The tertiary scan is entered, lines 346 to 348. *)
Definition tertiary_runs (primary_color : string) (dm : list DecayMode) (sec : marker)
  : bool :=
  (2 <? length dm)%nat &&
  (is_size large (m_size sec) ||
   (is_size small (m_size sec) && String.eqb primary_color COLORS_is)).

End Scans.

(** ** Vocabulary of the statements about the window *)

Section Window.
Context `{PyEnv}.

(** The (N, Z) pairs the limits are computed from: the nodes whose
    attributes are integers and that lie in the requested window. *)
Fixpoint observed (n_range z_range : Z * Z) (nodes : list XmlNuclide) : list (Z * Z) :=
  match nodes with
  | [] => []
  | node :: rest =>
      match py_int (attr_A node), py_int (attr_Z node) with
      | Some A, Some Z =>
          if in_window n_range z_range (A - Z) Z
          then (A - Z, Z) :: observed n_range z_range rest
          else observed n_range z_range rest
      | _, _ => observed n_range z_range rest
      end
  end.


End Window.

Definition is_greatest (m : Z) (l : list Z) : Prop := m ∈ l /\ forall x, x ∈ l -> x <= m.

(** ** Vocabulary of the statements about markers *)

(** A marker with a size has had its colour assigned. *)
Definition colored (mk : marker) : Prop := m_size mk <> None -> m_color mk <> None.

(** No large marker on a stable primary colour. *)
Definition never_large_on_stable (primary_color : string) (mk : marker) : Prop :=
  m_size mk = Some large -> primary_color <> COLORS_is.

(** Triangles drawn for a marker, and text elements drawn for a nuclide. *)
Definition marker_count (mk : marker) : nat :=
  match m_size mk with
  | Some _ => 1
  | None => 0
  end.

Definition text_count (args : Args) (nuclide : Nuclide) : nat :=
  ((if names args then 1 else 0) +
   (if halflives args && negb (String.eqb (hl_extrapolated (half_life nuclide)) "True")
    then 1 else 0))%nat.

(** ** Vocabulary of the statements about ingestion and the grid *)

(** What the ingestion loop does with one node. *)
Inductive fate :=
| retained (isotope : Nuclide)
| reported
| skipped.

Definition node_fate `{PyEnv} (n_range z_range : Z * Z) (node : XmlNuclide) : fate :=
  match py_int (attr_A node), py_int (attr_Z node) with
  | Some A, Some Z =>
      if in_window n_range z_range (A - Z) Z then
        match NuclideXml Z A node with
        | Some isotope => retained isotope
        | None => reported
        end
      else skipped
  | _, _ => reported
  end.

Definition kept (f : fate) : option Nuclide :=
  match f with
  | retained isotope => Some isotope
  | _ => None
  end.

Definition complaint (node : XmlNuclide) (f : fate) : option message :=
  match f with
  | reported => Some (import_error (attr_id node))
  | _ => None
  end.

(** A nuclide between the limits. *)
Definition within (n_limits z_limits : Z * Z) (n : Nuclide) : Prop :=
  fst n_limits <= nuc_N n <= snd n_limits /\ fst z_limits <= nuc_Z n <= snd z_limits.

(** A list of rows of one length. *)
Definition grid (rows cols : nat) (shape : list (list bool)) : Prop :=
  length shape = rows /\ Forall (fun row => length row = cols) shape.

(** The cell [shape[i][j]], for indices counted from 0. *)
Definition cell (shape : list (list bool)) (i j : nat) : option bool :=
  row ← shape !! i; row !! j.

(** The position the loop of the script body passes for a nuclide, lines
    596 and 597, with the canvas size of lines 559 and 560. *)
Definition cell_position (n_limits z_limits : Z * Z) (n z : Z) : Z * Z :=
  ((n - fst n_limits + 1) * SIZE_FIELD + SIZE_GAP,
   snd (canvas_size n_limits z_limits) - (z - fst z_limits + 2) * SIZE_FIELD).

(** The index of a nuclide in the grid. *)
Definition grid_index (n_limits z_limits : Z * Z) (n : Nuclide) : nat * nat :=
  (Z.to_nat (nuc_N n - fst n_limits), Z.to_nat (nuc_Z n - fst z_limits)).

(** The magic dictionary the loop builds from a sequence of (key, other
    coordinate) pairs. *)
Definition magic_fold (pairs : list (Z * Z)) (d : magic_dict) : magic_dict :=
  fold_left (fun d p => magic_record d (fst p) (snd p)) pairs d.

(** ** Vocabulary of the statements about the axis numbers *)

(** The index of the first occupied cell of a row of cells. *)
Fixpoint first_true (row : list bool) : option nat :=
  match row with
  | [] => None
  | true :: _ => Some 0%nat
  | false :: rest => S <$> first_true rest
  end.

(** Only texts were added. *)
Definition only_texts (ls ls' : Layers) : Prop :=
  squares ls' = squares ls /\ triangles ls' = triangles ls /\
  lines ls' = lines ls /\ exists tx, texts ls' = texts ls ++ tx.

(** * Properties *)

(** ** Modes and colours *)

Lemma in_basic_cases (m : string) :
  in_basic m = true ->
  m ∈ basic_decay_modes.
Proof.
  unfold in_basic. rewrite existsb_exists.
  intros (x & Hin & Heq). apply String.eqb_eq in Heq. subst x.
  by apply list_elem_of_In.
Qed.

Ltac each_basic H :=
  apply in_basic_cases in H; unfold basic_decay_modes in H;
  repeat (apply elem_of_cons in H; destruct H as [H | H]; [subst |]);
  [.. | by apply elem_of_nil in H].

Lemma basic_has_color (m : string) :
  in_basic m = true -> exists c, dict_get COLORS m = Some c.
Proof. intros Hb. each_basic Hb; eexists; reflexivity. Qed.

Lemma basic_COLORS_at (m : string) :
  in_basic m = true -> exists c, COLORS_at m = Go c /\ dict_get COLORS m = Some c.
Proof.
  intros Hb. destruct (basic_has_color m Hb) as [c Hc].
  exists c. unfold COLORS_at. by rewrite Hc.
Qed.

Lemma basic_not_cluster (m : string) :
  in_basic m = true -> ClusterRe.search m = false.
Proof. intros Hb. each_basic Hb; reflexivity. Qed.

Lemma basic_not_unknown (m : string) :
  in_basic m = true -> m <> "?".
Proof. intros Hb. each_basic Hb; discriminate. Qed.

(** ** The primary colour *)

Section PrimaryFacts.
Context `{PyEnv}.

Lemma first_basic_none (i : nat) (l : list DecayMode) :
  first_basic i l = None <-> Forall (fun x => in_basic (mode x) = false) l.
Proof.
  revert i. induction l as [| m l IH]; intros i; simpl.
  - split; [constructor | done].
  - destruct (in_basic (mode m)) eqn:Hm.
    + split; [done |]. intros Hall. inversion Hall; congruence.
    + rewrite IH. split; [by constructor |]. intros Hall. by inversion Hall.
Qed.

Lemma first_basic_found (i j : nat) (l : list DecayMode) (m : DecayMode) :
  l !! j = Some m ->
  in_basic (mode m) = true ->
  (forall j' x, (j' < j)%nat -> l !! j' = Some x -> in_basic (mode x) = false) ->
  first_basic i l = Some (i + j)%nat.
Proof.
  revert i j. induction l as [| a l IH]; intros i j Hj Hm Hbefore; [done |].
  destruct j as [| j]; simpl in *.
  - injection Hj as ->. rewrite Hm. f_equal. lia.
  - rewrite (Hbefore 0%nat a); [| lia | done].
    rewrite (IH (S i) j); [f_equal; lia | done | done |].
    intros j' x Hlt Hx. apply (Hbefore (S j') x); [lia | done].
Qed.

Lemma set_decay_modes_same (n : Nuclide) :
  set_decay_modes n (decay_modes n) = n.
Proof. by destruct n. Qed.

Lemma py_getitem_head {A} (a : A) (l : list A) : py_getitem (a :: l) 0 = Go a.
Proof. reflexivity. Qed.

(** Without a basic mode and without an accepted ['?'] in front, the
    primary step ends the call and leaves the list as it was. *)
Lemma primary_step_gives_up (unknown : bool) (dm : list DecayMode) :
  Forall (fun x => in_basic (mode x) = false) dm ->
  ~ (exists m0, dm !! 0%nat = Some m0 /\ mode m0 = "?" /\ unknown = true) ->
  primary_step unknown dm = (Return, dm) \/
  primary_step unknown dm = (Raise IndexError, dm).
Proof.
  intros Hall Hq. unfold primary_step.
  destruct dm as [| m0 rest]; simpl; [by right |].
  inversion Hall as [| ? ? Hm0 Hrest]; subst. rewrite Hm0.
  destruct (String.eqb (mode m0) "?" && unknown) eqn:Hu.
  - exfalso. apply Hq. exists m0. apply andb_true_iff in Hu as [Hu ->].
    by apply String.eqb_eq in Hu.
  - left. destruct rest as [| m1 rest']; [done |].
    replace (1 <? length (m0 :: m1 :: rest'))%nat with true by done.
    rewrite drop_0.
    by apply (first_basic_none 1) in Hrest as ->.
Qed.

Lemma primary_step_basic (unknown : bool) (dm : list DecayMode) (m0 : DecayMode) :
  dm !! 0%nat = Some m0 ->
  in_basic (mode m0) = true ->
  exists c, dict_get COLORS (mode m0) = Some c /\
            primary_step unknown dm = (Go c, dm).
Proof.
  intros H0 Hb. destruct (basic_COLORS_at _ Hb) as (c & Hat & Hc).
  exists c. split; [done |]. unfold primary_step. by rewrite H0, Hb, Hat.
Qed.

Lemma primary_step_unknown (dm : list DecayMode) (m0 : DecayMode) :
  dm !! 0%nat = Some m0 ->
  mode m0 = "?" ->
  primary_step true dm = (Go COLORS_unknown, dm).
Proof.
  intros H0 Hq. unfold primary_step. rewrite H0, Hq.
  by replace (in_basic "?") with false by done.
Qed.

Lemma primary_step_swap (unknown : bool) (m0 : DecayMode) (rest : list DecayMode)
    (j : nat) (m : DecayMode) :
  in_basic (mode m0) = false ->
  ~ (mode m0 = "?" /\ unknown = true) ->
  rest !! j = Some m ->
  in_basic (mode m) = true ->
  (forall j' x, (j' < j)%nat -> rest !! j' = Some x -> in_basic (mode x) = false) ->
  exists c, dict_get COLORS (mode m) = Some c /\
            primary_step unknown (m0 :: rest) = (Go c, m :: <[j := m0]> rest).
Proof.
  intros Hm0 Hq Hj Hm Hbefore.
  destruct (basic_COLORS_at _ Hm) as (c & Hat & Hc).
  exists c. split; [done |]. unfold primary_step.
  change ((m0 :: rest) !! 0%nat) with (Some m0). cbv beta iota. rewrite Hm0.
  destruct (String.eqb (mode m0) "?" && unknown) eqn:Hu.
  { exfalso. apply Hq. apply andb_true_iff in Hu as [Hu ->].
    by apply String.eqb_eq in Hu. }
  assert (Hlen : (1 <? length (m0 :: rest))%nat = true).
  { destruct rest; [done | reflexivity]. }
  rewrite Hlen. change (drop 1 (m0 :: rest)) with rest.
  rewrite (first_basic_found 1 j rest m Hj Hm Hbefore).
  unfold swap_modes.
  change ((m0 :: rest) !! 0%nat) with (Some m0).
  change ((m0 :: rest) !! (1 + j)%nat) with (rest !! j). rewrite Hj.
  change (<[(1 + j)%nat := m0]> (<[0%nat := m]> (m0 :: rest)))
    with (m :: <[j := m0]> rest).
  cbv zeta. rewrite py_getitem_head.
  change (Go m ≫= (fun m1 => COLORS_at (mode m1))) with (COLORS_at (mode m)).
  by rewrite Hat.
Qed.

End PrimaryFacts.

(** C1. The primary-colour step of [draw_nuclide], for every isotope
    record: (1) a basic first mode gives the colour [COLORS] maps it to,
    the list untouched; (2) a first mode ['?'] with unknown display
    enabled gives the unknown colour; (3) otherwise the first basic mode
    at a later index is exchanged with the first entry and its colour is
    the primary one; (4) with no basic mode anywhere and no enabled ['?']
    in front the call ends without drawing: the layers are unchanged,
    also after the turn of the loop of the script body. *)
Theorem primary_color_step `{PyEnv} (args : Args) (nuclide : Nuclide)
    (ls : Layers) (position : Z * Z) :
  let dm := decay_modes nuclide in
  (forall m0, dm !! 0%nat = Some m0 -> in_basic (mode m0) = true ->
     exists c, dict_get COLORS (mode m0) = Some c /\
               primary_step (unknown args) dm = (Go c, dm)) /\
  (forall m0, dm !! 0%nat = Some m0 -> mode m0 = "?" -> unknown args = true ->
     primary_step (unknown args) dm = (Go COLORS_unknown, dm)) /\
  (forall m0 rest j m,
     dm = m0 :: rest ->
     in_basic (mode m0) = false ->
     ~ (mode m0 = "?" /\ unknown args = true) ->
     rest !! j = Some m ->
     in_basic (mode m) = true ->
     (forall j' x, (j' < j)%nat -> rest !! j' = Some x -> in_basic (mode x) = false) ->
     exists c, dict_get COLORS (mode m) = Some c /\
               primary_step (unknown args) dm = (Go c, m :: <[j := m0]> rest)) /\
  (Forall (fun x => in_basic (mode x) = false) dm ->
   ~ (exists m0, dm !! 0%nat = Some m0 /\ mode m0 = "?" /\ unknown args = true) ->
   (exists r, r <> Go tt /\
              draw_nuclide nuclide ls position args = (r, (nuclide, ls))) /\
   (forall n_limits z_limits size st,
      layers (snd (plot args n_limits z_limits size nuclide st)) = layers st)).
Proof.
  intros dm. split; [| split; [| split]].
  - intros m0 H0 Hb. by apply primary_step_basic.
  - intros m0 H0 Hq ->. by apply (primary_step_unknown dm m0).
  - intros m0 rest j m -> Hm0 Hq Hj Hm Hbefore. by apply primary_step_swap.
  - intros Hall Hq. split.
    + unfold draw_nuclide. fold dm.
      destruct (primary_step_gives_up (unknown args) dm Hall Hq) as [-> | ->];
        rewrite set_decay_modes_same; eexists; (split; [| reflexivity]); discriminate.
    + intros n_limits z_limits size st. unfold plot.
      destruct (mark _ _ _); [| done | done].
      unfold draw_nuclide. fold dm.
      by destruct (primary_step_gives_up (unknown args) dm Hall Hq) as [-> | ->].
Qed.

Lemma primary_color_step_witness :
  let H := example_env in
  let swapped := Sample.nuclide 5 9 [Sample.dm "b+p" "60"; Sample.dm "b+" "40"] in
  let unknown_only := Sample.nuclide 5 9 [Sample.dm "?" "100"] in
  primary_step true (decay_modes swapped)
    = (Go "#ff7e75", [Sample.dm "b+" "40"; Sample.dm "b+p" "60"]) /\
  draw_nuclide unknown_only no_layers (0, 0) (Sample.bare false)
    = (Return, (unknown_only, no_layers)).
Proof.
  intros H swapped unknown_only.
  pose proof (primary_color_step (Sample.bare true) swapped no_layers (0, 0))
    as (_ & _ & Hswap & _).
  pose proof (primary_color_step (Sample.bare false) unknown_only no_layers (0, 0))
    as (_ & _ & _ & Hskip).
  split.
  - destruct (Hswap (Sample.dm "b+p" "60") [Sample.dm "b+" "40"] 0%nat
                (Sample.dm "b+" "40")) as (c & Hc & Hstep).
    + reflexivity.
    + reflexivity.
    + intros [Hq _]. discriminate Hq.
    + reflexivity.
    + reflexivity.
    + intros j' x Hlt. lia.
    + simpl in Hc. injection Hc as <-. exact Hstep.
  - destruct Hskip as [(r & Hr & Hdraw) _].
    + repeat constructor.
    + intros (m0 & _ & _ & Hu). discriminate Hu.
    + rewrite Hdraw. vm_compute in Hdraw. injection Hdraw as <-. reflexivity.
Defined.

(** ** The secondary and the tertiary scan *)

Section ScanFacts.
Context `{PyEnv}.

(** Neither scan raises or returns: a basic mode has its colour. *)
Lemma secondary_scan_total (pc : string) (l : list DecayMode) (st : marker) :
  exists st', secondary_scan pc l st = Go st'.
Proof.
  revert st. induction l as [| m l IH]; intros st; simpl; [by eexists |].
  destruct (in_basic (mode m)) eqn:Hb.
  - destruct (branching m); [| apply IH].
    destruct (basic_COLORS_at _ Hb) as (c & -> & _). apply IH.
  - destruct (ClusterRe.search (mode m)); [by eexists | apply IH].
Qed.

Lemma tertiary_scan_total (l : list DecayMode) (st : marker) :
  exists st', tertiary_scan l st = Go st'.
Proof.
  revert st. induction l as [| m l IH]; intros st; simpl; [by eexists |].
  destruct (in_basic (mode m)) eqn:Hb.
  - destruct (branching m) as [v |]; [| apply IH].
    destruct (0 <? v)%float; [| by eexists].
    destruct (basic_COLORS_at _ Hb) as (c & -> & _). by eexists.
  - destruct (ClusterRe.search (mode m)); [by eexists | apply IH].
Qed.

(** One visit of the secondary scan at a mode it passes. *)
Lemma secondary_scan_pass (pc : string) (x : DecayMode) (st : marker) :
  secondary_passes x = true ->
  exists st1,
    (forall l, secondary_scan pc (x :: l) st = secondary_scan pc l st1) /\
    (assigns_size pc x = false -> m_size st1 = m_size st).
Proof.
  unfold secondary_passes, assigns_size. intros Hp.
  destruct (in_basic (mode x)) eqn:Hb; simpl in Hp.
  - destruct (basic_COLORS_at _ Hb) as (c & Hat & _).
    destruct (branching x) as [v |] eqn:Hv.
    + eexists. split.
      * intros l. simpl. rewrite Hb, Hv, Hat. reflexivity.
      * simpl. intros Ha. apply orb_false_iff in Ha as [-> ->]. reflexivity.
    + exists st. split; [| done]. intros l. simpl. by rewrite Hb, Hv.
  - apply negb_true_iff in Hp. exists st. split; [| done].
    intros l. simpl. by rewrite Hb, Hp.
Qed.

Lemma secondary_scan_prefix (pc : string) (pre : list DecayMode) (st : marker) :
  Forall (fun x => secondary_passes x = true) pre ->
  exists st1,
    (forall l, secondary_scan pc (pre ++ l) st = secondary_scan pc l st1) /\
    (Forall (fun x => assigns_size pc x = false) pre -> m_size st1 = m_size st).
Proof.
  revert st. induction pre as [| x pre IH]; intros st Hall.
  - exists st. by split.
  - inversion Hall as [| ? ? Hx Hpre]; subst.
    destruct (secondary_scan_pass pc x st Hx) as (st1 & Hstep & Hsize).
    destruct (IH st1 Hpre) as (st2 & Hrest & Hsize2).
    exists st2. split.
    + intros l. rewrite <- app_comm_cons, Hstep. apply Hrest.
    + intros Hno. inversion Hno; subst. rewrite Hsize2, Hsize; done.
Qed.

(** Modes that assign no size leave the size as it is, and do not end
    the scan. *)
Lemma secondary_scan_idle (pc : string) (post : list DecayMode) (st : marker) :
  Forall (fun x => assigns_size pc x = false) post ->
  exists st', secondary_scan pc post st = Go st' /\ m_size st' = m_size st.
Proof.
  intros Hall.
  assert (Hpass : Forall (fun x => secondary_passes x = true) post).
  { eapply Forall_impl; [exact Hall |]. intros x. unfold assigns_size, secondary_passes.
    destruct (in_basic (mode x)); [done |]. by intros ->. }
  destruct (secondary_scan_prefix pc post st Hpass) as (st1 & Hrun & Hsize).
  exists st1. split; [| by apply Hsize].
  specialize (Hrun []). by rewrite app_nil_r in Hrun.
Qed.

Lemma tertiary_scan_prefix (pre l : list DecayMode) (st : marker) :
  Forall (fun x => tertiary_passes x = true) pre ->
  tertiary_scan (pre ++ l) st = tertiary_scan l st.
Proof.
  induction 1 as [| x pre Hx _ IH]; [done |].
  rewrite <- app_comm_cons. simpl. unfold tertiary_passes in Hx.
  destruct (in_basic (mode x)).
  - by destruct (branching x).
  - apply negb_true_iff in Hx. by rewrite Hx.
Qed.

Lemma resolve_markers_unfold (pc : string) (first : DecayMode) (rest : list DecayMode)
    (sec : marker) :
  rest <> [] ->
  secondary_scan pc rest no_marker = Go sec ->
  exists ter,
    resolve_markers pc (first :: rest) = Go (sec, ter) /\
    ter = (if tertiary_runs pc (first :: rest) sec
           then default no_marker
                  (match tertiary_scan (drop 1 rest) no_marker with
                   | Go t => Some t
                   | _ => None
                   end)
           else no_marker).
Proof.
  intros Hne Hsec. unfold resolve_markers, tertiary_runs.
  destruct rest as [| m1 rest]; [done |].
  replace (1 <? length (first :: m1 :: rest))%nat with true by done.
  change (drop 1 (first :: m1 :: rest)) with (m1 :: rest). rewrite Hsec.
  change (Go sec ≫= ?f) with (f sec). cbv beta.
  destruct (_ && _) eqn:Hruns; [| by eexists].
  change (drop 2 (first :: m1 :: rest)) with rest.
  change (drop 1 (m1 :: rest)) with rest.
  destruct (tertiary_scan_total rest no_marker) as (ter & ->).
  by eexists.
Qed.

End ScanFacts.

(** What the loop of lines 329 to 344 computes: the threshold is applied
    at every basic mode it visits, so the marker it ends with is that of
    the last mode that assigns a size.  For that mode, a basic one with
    the value [v], the marker is large exactly when [v > 5.0] and the
    primary colour is not the stable one, and small when [v > 0.0] and
    either [v > 5.0] fails or the primary is stable. *)
Lemma secondary_last_assignment `{PyEnv} (pc : string) (first : DecayMode)
    (pre post : list DecayMode) (m : DecayMode) (v : float) :
  in_basic (mode m) = true ->
  branching m = Some v ->
  selects pc pre m post ->
  exists sec ter,
    resolve_markers pc (first :: pre ++ m :: post) = Go (sec, ter) /\
    (m_size sec = Some large <-> (5 <? v)%float = true /\ pc <> COLORS_is) /\
    ((0 <? v)%float = true -> (5 <? v)%float = false \/ pc = COLORS_is ->
     m_size sec = Some small) /\
    (v = 5%float -> m_size sec = Some small).
Proof.
  intros Hb Hv (Hpre & Hpost & Hsel).
  destruct (secondary_scan_prefix pc pre no_marker Hpre) as (st1 & Hrun & Hsize1).
  destruct (basic_COLORS_at _ Hb) as (c & Hat & _).
  pose (size2 := if (5 <? v)%float && negb (String.eqb pc COLORS_is) then Some large
                 else if (0 <? v)%float then Some small else m_size st1).
  destruct (secondary_scan_idle pc post {| m_size := size2; m_color := Some c |} Hpost)
    as (sec & Hsec & Hsize).
  assert (Hscan : secondary_scan pc (pre ++ m :: post) no_marker = Go sec).
  { rewrite Hrun. simpl. rewrite Hb, Hv, Hat. exact Hsec. }
  destruct (resolve_markers_unfold pc first (pre ++ m :: post) sec) as (ter & Hres & _);
    [by destruct pre | exact Hscan |].
  exists sec, ter. split; [exact Hres |].
  rewrite Hsize. simpl. unfold size2. clear Hsize Hsec Hscan Hres size2.
  assert (H55 : (5 <? 5)%float = false) by reflexivity.
  assert (H05 : (0 <? 5)%float = true) by reflexivity.
  destruct (String.eqb_spec pc COLORS_is) as [His | His];
    destruct (5 <? v)%float eqn:H5; destruct (0 <? v)%float eqn:H0; simpl;
    try (split; [split; [intros; try discriminate; try (split; congruence)
                        | intros [? ?]; congruence]
                | split; [intros _ [? | ?]; congruence
                         | intros ->; congruence ]]).
  all: assert (Hnone : m_size st1 = None)
    by (destruct Hsel as [Ha | Hno];
        [ unfold assigns_size in Ha; rewrite Hb, Hv, H5, H0 in Ha;
          (destruct (String.eqb_spec pc COLORS_is); [discriminate Ha | done])
        | by rewrite (Hsize1 Hno) ]).
  all: rewrite Hnone.
  all: split; [split; [discriminate | intros [? ?]; congruence]
              | split; [intros ?; discriminate | intros ->; congruence ]].
Qed.

Lemma secondary_last_assignment_witness :
  let H := example_env in
  exists sec ter,
    resolve_markers "#62aeff"
      [Sample.dm "b-" "100"; Sample.dm "it" "1"; Sample.dm "n" "#5.0"; Sample.dm "a" "0"]
      = Go (sec, ter) /\
    m_size sec = Some small.
Proof.
  intros H.
  destruct (secondary_last_assignment "#62aeff" (Sample.dm "b-" "100")
              [Sample.dm "it" "1"] [Sample.dm "a" "0"] (Sample.dm "n" "#5.0") 5%float)
    as (sec & ter & Hres & _ & _ & Hfive).
  - reflexivity.
  - reflexivity.
  - split; [| split].
    + repeat constructor.
    + repeat constructor.
    + left. reflexivity.
  - exists sec, ter. split; [exact Hres | apply Hfive; reflexivity].
Defined.

(** C2. The marker does not follow the threshold at the first qualifying
    mode, because the loop has no [break] after a basic mode.  With a
    primary colour that is not the stable one, the first qualifying mode
    of the first list has the value 10, more than 5.0, and alone it gives
    a large marker; followed by an alpha mode of value 3 the marker is
    small.  In the second list the first qualifying mode has the value
    exactly 5.0 and alone it gives a small marker; followed by an alpha
    mode of value 10 the marker is large. *)
Theorem secondary_threshold_overridden :
  let H := example_env in
  let pc := "#62aeff" in
  let beta := Sample.dm "b-" "100" in
  let n10 := Sample.dm "n" "10" in
  let n5 := Sample.dm "n" "5.0" in
  pc <> COLORS_is /\
  (in_basic (mode n10) = true /\ branching n10 = Some 10%float /\
   (5 <? 10)%float = true /\
   (exists sec, resolve_markers pc [beta; n10] = Go (sec, no_marker) /\
                m_size sec = Some large) /\
   (exists sec, resolve_markers pc [beta; n10; Sample.dm "a" "3"] = Go (sec, no_marker) /\
                m_size sec = Some small)) /\
  (in_basic (mode n5) = true /\ branching n5 = Some 5%float /\
   (5 <? 5)%float = false /\ (0 <? 5)%float = true /\
   (exists sec, resolve_markers pc [beta; n5] = Go (sec, no_marker) /\
                m_size sec = Some small) /\
   (exists sec ter, resolve_markers pc [beta; n5; Sample.dm "a" "10"] = Go (sec, ter) /\
                    m_size sec = Some large)).
Proof.
  intros H pc beta n10 n5.
  split; [discriminate |]. split.
  - split_and!; try reflexivity.
    + eexists. split; reflexivity.
    + eexists. split; reflexivity.
  - split_and!; try reflexivity.
    + eexists. split; reflexivity.
    + eexists _, _. split; reflexivity.
Qed.

(** C3. The secondary scan has no [break] after a basic mode: a later
    mode overwrites the marker of the first qualifying one.  Here the
    first qualifying mode alone gives a large marker in the neutron
    colour; with one more mode after it the marker is small and in the
    alpha colour, and with a later mode of value 0 the colour changes
    while the size stays. *)
Theorem secondary_scan_overwritten :
  let H := example_env in
  let beta := Sample.dm "b-" "100" in
  let n10 := Sample.dm "n" "10" in
  resolve_markers "#62aeff" [beta; n10]
    = Go ({| m_size := Some large; m_color := Some "#9fd7ff" |}, no_marker) /\
  resolve_markers "#62aeff" [beta; n10; Sample.dm "a" "3"]
    = Go ({| m_size := Some small; m_color := Some "#fffe49" |}, no_marker) /\
  resolve_markers "#62aeff" [beta; n10; Sample.dm "a" "0"]
    = Go ({| m_size := Some large; m_color := Some "#fffe49" |}, no_marker).
Proof. repeat split. Qed.

Lemma tertiary_scan_stop `{PyEnv} (m : DecayMode) (post : list DecayMode) (st : marker) :
  tertiary_passes m = false ->
  tertiary_scan (m :: post) st = tertiary_scan [m] st.
Proof.
  unfold tertiary_passes. intros Hstop. simpl.
  destruct (in_basic (mode m)).
  - by destruct (branching m).
  - apply negb_false_iff in Hstop. by rewrite Hstop.
Qed.

(** C4, as the code has it.  Whenever the tertiary scan runs, it stops
    at the first mode of index 2 or more that is a basic mode with a
    parseable branching value, or a cluster emission: that mode alone
    decides the tertiary marker (none when its value is not positive) and
    no later mode is examined.  A basic mode whose value does not parse is
    passed over and the scan goes on. *)
Theorem tertiary_scan_first_parsed `{PyEnv} (pc : string) (first second : DecayMode)
    (pre post : list DecayMode) (m : DecayMode) (sec : marker) :
  let dm := first :: second :: pre ++ m :: post in
  secondary_scan pc (drop 1 dm) no_marker = Go sec ->
  tertiary_runs pc dm sec = true ->
  Forall (fun x => tertiary_passes x = true) pre ->
  tertiary_passes m = false ->
  exists ter,
    resolve_markers pc dm = Go (sec, ter) /\
    tertiary_scan [m] no_marker = Go ter /\
    (forall v, in_basic (mode m) = true -> branching m = Some v ->
       ter = if (0 <? v)%float
             then {| m_size := Some small; m_color := dict_get COLORS (mode m) |}
             else no_marker) /\
    (in_basic (mode m) = false ->
       ter = {| m_size := Some small; m_color := Some COLORS_cluster |}) /\
    (forall x l st, in_basic (mode x) = true -> branching x = None ->
       tertiary_scan (x :: l) st = tertiary_scan l st).
Proof.
  intros dm Hsec Hruns Hpre Hstop.
  destruct (resolve_markers_unfold pc first (second :: pre ++ m :: post) sec)
    as (ter & Hres & Hter); [done | exact Hsec |].
  fold dm in Hres, Hter. rewrite Hruns in Hter.
  change (drop 1 (second :: pre ++ m :: post)) with (pre ++ m :: post) in Hter.
  rewrite (tertiary_scan_prefix pre (m :: post) no_marker Hpre) in Hter.
  rewrite (tertiary_scan_stop m post no_marker Hstop) in Hter.
  destruct (tertiary_scan_total [m] no_marker) as (t & Ht).
  rewrite Ht in Hter. simpl in Hter. subst t.
  exists ter. split; [exact Hres |]. split; [exact Ht |].
  split; [| split].
  - intros v Hb Hv. simpl in Ht. rewrite Hb, Hv in Ht.
    destruct (0 <? v)%float; [| congruence].
    destruct (basic_COLORS_at _ Hb) as (c & Hat & Hc). rewrite Hat in Ht.
    rewrite Hc. by injection Ht as <-.
  - intros Hb. unfold tertiary_passes in Hstop. simpl in Ht. rewrite Hb in *.
    apply negb_false_iff in Hstop. rewrite Hstop in Ht. congruence.
  - intros x l st Hb Hv. simpl. by rewrite Hb, Hv.
Qed.

Lemma tertiary_scan_first_parsed_witness :
  let H := example_env in
  exists ter,
    resolve_markers "#000000"
      [Sample.dm "is" "100"; Sample.dm "b-" "1"; Sample.dm "a" "?";
       Sample.dm "p" "0"; Sample.dm "n" "1"]
      = Go ({| m_size := Some small; m_color := Some "#9fd7ff" |}, ter) /\
    ter = no_marker.
Proof.
  intros H.
  destruct (tertiary_scan_first_parsed "#000000" (Sample.dm "is" "100")
              (Sample.dm "b-" "1") [Sample.dm "a" "?"] [Sample.dm "n" "1"]
              (Sample.dm "p" "0")
              {| m_size := Some small; m_color := Some "#9fd7ff" |})
    as (ter & Hres & _ & Hbasic & _).
  - reflexivity.
  - reflexivity.
  - repeat constructor.
  - reflexivity.
  - exists ter. split; [exact Hres |].
    apply (Hbasic 0%float); reflexivity.
Defined.

(** C4 as stated fails: with a stable primary and a small secondary
    marker the tertiary scan runs; the mode at index 2 is basic and its
    value ['?'] does not parse, and the tertiary marker is taken from the
    mode at index 3, which a scan stopping at index 2 would not give. *)
Lemma tertiary_scan_passes_unparsable :
  let H := example_env in
  let dm := [Sample.dm "is" "100"; Sample.dm "b-" "1"; Sample.dm "a" "?";
             Sample.dm "p" "1"] in
  let sec := {| m_size := Some small; m_color := Some "#ffa425" |} in
  secondary_scan COLORS_is (drop 1 dm) no_marker = Go sec /\
  tertiary_runs COLORS_is dm sec = true /\
  in_basic "a" = true /\
  branching (Sample.dm "a" "?") = None /\
  resolve_markers COLORS_is dm
    = Go (sec, {| m_size := Some small; m_color := Some "#ffa425" |}) /\
  tertiary_scan (drop 2 dm) no_marker <> tertiary_scan [Sample.dm "a" "?"] no_marker.
Proof. repeat split. discriminate. Qed.

(** ** Cluster emission *)

Lemma secondary_corner_cluster (pc : string) :
  secondary_corner false pc COLORS_cluster = rt.
Proof. reflexivity. Qed.

Lemma tertiary_corner_cluster (pc : string) (sc : option string) :
  tertiary_corner pc sc COLORS_cluster = Go rt.
Proof. reflexivity. Qed.

Ltac run_draw_shapes :=
  unfold draw_shapes, when, update, pure, mbind, mret, stateful_bind, stateful_ret;
  simpl; repeat case_match; simplify_eq/=.

(** C10. A cluster-pattern mode that the secondary scan, or the tertiary
    scan, reaches ends that scan with a small marker in the cluster
    colour, whatever the value of the mode, the marker state so far and
    the modes after it; the marker is drawn with the small triangle in
    the top-right corner. *)
Theorem cluster_marker `{PyEnv} (pc : string) (pre post : list DecayMode)
    (m : DecayMode) (st : marker) :
  ClusterRe.search (mode m) = true ->
  let cluster := {| m_size := Some small; m_color := Some COLORS_cluster |} in
  (Forall (fun x => secondary_passes x = true) pre ->
   secondary_scan pc (pre ++ m :: post) st = Go cluster) /\
  (Forall (fun x => tertiary_passes x = true) pre ->
   tertiary_scan (pre ++ m :: post) st = Go cluster) /\
  (forall nuclide position args ter ls, exists more,
     triangles (snd (draw_shapes nuclide position args pc cluster ter ls))
     = triangles ls ++
       small_triangle (nuclide_str nuclide, 1%nat) position COLORS_cluster rt :: more) /\
  (forall nuclide position args size c ls, exists e,
     triangles (snd (draw_shapes nuclide position args pc
                       {| m_size := Some size; m_color := Some c |} cluster ls))
     = triangles ls ++
       [e; small_triangle (nuclide_str nuclide, 2%nat) position COLORS_cluster rt]).
Proof.
  intros Hre cluster.
  assert (Hnb : in_basic (mode m) = false).
  { destruct (in_basic (mode m)) eqn:Hb; [| done].
    apply basic_not_cluster in Hb. congruence. }
  split; [| split; [| split]].
  - intros Hpre.
    destruct (secondary_scan_prefix pc pre st Hpre) as (st1 & -> & _).
    simpl. by rewrite Hnb, Hre.
  - intros Hpre. rewrite (tertiary_scan_prefix pre (m :: post) st Hpre).
    simpl. by rewrite Hnb, Hre.
  - intros nuclide position args ter ls. unfold cluster.
    run_draw_shapes; rewrite ?secondary_corner_cluster, <- ?app_assoc;
      eexists; reflexivity.
  - intros nuclide position args size c ls. unfold cluster.
    destruct size; run_draw_shapes; rewrite <- ?app_assoc; eexists; reflexivity.
Qed.

Lemma cluster_marker_witness :
  let H := example_env in
  secondary_scan "#fffe49"
    [Sample.dm "sf" "?"; Sample.dm "14c" "not a number"; Sample.dm "b-" "50"] no_marker
  = Go {| m_size := Some small; m_color := Some "#a564cc" |}.
Proof.
  intros H.
  apply (cluster_marker "#fffe49" [Sample.dm "sf" "?"] [Sample.dm "b-" "50"]
           (Sample.dm "14c" "not a number") no_marker).
  - reflexivity.
  - repeat constructor.
Defined.

(** A whole call: alpha primary, a cluster emission second. *)
Example cluster_drawn :
  let H := example_env in
  let n := Sample.nuclide 88 223 [Sample.dm "a" "100"; Sample.dm "14c" "8.9e-8"] in
  snd (snd (draw_nuclide n no_layers (10, 20) (Sample.bare true)))
  = {| squares := [rect (135, 88, 0%nat) (10, 20) "#fffe49"];
       triangles := [small_triangle (135, 88, 1%nat) (10, 20) "#a564cc" rt];
       lines := []; texts := [] |}.
Proof. reflexivity. Qed.

(** ** What [draw_nuclide] does to the record *)

Lemma swap_later_Permutation (a b : DecayMode) (rest : list DecayMode) (j : nat) :
  rest !! j = Some b ->
  b :: <[j := a]> rest ≡ₚ a :: rest.
Proof.
  revert j. induction rest as [| x rest IH]; intros j Hj; [done |].
  destruct j as [| j]; simpl in *.
  - injection Hj as ->. apply perm_swap.
  - rewrite perm_swap, (IH j Hj). apply perm_swap.
Qed.

Lemma swap_modes_Permutation (dm : list DecayMode) (i : nat) :
  swap_modes dm i ≡ₚ dm.
Proof.
  unfold swap_modes. destruct dm as [| a rest]; [done |].
  change ((a :: rest) !! 0%nat) with (Some a). cbv beta iota.
  destruct i as [| j].
  - reflexivity.
  - change ((a :: rest) !! S j) with (rest !! j).
    destruct (rest !! j) as [b |] eqn:Hj; [| done].
    change (<[S j := a]> (<[0%nat := b]> (a :: rest))) with (b :: <[j := a]> rest).
    by apply swap_later_Permutation.
Qed.

Lemma primary_step_Permutation (unknown : bool) (dm : list DecayMode) :
  snd (primary_step unknown dm) ≡ₚ dm.
Proof.
  unfold primary_step. repeat case_match; simpl; try done.
  apply swap_modes_Permutation.
Qed.

Lemma draw_nuclide_record `{PyEnv} (nuclide : Nuclide) (ls : Layers) (position : Z * Z)
    (args : Args) :
  fst (snd (draw_nuclide nuclide ls position args))
  = set_decay_modes nuclide (snd (primary_step (unknown args) (decay_modes nuclide))).
Proof.
  unfold draw_nuclide.
  destruct (primary_step (unknown args) (decay_modes nuclide)) as [r dm'].
  simpl. repeat case_match; reflexivity.
Qed.

(** C9, as the code has it.  [draw_nuclide] leaves Z, A, N, the element
    and the half-life of the record as they are, and the decay-mode list
    keeps its entries; the list itself is left untouched when its first
    mode is basic or an accepted ['?'], or when it has no basic mode, and
    otherwise its first entry and the first later basic entry have
    changed places. *)
Theorem draw_nuclide_frame `{PyEnv} (nuclide : Nuclide) (ls : Layers)
    (position : Z * Z) (args : Args) :
  let after := fst (snd (draw_nuclide nuclide ls position args)) in
  let dm := decay_modes nuclide in
  (nuc_Z after = nuc_Z nuclide /\ nuc_A after = nuc_A nuclide /\
   nuc_N after = nuc_N nuclide /\ element after = element nuclide /\
   half_life after = half_life nuclide) /\
  decay_modes after ≡ₚ dm /\
  (forall m0, dm !! 0%nat = Some m0 ->
     in_basic (mode m0) = true \/ (mode m0 = "?" /\ unknown args = true) ->
     after = nuclide) /\
  (Forall (fun x => in_basic (mode x) = false) dm -> after = nuclide) /\
  (forall m0 rest j m,
     dm = m0 :: rest ->
     in_basic (mode m0) = false ->
     ~ (mode m0 = "?" /\ unknown args = true) ->
     rest !! j = Some m ->
     in_basic (mode m) = true ->
     (forall j' x, (j' < j)%nat -> rest !! j' = Some x -> in_basic (mode x) = false) ->
     decay_modes after = m :: <[j := m0]> rest).
Proof.
  intros after dm. unfold after. rewrite draw_nuclide_record. fold dm.
  split; [done |]. split; [apply primary_step_Permutation |].
  split; [| split].
  - intros m0 H0 [Hb | [Hm Hu]].
    + destruct (primary_step_basic (unknown args) dm m0 H0 Hb) as (c & _ & ->).
      apply set_decay_modes_same.
    + rewrite Hu, (primary_step_unknown dm m0 H0 Hm). apply set_decay_modes_same.
  - intros Hall. unfold primary_step.
    destruct dm as [| m0 rest] eqn:Hdm; simpl; [by rewrite <- Hdm, set_decay_modes_same |].
    inversion Hall as [| ? ? Hm0 Hrest]; subst. rewrite Hm0.
    apply (first_basic_none 1) in Hrest.
    repeat case_match; simpl; rewrite <- ?Hdm, ?set_decay_modes_same; try done.
    all: rewrite drop_0 in *; congruence.
  - intros m0 rest j m Hdm Hm0 Hnq Hj Hm Hbefore. rewrite Hdm.
    by destruct (primary_step_swap (unknown args) m0 rest j m Hm0 Hnq Hj Hm Hbefore)
      as (c & _ & ->).
Qed.

Lemma draw_nuclide_frame_witness :
  let H := example_env in
  let before := Sample.nuclide 5 9 [Sample.dm "b+p" "60"; Sample.dm "it" "1";
                                    Sample.dm "b+" "40"] in
  decay_modes (fst (snd (draw_nuclide before no_layers (0, 0) (Sample.bare true))))
  = [Sample.dm "b+" "40"; Sample.dm "it" "1"; Sample.dm "b+p" "60"].
Proof.
  intros H before.
  destruct (draw_nuclide_frame before no_layers (0, 0) (Sample.bare true))
    as (_ & _ & _ & _ & Hswap).
  apply (Hswap (Sample.dm "b+p" "60") [Sample.dm "it" "1"; Sample.dm "b+" "40"]
           1%nat (Sample.dm "b+" "40")).
  - reflexivity.
  - reflexivity.
  - intros [Hq _]. discriminate Hq.
  - reflexivity.
  - reflexivity.
  - intros j' x Hlt Hx. assert (j' = 0%nat) as -> by lia.
    injection Hx as <-. reflexivity.
Defined.

(** C9 as stated fails: the call exchanges two entries of the decay-mode
    list of the record it is given. *)
Lemma draw_nuclide_reorders :
  let H := example_env in
  let before := Sample.nuclide 5 9 [Sample.dm "b+p" "60"; Sample.dm "b+" "40"] in
  let after := fst (snd (draw_nuclide before no_layers (0, 0) (Sample.bare true))) in
  decay_modes after = [Sample.dm "b+" "40"; Sample.dm "b+p" "60"] /\
  after <> before.
Proof. split; [reflexivity | discriminate]. Qed.

(** ** Range validation *)

(** C7, as the code has it.  With a range whose low end is above its
    high end the script prints its two lines and calls [exit()]: the data
    file is not parsed, nothing is written, the outcome does not depend on
    the data file, and the exit status is 0. *)
Theorem invalid_range_rejected `{PyEnv} (args : Args) (datafile : option (list XmlNuclide)) :
  snd (arg_N args) < fst (arg_N args) \/ snd (arg_Z args) < fst (arg_Z args) ->
  let run := main args datafile in
  exit_status run = 0 /\
  (exists complaint, trace run = [Print complaint; Print try_help]) /\
  (forall datafile', main args datafile' = run).
Proof.
  intros Hbad run. unfold run, main.
  destruct (Z.ltb_spec (snd (arg_N args)) (fst (arg_N args))) as [HN | HN].
  - split; [reflexivity |]. split; [by eexists | done].
  - destruct Hbad as [Hbad | Hbad]; [lia |].
    apply Z.ltb_lt in Hbad. rewrite Hbad.
    split; [reflexivity |]. split; [by eexists | done].
Qed.

Lemma invalid_range_rejected_witness :
  let H := example_env in
  main (Sample.args (10, 2) (0, 120)) (Some [Sample.node "4" "2" [Sample.dm "is" "100"]])
  = main (Sample.args (10, 2) (0, 120)) None.
Proof.
  intros H.
  destruct (invalid_range_rejected (Sample.args (10, 2) (0, 120)) None)
    as (_ & _ & Hsame).
  - left. simpl. lia.
  - apply Hsame.
Defined.

(** C7 as stated fails: the run that rejects N = [10, 2] ends with exit
    status 0. *)
Lemma invalid_range_exit_status :
  let H := example_env in
  let run := main (Sample.args (10, 2) (0, 120))
                  (Some [Sample.node "4" "2" [Sample.dm "is" "100"]]) in
  run = {| trace := [Print (wrong_N_range 10 2); Print try_help]; exit_status := 0 |} /\
  ~ exit_status run <> 0.
Proof. split; [reflexivity |]. intros Hnz. by apply Hnz. Qed.

(** ** The scan for the first occupied cell *)

Lemma py_getitem_nat {A} (l : list A) (i : nat) :
  py_getitem l (Z.of_nat i)
  = match l !! i with
    | Some a => Go a
    | None => Raise IndexError
    end.
Proof.
  unfold py_getitem.
  destruct (Z.ltb_spec (Z.of_nat i) 0) as [Hneg | _]; [lia |].
  rewrite Nat2Z.id.
  destruct (l !! i) as [a |] eqn:Hi.
  - apply lookup_lt_Some in Hi.
    destruct (Z.leb_spec 0 (Z.of_nat i)); [| lia].
    destruct (Z.ltb_spec (Z.of_nat i) (Z.of_nat (length l))); [done | lia].
  - apply lookup_ge_None in Hi.
    destruct (Z.ltb_spec (Z.of_nat i) (Z.of_nat (length l))); [lia |].
    by rewrite andb_false_r.
Qed.

(** The [while] loop ends: with a budget above the number of cells left
    it gives what the walk over the cells gives. *)
Lemma while_unoccupied_terminates {A} (l : list A) (f : A -> flow bool) (bound : Z)
    (fuel i : nat) :
  (length l - i < fuel)%nat ->
  while_unoccupied fuel (fun k => a ← py_getitem l k; f a) bound (Z.of_nat i)
  = Some (first_occupied (map f (drop i l)) bound (Z.of_nat i)).
Proof.
  revert i. induction fuel as [| fuel IH]; intros i Hfuel; [lia |].
  simpl. rewrite py_getitem_nat.
  destruct (l !! i) as [a |] eqn:Hi.
  - rewrite (drop_S l a i Hi). simpl.
    change (Go a ≫= f) with (f a).
    destruct (f a) as [occupied | |]; try done.
    change (Go occupied ≫= ?g) with (g occupied). cbv beta.
    destruct (negb occupied && (Z.of_nat i <? bound)); [| done].
    replace (Z.of_nat i + 1) with (Z.of_nat (S i)) by lia.
    apply IH. apply lookup_lt_Some in Hi. lia.
  - apply lookup_ge_None in Hi. by rewrite (drop_ge l i Hi).
Qed.

(** A run of free cells that ends before the bound is walked to its end,
    and the next indexing raises. *)
Lemma first_occupied_all_free (cells : list (flow bool)) (bound k : Z) :
  Forall (fun c => c = Go false) cells ->
  k + Z.of_nat (length cells) <= bound ->
  first_occupied cells bound k = Raise IndexError.
Proof.
  revert k. induction cells as [| c cells IH]; intros k Hfree Hbound; [done |].
  inversion Hfree as [| ? ? -> Hrest]; subst. simpl in *.
  change (Go false ≫= ?g) with (g false). cbv beta.
  destruct (Z.ltb_spec k bound) as [_ | Hge]; [| lia].
  simpl. apply IH; [done | lia].
Qed.

(** C8. A column with no occupied cell between the extrema: the isotopes
    (N, Z) = (1, 1) and (3, 2) leave the column N = 2 free.  The scan of
    that column tests [shape[n][z_first]] before the bound, reads one cell
    past the column and raises [IndexError]; nothing catches it, the run
    ends with status 1 and writes no document. *)
Theorem axis_scan_runs_off_grid :
  let H := example_env in
  let shape := [[true; false]; [false; false]; [false; true]] in
  first_occupied (map Go [false; false]) (2 - 1 + 1) 0 = Raise IndexError /\
  fst (draw_numbers shape (1, 3) (1, 2) (canvas_size (1, 3) (1, 2)) no_layers)
    = Raise IndexError /\
  main (Sample.args (0, 180) (0, 120))
       (Some [Sample.node "2" "1" [Sample.dm "b-" "100"];
              Sample.node "5" "2" [Sample.dm "b-" "100"]])
    = {| trace := [ParseDatafile]; exit_status := 1 |}.
Proof. repeat split. Qed.

(** ** The magic-number dictionaries *)

Lemma magic_get_set (d : magic_dict) (k k' : Z) (v : Z * Z) :
  magic_get (magic_set d k v) k' = if k =? k' then Some v else magic_get d k'.
Proof.
  induction d as [| [k0 v0] d IH]; simpl.
  - done.
  - destruct (Z.eqb_spec k0 k) as [-> | Hne]; simpl.
    + by destruct (Z.eqb_spec k k').
    + destruct (Z.eqb_spec k0 k') as [-> | Hne'].
      * destruct (Z.eqb_spec k k'); [lia | done].
      * exact IH.
Qed.

(** Once a magic number has its entry, no later record lowers the low
    end of the entry. *)
Lemma magic_record_keeps_low (d : magic_dict) (k k' other lo hi : Z) :
  magic_get d k = Some (lo, hi) ->
  exists hi', magic_get (magic_record d k' other) k = Some (lo, hi') /\ hi <= hi'.
Proof.
  intros Hk. unfold magic_record.
  destruct (is_magic k'); [| exists hi; split; [done | lia]].
  destruct (magic_get d k') as [[lo' hi'] |] eqn:Hk'.
  - destruct (Z.ltb_spec hi' other) as [Hlt | Hge]; [| exists hi; split; [done | lia]].
    rewrite magic_get_set. destruct (Z.eqb_spec k' k) as [-> | Hne].
    + rewrite Hk in Hk'. injection Hk' as -> ->. exists other. split; [done | lia].
    + exists hi. split; [done | lia].
  - rewrite magic_get_set. destruct (Z.eqb_spec k' k) as [-> | Hne]; [congruence |].
    exists hi. split; [done | lia].
Qed.

(** C6. Three isotopes with N = 2 arriving as Z = 3, 1, 2: the entry of
    [n_magic] for N = 2 is [3, 3], whereas the Z of the retained isotopes
    with N = 2 go from 1 to 3.  The loop raises the high end of an entry
    and never lowers its low end. *)
Theorem magic_low_end_first_seen :
  let H := example_env in
  let nodes := [Sample.node "5" "3" [Sample.dm "b-" "100"];
                Sample.node "3" "1" [Sample.dm "b-" "100"];
                Sample.node "4" "2" [Sample.dm "is" "100"]] in
  let loaded := snd (load_xml_nuclear_table (Some nodes) (0, 180) (0, 120)) in
  let plotted :=
    plot_all (Sample.bare true) (n_limits loaded) (z_limits loaded) (data loaded) in
  map (fun n => (nuc_N n, nuc_Z n)) (data loaded) = [(2, 3); (2, 1); (2, 2)] /\
  fst plotted = Go tt /\
  n_magic (snd plotted) = [(2, (3, 3))] /\
  z_magic (snd plotted) = [(2, (2, 2))].
Proof. repeat split. Qed.

(** ** Ingestion and the canvas *)

Lemma widen_min_max (limits : Z * Z) (v : Z) :
  widen limits v = (Z.min (fst limits) v, Z.max (snd limits) v).
Proof.
  unfold widen. destruct limits as [lo hi]. simpl.
  destruct (Z.ltb_spec v lo); simpl; destruct (Z.ltb_spec hi v); simpl; f_equal; lia.
Qed.

Lemma fold_widen (l : list Z) (limits : Z * Z) :
  fold_left widen l limits
  = (fold_left Z.min l (fst limits), fold_left Z.max l (snd limits)).
Proof.
  revert limits. induction l as [| v l IH]; intros limits; simpl.
  - by destruct limits.
  - by rewrite IH, widen_min_max.
Qed.



Section LoadFacts.
Context `{PyEnv}.

(** Inside the window the [break] of line 134 is never taken. *)
Lemma in_window_no_break (n_range z_range : Z * Z) (N Z : Z) :
  in_window n_range z_range N Z = true ->
  (snd n_range <? N) && (snd z_range <? Z) = false.
Proof.
  unfold in_window. intros Hw.
  destruct (Z.ltb_spec (snd n_range) N); [| done]. exfalso.
  repeat (apply andb_true_iff in Hw as [Hw ?]). lia.
Qed.

Lemma observed_in_window (n_range z_range : Z * Z) (nodes : list XmlNuclide) :
  Forall (fun p => in_window n_range z_range (fst p) (snd p) = true)
         (observed n_range z_range nodes).
Proof.
  induction nodes as [| node rest IH]; simpl; [constructor |].
  destruct (py_int (attr_A node)) as [A |]; [| done].
  destruct (py_int (attr_Z node)) as [Z |]; [| done].
  destruct (in_window n_range z_range (A - Z) Z) eqn:Hw; [| done].
  by constructor.
Qed.

Lemma ingest_limits (n_range z_range : Z * Z) (nodes : list XmlNuclide) (st : Ingest) :
  let st' := ingest n_range z_range nodes st in
  n_limits st' = fold_left widen (map fst (observed n_range z_range nodes)) (n_limits st) /\
  z_limits st' = fold_left widen (map snd (observed n_range z_range nodes)) (z_limits st).
Proof.
  revert st. induction nodes as [| node rest IH]; intros st; simpl; [done |].
  destruct (py_int (attr_A node)) as [A |]; [| apply (IH (complain node st))].
  destruct (py_int (attr_Z node)) as [Z |]; [| apply (IH (complain node st))].
  destruct (in_window n_range z_range (A - Z) Z) eqn:Hw; simpl; [| apply IH].
  rewrite (in_window_no_break _ _ _ _ Hw).
  unfold NuclideXml.
  destruct (fields node);
    match goal with |- context [ingest _ _ rest ?s] => apply (IH s) end.
Qed.




End LoadFacts.

(** Reading a [WriteOutfile] off a trace. *)
Ltac written Hin :=
  repeat match type of Hin with
  | _ ∈ _ ++ _ => apply elem_of_app in Hin as [Hin | Hin]
  | _ ∈ _ :: _ => apply elem_of_cons in Hin as [Hin | Hin]
  | _ ∈ [] => by apply elem_of_nil in Hin
  | _ ∈ map _ _ => apply list_elem_of_fmap in Hin as (? & Hin & _)
  | _ ∈ _ <$> _ => apply list_elem_of_fmap in Hin as (? & Hin & _)
  | WriteOutfile _ = Print _ => discriminate Hin
  | WriteOutfile _ = ParseDatafile => discriminate Hin
  | WriteOutfile _ = WriteOutfile _ => injection Hin as ->
  end.





(** * Further properties *)

(** ** How the primary step and the two scans can end *)

Lemma first_basic_spec (i : nat) (l : list DecayMode) (k : nat) :
  first_basic i l = Some k ->
  exists j m, k = (i + j)%nat /\ l !! j = Some m /\ in_basic (mode m) = true /\
    forall j' x, (j' < j)%nat -> l !! j' = Some x -> in_basic (mode x) = false.
Proof.
  revert i. induction l as [| a l IH]; intros i; simpl; [done |].
  destruct (in_basic (mode a)) eqn:Ha.
  - intros [= <-]. exists 0%nat, a. repeat split; [lia | done | lia].
  - intros Hk. destruct (IH (S i) Hk) as (j & m & -> & Hj & Hm & Hbefore).
    exists (S j), m. repeat split; [lia | done | done |].
    intros [| j'] x Hlt Hx; simpl in Hx.
    + by injection Hx as <-.
    + apply (Hbefore j' x); [lia | done].
Qed.

(** The primary step ends in one of three ways; when it goes on, the
    list starts with a basic mode or an accepted ['?'], and the colour is
    the one [COLORS] has for that mode. *)
Lemma primary_step_cases (unknown : bool) (dm : list DecayMode) :
  (dm = [] /\ primary_step unknown dm = (Raise IndexError, dm)) \/
  (dm <> [] /\ primary_step unknown dm = (Return, dm)) \/
  (exists c m rest,
     primary_step unknown dm = (Go c, m :: rest) /\
     dict_get COLORS (mode m) = Some c /\
     (in_basic (mode m) = true \/ (mode m = "?" /\ unknown = true))).
Proof.
  destruct dm as [| m0 rest]; [by left |]. right.
  destruct (in_basic (mode m0)) eqn:Hm0.
  - right. destruct (primary_step_basic unknown (m0 :: rest) m0 eq_refl Hm0)
      as (c & Hc & Hstep).
    exists c, m0, rest. split; [done |]. split; [done | by left].
  - destruct (String.eqb (mode m0) "?" && unknown) eqn:Hu.
    + right. apply andb_true_iff in Hu as [Hq ->]. apply String.eqb_eq in Hq.
      exists COLORS_unknown, m0, rest.
      split; [by apply (primary_step_unknown (m0 :: rest) m0) |].
      split; [by rewrite Hq | by right].
    + destruct (first_basic 1 rest) as [i |] eqn:Hfb.
      * right. destruct (first_basic_spec 1 rest i Hfb) as (j & m & _ & Hj & Hm & Hbefore).
        assert (Hnq : ~ (mode m0 = "?" /\ unknown = true)).
        { intros [Hq ->]. rewrite Hq in Hu. discriminate Hu. }
        destruct (primary_step_swap unknown m0 rest j m Hm0 Hnq Hj Hm Hbefore)
          as (c & Hc & Hstep).
        exists c, m, (<[j := m0]> rest). split; [done |]. split; [done | by left].
      * left. split; [done |]. unfold primary_step.
        change ((m0 :: rest) !! 0%nat) with (Some m0). cbv beta iota.
        rewrite Hm0, Hu. change (drop 1 (m0 :: rest)) with rest. rewrite Hfb.
        by destruct (1 <? length (m0 :: rest))%nat.
Qed.

Section MarkerFacts.
Context `{PyEnv}.

Lemma secondary_scan_keeps (pc : string) (l : list DecayMode) (st st' : marker) :
  secondary_scan pc l st = Go st' ->
  colored st -> never_large_on_stable pc st ->
  colored st' /\ never_large_on_stable pc st'.
Proof.
  revert st. induction l as [| m l IH]; intros st; simpl.
  - by intros [= <-].
  - destruct (in_basic (mode m)) eqn:Hb.
    + destruct (branching m) as [v |]; [| apply IH].
      destruct (basic_COLORS_at _ Hb) as (c & -> & _).
      change (Go c ≫= ?f) with (f c). cbv beta.
      intros Hscan Hcol Hlarge. apply (IH _ Hscan).
      * by intros _.
      * unfold never_large_on_stable in *. simpl.
        destruct (String.eqb_spec pc COLORS_is) as [-> | Hne];
          destruct (5 <? v)%float; destruct (0 <? v)%float; simpl; try done.
    + destruct (ClusterRe.search (mode m)); [| apply IH].
      intros [= <-] _ _. split; [by intros _ | by intros ?].
Qed.

Lemma tertiary_scan_keeps (l : list DecayMode) (st st' : marker) :
  tertiary_scan l st = Go st' ->
  colored st -> m_size st <> Some large ->
  colored st' /\ m_size st' <> Some large.
Proof.
  revert st. induction l as [| m l IH]; intros st; simpl.
  - by intros [= <-].
  - destruct (in_basic (mode m)) eqn:Hb.
    + destruct (branching m) as [v |]; [| apply IH].
      destruct (0 <? v)%float; [| by intros [= <-]].
      destruct (basic_COLORS_at _ Hb) as (c & -> & _).
      intros [= <-] _ _. split; [by intros _ | by intros ?].
    + destruct (ClusterRe.search (mode m)); [| apply IH].
      intros [= <-] _ _. split; [by intros _ | by intros ?].
Qed.

(** What [resolve_markers] can give. *)
Lemma resolve_markers_cases (pc : string) (dm : list DecayMode) :
  exists sec ter,
    resolve_markers pc dm = Go (sec, ter) /\
    colored sec /\ colored ter /\
    never_large_on_stable pc sec /\
    m_size ter <> Some large /\
    (m_size sec <> None -> (2 <= length dm)%nat) /\
    (m_size ter <> None -> m_size sec <> None /\ (3 <= length dm)%nat).
Proof.
  assert (Hnone : colored no_marker /\ never_large_on_stable pc no_marker).
  { split; by intros ?. }
  unfold resolve_markers.
  destruct (Nat.ltb_spec 1 (length dm)) as [H1 | H1].
  - destruct (secondary_scan_total pc (drop 1 dm) no_marker) as (sec & Hsec).
    rewrite Hsec. change (Go sec ≫= ?f) with (f sec). cbv beta.
    destruct (secondary_scan_keeps pc _ _ _ Hsec) as [Hcol Hlarge]; [apply Hnone.. |].
    destruct (Nat.ltb_spec 2 (length dm)) as [H2 | H2]; simpl.
    + destruct (is_size large (m_size sec) ||
                is_size small (m_size sec) && String.eqb pc COLORS_is) eqn:Hruns.
      * destruct (tertiary_scan_total (drop 2 dm) no_marker) as (ter & Hter).
        rewrite Hter. change (Go ter ≫= ?f) with (f ter). cbv beta.
        destruct (tertiary_scan_keeps _ _ _ Hter) as [Hcol3 Hnl]; [by intros ? | done |].
        exists sec, ter. split_and!; try done; try lia.
        intros _. split; [| lia].
        intros Hs. rewrite Hs in Hruns. discriminate Hruns.
      * exists sec, no_marker. split_and!; try done; try lia; try apply Hnone.
    + exists sec, no_marker. split_and!; try done; try lia; try apply Hnone.
  - exists no_marker, no_marker. split_and!; try done; try apply Hnone.
Qed.

End MarkerFacts.

(** ** What a call of [draw_nuclide] appends *)

Section DrawFacts.
Context `{PyEnv}.

Lemma tertiary_corner_total (pc sc tc : string) :
  exists k, tertiary_corner pc (Some sc) tc = Go k.
Proof.
  unfold tertiary_corner, read_local.
  change (Go sc ≫= ?f) with (f sc). cbv beta.
  repeat case_match; by eexists.
Qed.

Lemma half_life_string_outcome (nuclide : Nuclide) (pc : string) :
  decay_modes nuclide <> [] ->
  (exists s, half_life_string nuclide pc = Go s) \/
  (half_life_string nuclide pc = Raise ValueError /\
   SciRe.search (hl_value (half_life nuclide)) = true /\
   py_float (hl_value (half_life nuclide)) = None).
Proof.
  intros Hne. unfold half_life_string.
  destruct (negb (String.eqb pc COLORS_is)).
  - destruct (SciRe.search (hl_value (half_life nuclide))) eqn:Hsci.
    + destruct (py_float (hl_value (half_life nuclide))) as [x |] eqn:Hf.
      * left. change (Go (format_1e x) ≫= ?f) with (f (format_1e x)). cbv beta.
        repeat case_match; by eexists.
      * by right.
    + left. change (Go (hl_value (half_life nuclide)) ≫= ?f)
        with (f (hl_value (half_life nuclide))). cbv beta.
      repeat case_match; by eexists.
  - left. destruct (decay_modes nuclide) as [| m rest]; [done |].
    rewrite py_getitem_head. by eexists.
Qed.

Lemma draw_shapes_frame (nuclide : Nuclide) (position : Z * Z) (args : Args)
    (pc : string) (sec ter : marker) (ls : Layers) :
  decay_modes nuclide <> [] ->
  colored sec -> colored ter ->
  m_size ter <> Some large ->
  (m_size ter <> None -> m_size sec <> None) ->
  exists r ls' tr tx,
    draw_shapes nuclide position args pc sec ter ls = (r, ls') /\
    squares ls' = squares ls ++ [rect (nuclide_str nuclide, 0%nat) position pc] /\
    triangles ls' = triangles ls ++ tr /\
    lines ls' = lines ls /\
    texts ls' = texts ls ++ tx /\
    length tr = (marker_count sec + marker_count ter)%nat /\
    (length tx <= text_count args nuclide)%nat /\
    ((r = Go tt /\ length tx = text_count args nuclide) \/
     (r = Raise ValueError /\ halflives args = true /\
      SciRe.search (hl_value (half_life nuclide)) = true /\
      py_float (hl_value (half_life nuclide)) = None)).
Proof.
  intros Hne Hsec Hter Hnl Hboth.
  destruct sec as [ssize scol], ter as [tsize tcol].
  unfold colored, marker_count, text_count in *. simpl in *.
  assert (Hsc : ssize <> None -> exists c, scol = Some c).
  { intros Hs. destruct scol; [by eexists | by destruct (Hsec Hs)]. }
  assert (Htc : tsize <> None -> exists c, tcol = Some c).
  { intros Hs. destruct tcol; [by eexists | by destruct (Hter Hs)]. }
  destruct ssize as [sz |], tsize as [[|] |]; try done;
    try (exfalso; by apply Hboth).
  all: try (destruct Hsc as [sc ->]; [done |]).
  all: try (destruct Htc as [tc ->]; [done |];
            destruct (tertiary_corner_total pc sc tc) as [k Hk]).
  all: try destruct sz.
  all: destruct (half_life_string_outcome nuclide pc Hne) as [[s Hs] | (Hv & Hsci & Hpf)].
  all: unfold draw_shapes, when, update, pure, mbind, mret, stateful_bind, stateful_ret;
    simpl; rewrite ?Hk, ?Hs, ?Hv; simpl.
  all: destruct (names args); simpl;
    destruct (halflives args && negb (String.eqb (hl_extrapolated (half_life nuclide)) "True"))
      eqn:Hhl; simpl.
  all: eexists _, _, _, _; split; [reflexivity |]; simpl.
  all: split; [reflexivity |].
  all: split; [first [rewrite <- !app_assoc; reflexivity | symmetry; apply app_nil_r
                     | reflexivity] |].
  all: split; [reflexivity |].
  all: split; [first [rewrite <- !app_assoc; reflexivity | symmetry; apply app_nil_r
                     | reflexivity] |].
  all: split; [reflexivity |].
  all: split; [simpl; lia |].
  all: first [ left; split; reflexivity
             | right; apply andb_true_iff in Hhl as [-> _]; by split_and! ].
Qed.

End DrawFacts.

Lemma marker_count_le (mk : marker) : (marker_count mk <= 1)%nat.
Proof. unfold marker_count. destruct (m_size mk); lia. Qed.

Lemma text_count_le (args : Args) (nuclide : Nuclide) : (text_count args nuclide <= 2)%nat.
Proof. unfold text_count. repeat case_match; lia. Qed.

(** The call unfolded along the ways the primary step can end. *)
Lemma draw_nuclide_cases `{PyEnv} (nuclide : Nuclide) (ls : Layers) (position : Z * Z)
    (args : Args) :
  (decay_modes nuclide = [] /\
   draw_nuclide nuclide ls position args = (Raise IndexError, (nuclide, ls))) \/
  (decay_modes nuclide <> [] /\
   exists after, draw_nuclide nuclide ls position args = (Return, (after, ls))) \/
  (decay_modes nuclide <> [] /\
   PyStr.contains "unstable" (hl_value (half_life nuclide)) = false /\
   exists c dm sec ter,
     primary_step (unknown args) (decay_modes nuclide) = (Go c, dm) /\
     dm <> [] /\
     resolve_markers c dm = Go (sec, ter) /\
     draw_nuclide nuclide ls position args
     = (fst (draw_shapes (set_decay_modes nuclide dm) position args c sec ter ls),
        (set_decay_modes nuclide dm,
         snd (draw_shapes (set_decay_modes nuclide dm) position args c sec ter ls)))).
Proof.
  unfold draw_nuclide.
  destruct (primary_step_cases (unknown args) (decay_modes nuclide))
    as [[Hnil ->] | [[Hne ->] | (c & m & rest & Hstep & Hc & Hm)]].
  - left. by rewrite set_decay_modes_same.
  - right. left. split; [done | by eexists].
  - right. rewrite Hstep. simpl.
    assert (Hne : decay_modes nuclide <> []).
    { intros Hnil. rewrite Hnil in Hstep. discriminate Hstep. }
    destruct (PyStr.contains "unstable" (hl_value (half_life nuclide))) eqn:Hun.
    + left. split; [done | by eexists].
    + right. split; [done |]. split; [done |].
      destruct (resolve_markers_cases c (m :: rest)) as (sec & ter & Hres & _).
      exists c, (m :: rest), sec, ter. rewrite Hres.
      split; [done |]. split; [done |]. split; [done |].
      by destruct (draw_shapes _ _ _ _ _ _ _).
Qed.

(** X1. A nuclide whose half-life value contains "unstable" is not drawn,
    whatever its decay modes: the layers are as before the call. *)
Theorem unstable_not_drawn `{PyEnv} (nuclide : Nuclide) (ls : Layers)
    (position : Z * Z) (args : Args) :
  PyStr.contains "unstable" (hl_value (half_life nuclide)) = true ->
  snd (snd (draw_nuclide nuclide ls position args)) = ls /\
  fst (draw_nuclide nuclide ls position args) <> Go tt.
Proof.
  intros Hun.
  destruct (draw_nuclide_cases nuclide ls position args)
    as [[_ ->] | [[_ [after ->]] | (_ & Hstable & _)]]; [done | done | congruence].
Qed.

Lemma unstable_not_drawn_witness :
  let H := example_env in
  let n := {| nuc_Z := 3; nuc_A := 4; nuc_N := 1; element := "Li";
              decay_modes := [Sample.dm "p" "100"];
              half_life := Sample.seconds "p-unstable" |} in
  snd (snd (draw_nuclide n no_layers (0, 0) (Sample.args (0, 180) (0, 120)))) = no_layers.
Proof.
  intros H n.
  apply (unstable_not_drawn n no_layers (0, 0) (Sample.args (0, 180) (0, 120))).
  reflexivity.
Defined.

(** What a call of [draw_nuclide] can raise. *)
Lemma draw_nuclide_raises `{PyEnv} (nuclide : Nuclide) (ls : Layers) (position : Z * Z)
    (args : Args) (e : exn) :
  fst (draw_nuclide nuclide ls position args) = Raise e ->
  e = IndexError \/ (e = ValueError /\ halflives args = true).
Proof.
  destruct (draw_nuclide_cases nuclide ls position args)
    as [[Hnil ->] | [[Hne [after ->]] | (Hne & _ & c & dm & sec & ter & _ & Hdm & Hres & ->)]];
    simpl.
  - intros [= <-]. by left.
  - discriminate.
  - destruct (resolve_markers_cases c dm) as (sec' & ter' & Hres' & Hc2 & Hc3 & _ & Hnl & _ & Hboth).
    rewrite Hres in Hres'. injection Hres' as <- <-.
    destruct (draw_shapes_frame (set_decay_modes nuclide dm) position args c sec ter ls)
      as (r' & ls' & tr & tx & -> & _ & _ & _ & _ & _ & _ & Hr); try done.
    { intros Ht. by apply Hboth. }
    simpl. destruct Hr as [[-> _] | (-> & Hhl & _)]; [discriminate |].
    intros [= <-]. by right.
Qed.

(** X2. A call of [draw_nuclide] ends normally, returns early, or raises
    [IndexError] or [ValueError], never anything else.  It raises
    [IndexError] exactly when the decay-mode list is empty, and
    [ValueError] only when half-lives are shown and the half-life value
    matches the scientific-notation pattern without being a float. *)
Theorem draw_nuclide_outcome `{PyEnv} (nuclide : Nuclide) (ls : Layers)
    (position : Z * Z) (args : Args) :
  let r := fst (draw_nuclide nuclide ls position args) in
  (r = Go tt \/ r = Return \/ r = Raise IndexError \/ r = Raise ValueError) /\
  (r = Raise IndexError <-> decay_modes nuclide = []) /\
  (r = Raise ValueError ->
   halflives args = true /\
   SciRe.search (hl_value (half_life nuclide)) = true /\
   py_float (hl_value (half_life nuclide)) = None).
Proof.
  intros r. unfold r.
  destruct (draw_nuclide_cases nuclide ls position args)
    as [[Hnil ->] | [[Hne [after ->]] | (Hne & _ & c & dm & sec & ter & _ & Hdm & Hres & ->)]];
    simpl.
  - split; [tauto |]. split; [done | discriminate].
  - split; [tauto |]. split; [split; [discriminate | done] | discriminate].
  - destruct (resolve_markers_cases c dm) as (sec' & ter' & Hres' & Hc2 & Hc3 & _ & Hnl & _ & Hboth).
    rewrite Hres in Hres'. injection Hres' as <- <-.
    destruct (draw_shapes_frame (set_decay_modes nuclide dm) position args c sec ter ls)
      as (r' & ls' & tr & tx & -> & _ & _ & _ & _ & _ & _ & Hr); try done.
    { intros Ht. by apply Hboth. }
    simpl. destruct Hr as [[-> _] | (-> & Hhl & Hsci & Hpf)].
    + split; [tauto |]. split; [split; [discriminate | done] | discriminate].
    + split; [tauto |]. split; [split; [discriminate | done] | done].
Qed.


Lemma draw_nuclide_outcome_witness :
  let H := example_env in
  let n := {| nuc_Z := 3; nuc_A := 8; nuc_N := 5; element := "Li";
              decay_modes := [Sample.dm "b-" "100"];
              half_life := Sample.seconds "1eE5" |} in
  SciRe.search "1eE5" = true /\ py_float "1eE5" = None.
Proof.
  intros H n.
  destruct (draw_nuclide_outcome n no_layers (0, 0) (Sample.args (0, 180) (0, 120)))
    as (_ & _ & Hvalue).
  apply Hvalue. reflexivity.
Defined.

(** X3. A call of [draw_nuclide] only appends: the layer of lines is left
    alone, and the other layers grow by at most one rectangle, two
    triangles and two texts.  A call that ends normally has appended
    exactly one rectangle, at the given position and with the identifier
    of the nuclide and suffix 0, and one text per enabled display; a call
    that returns early or raises [IndexError] has appended nothing. *)
Theorem draw_nuclide_appends `{PyEnv} (nuclide : Nuclide) (ls : Layers)
    (position : Z * Z) (args : Args) :
  let r := fst (draw_nuclide nuclide ls position args) in
  let ls' := snd (snd (draw_nuclide nuclide ls position args)) in
  exists sq tr tx,
    squares ls' = squares ls ++ sq /\
    triangles ls' = triangles ls ++ tr /\
    lines ls' = lines ls /\
    texts ls' = texts ls ++ tx /\
    (length sq <= 1)%nat /\ (length tr <= 2)%nat /\ (length tx <= 2)%nat /\
    (r = Go tt ->
     (exists fill, sq = [rect (nuclide_str nuclide, 0%nat) position fill]) /\
     length tx = text_count args nuclide) /\
    (r = Return \/ r = Raise IndexError -> sq = [] /\ tr = [] /\ tx = []).
Proof.
  intros r ls'. unfold r, ls'.
  destruct (draw_nuclide_cases nuclide ls position args)
    as [[Hnil ->] | [[Hne [after ->]] | (Hne & _ & c & dm & sec & ter & _ & Hdm & Hres & ->)]];
    simpl.
  - exists [], [], []. rewrite !app_nil_r. split_and!; try done; simpl; lia.
  - exists [], [], []. rewrite !app_nil_r. split_and!; try done; simpl; lia.
  - destruct (resolve_markers_cases c dm) as (sec' & ter' & Hres' & Hc2 & Hc3 & _ & Hnl & _ & Hboth).
    rewrite Hres in Hres'. injection Hres' as <- <-.
    destruct (draw_shapes_frame (set_decay_modes nuclide dm) position args c sec ter ls)
      as (r' & ls1 & tr & tx & -> & Hsq & Htr & Hli & Htx & Hcount & Hlen & Hr); try done.
    { intros Ht. by apply Hboth. }
    simpl. exists [rect (nuclide_str nuclide, 0%nat) position c], tr, tx.
    pose proof (marker_count_le sec). pose proof (marker_count_le ter).
    pose proof (text_count_le args nuclide) as Htc.
    change (text_count args (set_decay_modes nuclide dm))
      with (text_count args nuclide) in *.
    split_and!; try done; simpl; try lia.
    + intros ->. destruct Hr as [[_ Hlen'] | [Hbad _]]; [| discriminate Hbad].
      split; [by eexists | exact Hlen'].
    + intros [-> | ->]; destruct Hr as [[Hbad _] | [Hbad _]]; discriminate Hbad.
Qed.

Lemma draw_nuclide_appends_witness :
  let H := example_env in
  let n := Sample.nuclide 2 4 [Sample.dm "is" "100"] in
  let args := Sample.args (0, 180) (0, 120) in
  exists sq tx,
    squares (snd (snd (draw_nuclide n no_layers (34, 2) args))) = sq /\
    texts (snd (snd (draw_nuclide n no_layers (34, 2) args))) = tx /\
    (exists fill, sq = [rect (2, 2, 0%nat) (34, 2) fill]) /\
    length tx = 2%nat.
Proof.
  intros H n args.
  destruct (draw_nuclide_appends n no_layers (34, 2) args)
    as (sq & tr & tx & Hsq & _ & _ & Htx & _ & _ & _ & Hgo & _).
  destruct Hgo as [Hrect Hlen]; [reflexivity |].
  exists sq, tx. by rewrite Hsq, Htx.
Defined.

(** X4. The primary colour is the stable colour exactly when the mode the
    list starts with, once the primary step has put it there, is ['is']:
    no other mode that can become primary shares that colour. *)
Theorem stable_colour_iff_stable_mode (unknown : bool) (dm dm' : list DecayMode)
    (c : string) :
  primary_step unknown dm = (Go c, dm') ->
  (c = COLORS_is <-> exists m, dm' !! 0%nat = Some m /\ mode m = "is").
Proof.
  intros Hstep.
  destruct (primary_step_cases unknown dm)
    as [[_ Hbad] | [[_ Hbad] | (c' & m & rest & Hstep' & Hc & Hm)]]; [congruence.. |].
  rewrite Hstep in Hstep'. injection Hstep' as -> ->.
  assert (Hiff : c' = COLORS_is <-> mode m = "is").
  { destruct Hm as [Hb | [Hq _]].
    - each_basic Hb; rewrite Hb in Hc; injection Hc as <-; rewrite Hb;
        (split; [try discriminate; done | try discriminate; done]).
    - rewrite Hq in Hc. injection Hc as <-. rewrite Hq. split; discriminate. }
  rewrite Hiff. split.
  - intros Hm'. by exists m.
  - by intros (m' & [= <-] & Hm').
Qed.

Lemma stable_colour_iff_stable_mode_witness :
  exists m, [Sample.dm "is" "7.5"; Sample.dm "2b-" "?"] !! 0%nat = Some m /\ mode m = "is".
Proof.
  apply (stable_colour_iff_stable_mode true
           [Sample.dm "is" "7.5"; Sample.dm "2b-" "?"]
           [Sample.dm "is" "7.5"; Sample.dm "2b-" "?"] "#000000").
  - reflexivity.
  - reflexivity.
Defined.

(** X5. The two scans always give a result, and the markers they give
    fit together: a large secondary marker never sits on a stable primary
    colour, the tertiary marker is never large, a tertiary marker comes
    only with a secondary one and three or more modes, and a marker that
    has a size has a colour. *)
Theorem markers_fit_together `{PyEnv} (pc : string) (dm : list DecayMode) :
  exists sec ter,
    resolve_markers pc dm = Go (sec, ter) /\
    (m_size sec = Some large -> pc <> COLORS_is) /\
    m_size ter <> Some large /\
    (m_size ter <> None -> m_size sec <> None /\ (3 <= length dm)%nat) /\
    (m_size sec <> None -> (2 <= length dm)%nat /\ m_color sec <> None) /\
    (m_size ter <> None -> m_color ter <> None).
Proof.
  destruct (resolve_markers_cases pc dm)
    as (sec & ter & Hres & Hc2 & Hc3 & Hlarge & Hnl & Hlen2 & Hboth).
  exists sec, ter. split_and!; try done.
  intros Hs. split; [by apply Hlen2 | by apply Hc2].
Qed.

Lemma markers_fit_together_witness :
  let H := example_env in
  let dm := [Sample.dm "is" "90"; Sample.dm "b-" "10"; Sample.dm "a" "1"] in
  exists sec ter,
    resolve_markers "#000000" dm = Go (sec, ter) /\
    m_size sec <> Some large.
Proof.
  intros H dm.
  destruct (markers_fit_together "#000000" dm) as (sec & ter & Hres & Hstable & _).
  exists sec, ter. split; [exact Hres |].
  intros Hl. by apply (Hstable Hl).
Defined.

(** ** Ingestion, node by node *)

Lemma fold_min_bounds (l : list Z) (a : Z) :
  (fold_left Z.min l a = a \/ fold_left Z.min l a ∈ l) /\
  fold_left Z.min l a <= a /\
  forall x, x ∈ l -> fold_left Z.min l a <= x.
Proof.
  revert a. induction l as [| v l IH]; intros a; simpl.
  - split; [by left |]. split; [lia |]. intros x Hx. by apply elem_of_nil in Hx.
  - destruct (IH (Z.min a v)) as (Hin & Hle & Hall). split; [| split].
    + destruct Hin as [Heq | Hin]; [| right; by right].
      rewrite Heq. destruct (Z.min_spec a v) as [[_ ->] | [_ ->]];
        [by left | right; by left].
    + lia.
    + intros x Hx. apply elem_of_cons in Hx as [-> | Hx]; [lia | by apply Hall].
Qed.

Lemma fold_max_bounds (l : list Z) (a : Z) :
  (fold_left Z.max l a = a \/ fold_left Z.max l a ∈ l) /\
  a <= fold_left Z.max l a /\
  forall x, x ∈ l -> x <= fold_left Z.max l a.
Proof.
  revert a. induction l as [| v l IH]; intros a; simpl.
  - split; [by left |]. split; [lia |]. intros x Hx. by apply elem_of_nil in Hx.
  - destruct (IH (Z.max a v)) as (Hin & Hle & Hall). split; [| split].
    + destruct Hin as [Heq | Hin]; [| right; by right].
      rewrite Heq. destruct (Z.max_spec a v) as [[_ ->] | [_ ->]];
        [right; by left | by left].
    + lia.
    + intros x Hx. apply elem_of_cons in Hx as [-> | Hx]; [lia | by apply Hall].
Qed.

Section IngestFacts.
Context `{PyEnv}.

Lemma ingest_by_fate (n_range z_range : Z * Z) (nodes : list XmlNuclide) (st : Ingest) :
  let fates := map (fun node => (node, node_fate n_range z_range node)) nodes in
  data (ingest n_range z_range nodes st)
  = data st ++ omap (fun p => kept (snd p)) fates /\
  printed (ingest n_range z_range nodes st)
  = printed st ++ omap (fun p => complaint (fst p) (snd p)) fates.
Proof.
  revert st. induction nodes as [| node rest IH]; intros st; simpl.
  - by rewrite !app_nil_r.
  - unfold node_fate.
    destruct (py_int (attr_A node)) as [A |];
      [| destruct (IH (complain node st)) as [-> ->]; simpl;
         rewrite <- app_assoc; split; reflexivity].
    destruct (py_int (attr_Z node)) as [Z |];
      [| destruct (IH (complain node st)) as [-> ->]; simpl;
         rewrite <- app_assoc; split; reflexivity].
    destruct (in_window n_range z_range (A - Z) Z) eqn:Hw; simpl; [| apply IH].
    rewrite (in_window_no_break _ _ _ _ Hw).
    destruct (NuclideXml Z A node) as [isotope |]; simpl;
      match goal with |- context [ingest _ _ rest ?s] => destruct (IH s) as [-> ->] end;
      simpl; rewrite <- ?app_assoc; split; reflexivity.
Qed.

Lemma ingest_data_seen (n_range z_range : Z * Z) (nodes : list XmlNuclide) (st : Ingest)
    (n : Nuclide) :
  n ∈ data (ingest n_range z_range nodes st) ->
  n ∈ data st \/ (nuc_N n, nuc_Z n) ∈ observed n_range z_range nodes.
Proof.
  revert st. induction nodes as [| node rest IH]; intros st; simpl; [by left |].
  destruct (py_int (attr_A node)) as [A |]; [| apply (IH (complain node st))].
  destruct (py_int (attr_Z node)) as [Z |]; [| apply (IH (complain node st))].
  destruct (in_window n_range z_range (A - Z) Z) eqn:Hw; simpl; [| apply IH].
  rewrite (in_window_no_break _ _ _ _ Hw).
  unfold NuclideXml. destruct (fields node) as [f |]; intros Hin;
    apply IH in Hin as [Hin | Hin]; simpl in Hin.
  - apply elem_of_app in Hin as [Hin | Hin]; [by left |].
    apply list_elem_of_singleton in Hin as ->. right. by left.
  - right. by right.
  - by left.
  - right. by right.
Qed.

(** The limits enclose every retained nuclide, and stay inside a request
    whose ends are in order. *)
Lemma load_limits (n_range z_range : Z * Z) (nodes : list XmlNuclide) :
  let loaded := snd (load_xml_nuclear_table (Some nodes) n_range z_range) in
  Forall (within (n_limits loaded) (z_limits loaded)) (data loaded) /\
  (fst n_range <= snd n_range ->
   fst n_range <= fst (n_limits loaded) <= snd n_range /\
   fst n_range <= snd (n_limits loaded) <= snd n_range) /\
  (fst z_range <= snd z_range ->
   fst z_range <= fst (z_limits loaded) <= snd z_range /\
   fst z_range <= snd (z_limits loaded) <= snd z_range).
Proof.
  simpl.
  set (start := {| data := []; n_limits := (snd n_range, fst n_range);
                   z_limits := (snd z_range, fst z_range); printed := [] |}).
  destruct (ingest_limits n_range z_range nodes start) as [HN HZ].
  simpl in HN, HZ. rewrite fold_widen in HN, HZ. simpl in HN, HZ.
  rewrite HN, HZ. simpl.
  set (seen := observed n_range z_range nodes) in *.
  pose proof (observed_in_window n_range z_range nodes) as Hwin. fold seen in Hwin.
  rewrite Forall_forall in Hwin.
  assert (HNs : forall x, x ∈ map fst seen -> fst n_range <= x <= snd n_range).
  { intros x Hx. apply list_elem_of_fmap in Hx as ([N Z] & -> & Hp).
    specialize (Hwin _ Hp). unfold in_window in Hwin.
    simpl in *. repeat (apply andb_true_iff in Hwin as [Hwin ?]). lia. }
  assert (HZs : forall x, x ∈ map snd seen -> fst z_range <= x <= snd z_range).
  { intros x Hx. apply list_elem_of_fmap in Hx as ([N Z] & -> & Hp).
    specialize (Hwin _ Hp). unfold in_window in Hwin.
    simpl in *. repeat (apply andb_true_iff in Hwin as [Hwin ?]). lia. }
  destruct (fold_min_bounds (map fst seen) (snd n_range)) as (Hmin1 & Hmin2 & Hmin3).
  destruct (fold_max_bounds (map fst seen) (fst n_range)) as (Hmax1 & Hmax2 & Hmax3).
  destruct (fold_min_bounds (map snd seen) (snd z_range)) as (Zmin1 & Zmin2 & Zmin3).
  destruct (fold_max_bounds (map snd seen) (fst z_range)) as (Zmax1 & Zmax2 & Zmax3).
  split; [| split].
  - apply Forall_forall. intros n Hn.
    apply ingest_data_seen in Hn as [Hn | Hn]; [by apply elem_of_nil in Hn |].
    assert (H1 : nuc_N n ∈ map fst seen).
    { apply list_elem_of_fmap. by exists (nuc_N n, nuc_Z n). }
    assert (H2 : nuc_Z n ∈ map snd seen).
    { apply list_elem_of_fmap. by exists (nuc_N n, nuc_Z n). }
    unfold within. simpl.
    pose proof (Hmin3 _ H1). pose proof (Hmax3 _ H1).
    pose proof (Zmin3 _ H2). pose proof (Zmax3 _ H2). lia.
  - intros Hr.
    destruct Hmin1 as [-> | Hin1]; destruct Hmax1 as [-> | Hin2];
      try (pose proof (HNs _ Hin1)); try (pose proof (HNs _ Hin2)); lia.
  - intros Hr.
    destruct Zmin1 as [-> | Hin1]; destruct Zmax1 as [-> | Hin2];
      try (pose proof (HZs _ Hin1)); try (pose proof (HZs _ Hin2)); lia.
Qed.

End IngestFacts.

(** X6. Ingestion treats every node on its own: a node is retained,
    reported or skipped whatever the other nodes are, the loop never stops
    early, and the retained records and the reports come in document
    order. *)
Theorem ingestion_node_by_node `{PyEnv} (n_range z_range : Z * Z)
    (nodes : list XmlNuclide) :
  let result := load_xml_nuclear_table (Some nodes) n_range z_range in
  let fates := map (fun node => (node, node_fate n_range z_range node)) nodes in
  fst result = Some (omap (fun p => kept (snd p)) fates) /\
  data (snd result) = omap (fun p => kept (snd p)) fates /\
  printed (snd result) = omap (fun p => complaint (fst p) (snd p)) fates /\
  (length (data (snd result)) + length (printed (snd result)) <= length nodes)%nat.
Proof.
  intros result fates. unfold result. simpl.
  set (start := {| data := []; n_limits := (snd n_range, fst n_range);
                   z_limits := (snd z_range, fst z_range); printed := [] |}).
  destruct (ingest_by_fate n_range z_range nodes start) as [Hdata Hprinted].
  fold fates in Hdata, Hprinted. simpl in Hdata, Hprinted.
  rewrite Hdata, Hprinted. split_and!; try done.
  replace (length nodes) with (length fates) by (unfold fates; by rewrite length_map).
  clear. induction fates as [| [node f] fates IH]; [simpl; lia |].
  destruct f; cbn in *; lia.
Qed.

(** X7. The limits enclose every retained nuclide; for a request whose
    ends are in order they stay inside the request, also when nothing is
    retained; and once something is retained the low limit is not above
    the high one. *)
Theorem limits_enclose_data `{PyEnv} (n_range z_range : Z * Z) (nodes : list XmlNuclide) :
  let loaded := snd (load_xml_nuclear_table (Some nodes) n_range z_range) in
  Forall (within (n_limits loaded) (z_limits loaded)) (data loaded) /\
  (fst n_range <= snd n_range ->
   fst n_range <= fst (n_limits loaded) <= snd n_range /\
   fst n_range <= snd (n_limits loaded) <= snd n_range) /\
  (fst z_range <= snd z_range ->
   fst z_range <= fst (z_limits loaded) <= snd z_range /\
   fst z_range <= snd (z_limits loaded) <= snd z_range) /\
  (data loaded <> [] ->
   fst (n_limits loaded) <= snd (n_limits loaded) /\
   fst (z_limits loaded) <= snd (z_limits loaded)).
Proof.
  intros loaded.
  destruct (load_limits n_range z_range nodes) as (Hin & HN & HZ). fold loaded in Hin, HN, HZ.
  split_and!; try done.
  intros Hne. destruct (data loaded) as [| n rest]; [done |].
  inversion Hin as [| ? ? Hn _]; subst. unfold within in Hn. lia.
Qed.

Lemma limits_enclose_data_witness :
  let H := example_env in
  let nodes := [Sample.node "7" "3" [Sample.dm "is" "100"];
                Sample.node "3" "2" [Sample.dm "is" "100"]] in
  let loaded := snd (load_xml_nuclear_table (Some nodes) (0, 5) (0, 5)) in
  0 <= fst (n_limits loaded) <= 5 /\ fst (n_limits loaded) <= snd (n_limits loaded).
Proof.
  intros H nodes loaded.
  destruct (limits_enclose_data (0, 5) (0, 5) nodes) as (_ & HN & _ & Hne).
  split.
  - apply HN. simpl. lia.
  - apply Hne. discriminate.
Defined.

(** ** The grid of occupied cells *)

Lemma py_setitem_nat {A} (l : list A) (i : nat) (x : A) :
  py_setitem l (Z.of_nat i) x
  = if (i <? length l)%nat then Go (<[i := x]> l) else Raise IndexError.
Proof.
  unfold py_setitem.
  destruct (Z.ltb_spec (Z.of_nat i) 0) as [Hneg | _]; [lia |].
  rewrite Nat2Z.id.
  destruct (Z.leb_spec 0 (Z.of_nat i)); [| lia].
  destruct (Nat.ltb_spec i (length l));
    destruct (Z.ltb_spec (Z.of_nat i) (Z.of_nat (length l))); simpl; try done; lia.
Qed.

Lemma length_range0 (k : Z) : length (range0 k) = Z.to_nat k.
Proof. unfold range0. by rewrite length_map, length_seq. Qed.

Lemma length_range (a b : Z) : length (range a b) = Z.to_nat (b - a).
Proof. unfold range. by rewrite length_map, length_range0. Qed.

Lemma empty_shape_grid (n_limits z_limits : Z * Z) :
  grid (Z.to_nat (snd n_limits + 1 - fst n_limits))
       (Z.to_nat (snd z_limits + 1 - fst z_limits))
       (empty_shape n_limits z_limits).
Proof.
  unfold grid, empty_shape. split.
  - by rewrite length_map, length_range.
  - apply Forall_forall. intros row Hrow.
    apply list_elem_of_fmap in Hrow as (? & -> & _).
    by rewrite length_map, length_range.
Qed.

Lemma empty_shape_cell (n_limits z_limits : Z * Z) (i j : nat) :
  cell (empty_shape n_limits z_limits) i j <> Some true.
Proof.
  unfold cell, empty_shape. rewrite list_lookup_fmap.
  destruct (range _ _ !! i); simpl; [| done].
  rewrite list_lookup_fmap. by destruct (range _ _ !! j).
Qed.

(** [shape[i][j] = True] inside the grid: no error, the same grid with
    that one cell set. *)
Lemma mark_inside (rows cols : nat) (shape : list (list bool)) (i j : Z) :
  grid rows cols shape ->
  0 <= i < Z.of_nat rows -> 0 <= j < Z.of_nat cols ->
  exists shape',
    mark shape i j = Go shape' /\
    grid rows cols shape' /\
    forall i' j',
      cell shape' i' j'
      = if decide (i' = Z.to_nat i /\ j' = Z.to_nat j) then Some true
        else cell shape i' j'.
Proof.
  intros [Hrows Hcols] Hi Hj.
  assert (Hlt : (Z.to_nat i < length shape)%nat) by lia.
  destruct (lookup_lt_is_Some_2 shape (Z.to_nat i) Hlt) as [row Hrow].
  assert (Hlen : length row = cols).
  { rewrite Forall_forall in Hcols. apply Hcols. by eapply list_elem_of_lookup_2. }
  exists (<[Z.to_nat i := <[Z.to_nat j := true]> row]> shape).
  split; [| split].
  - replace (mark shape i j)
      with (mark shape (Z.of_nat (Z.to_nat i)) (Z.of_nat (Z.to_nat j)))
      by (by rewrite !Z2Nat.id by lia).
    unfold mark. rewrite py_getitem_nat, Hrow.
    change (Go row ≫= ?f) with (f row). cbv beta.
    rewrite py_setitem_nat.
    destruct (Nat.ltb_spec (Z.to_nat j) (length row)); [| lia].
    change (Go ?r ≫= ?f) with (f r). cbv beta.
    rewrite py_setitem_nat.
    by destruct (Nat.ltb_spec (Z.to_nat i) (length shape)); [| lia].
  - split; [by rewrite length_insert |].
    apply Forall_insert; [done | by rewrite length_insert].
  - intros i' j'. unfold cell.
    destruct (decide (i' = Z.to_nat i)) as [-> | Hne].
    + rewrite list_lookup_insert_eq by done. rewrite Hrow. simpl.
      destruct (decide (j' = Z.to_nat j)) as [-> | Hne'].
      * rewrite list_lookup_insert_eq by lia. by rewrite decide_True.
      * rewrite list_lookup_insert_ne by done. by rewrite decide_False by tauto.
    + rewrite list_lookup_insert_ne by done. by rewrite decide_False by tauto.
Qed.

(** ** One turn of the loop of the script body, and the whole loop *)

Lemma for_each_cons {S A} (a : A) (l : list A) (body : A -> stateful S unit) (s : S) :
  for_each (a :: l) body s
  = match body a s with
    | (Go _, s') => for_each l body s'
    | (Return, s') => (Return, s')
    | (Raise e, s') => (Raise e, s')
    end.
Proof. reflexivity. Qed.

Section PlotFacts.
Context `{PyEnv}.

Lemma draw_nuclide_squares (nuclide : Nuclide) (ls : Layers) (position : Z * Z)
    (args : Args) :
  let ls' := snd (snd (draw_nuclide nuclide ls position args)) in
  lines ls' = lines ls /\
  (squares ls' = squares ls \/
   exists fill, squares ls' = squares ls ++ [rect (nuclide_str nuclide, 0%nat) position fill]).
Proof.
  destruct (draw_nuclide_cases nuclide ls position args)
    as [[Hnil ->] | [[Hne [after ->]] | (Hne & _ & c & dm & sec & ter & _ & Hdm & Hres & ->)]];
    simpl; [by split; [| left] | by split; [| left] |].
  destruct (resolve_markers_cases c dm) as (sec' & ter' & Hres' & Hc2 & Hc3 & _ & Hnl & _ & Hboth).
  rewrite Hres in Hres'. injection Hres' as <- <-.
  destruct (draw_shapes_frame (set_decay_modes nuclide dm) position args c sec ter ls)
    as (r' & ls' & tr & tx & -> & Hsq & _ & Hli & _); try done.
  { intros Ht. by apply Hboth. }
  simpl. split; [done |]. right. by exists c.
Qed.

Lemma plot_step (args : Args) (n_limits z_limits size : Z * Z) (nuclide : Nuclide)
    (st : Plot) (rows cols : nat) :
  grid rows cols (shape st) ->
  0 <= nuc_N nuclide - fst n_limits < Z.of_nat rows ->
  0 <= nuc_Z nuclide - fst z_limits < Z.of_nat cols ->
  exists r st',
    plot args n_limits z_limits size nuclide st = (r, st') /\
    (r = Go tt \/ (r = Raise ValueError /\ halflives args = true)) /\
    grid rows cols (shape st') /\
    n_magic st' = magic_record (n_magic st) (nuc_N nuclide) (nuc_Z nuclide) /\
    z_magic st' = magic_record (z_magic st) (nuc_Z nuclide) (nuc_N nuclide) /\
    (forall i j,
       cell (shape st') i j
       = if decide (i = fst (grid_index n_limits z_limits nuclide) /\
                    j = snd (grid_index n_limits z_limits nuclide))
         then Some true else cell (shape st) i j) /\
    layers st'
    = snd (snd (draw_nuclide nuclide (layers st)
                  ((nuc_N nuclide - fst n_limits + 1) * SIZE_FIELD + SIZE_GAP,
                   snd size - (nuc_Z nuclide - fst z_limits + 2) * SIZE_FIELD) args)).
Proof.
  intros Hgrid HN HZ.
  destruct (mark_inside rows cols (shape st) _ _ Hgrid HN HZ)
    as (shape' & Hmark & Hgrid' & Hcell).
  unfold plot. rewrite Hmark.
  set (position := ((nuc_N nuclide - fst n_limits + 1) * SIZE_FIELD + SIZE_GAP,
                    snd size - (nuc_Z nuclide - fst z_limits + 2) * SIZE_FIELD)).
  pose proof (draw_nuclide_raises nuclide (layers st) position args) as Hraise.
  destruct (draw_nuclide nuclide (layers st) position args) as [r0 [after ls']].
  simpl in Hraise.
  destruct r0 as [[] | | e].
  - eexists _, _. split; [reflexivity |]. simpl. split_and!; try done. by left.
  - eexists _, _. split; [reflexivity |]. simpl. split_and!; try done. by left.
  - destruct (Hraise e eq_refl) as [-> | [-> Hhl]].
    + eexists _, _. split; [reflexivity |]. simpl. split_and!; try done. by left.
    + eexists _, _. split; [reflexivity |]. simpl. split_and!; try done. by right.
Qed.

(** The loop over nuclides that lie in the grid. *)
Lemma plot_loop (args : Args) (n_limits z_limits size : Z * Z) (data : list Nuclide)
    (st : Plot) (rows cols : nat) :
  grid rows cols (shape st) ->
  Forall (fun n => 0 <= nuc_N n - fst n_limits < Z.of_nat rows /\
                   0 <= nuc_Z n - fst z_limits < Z.of_nat cols) data ->
  exists r st',
    for_each data (plot args n_limits z_limits size) st = (r, st') /\
    (r = Go tt \/ (r = Raise ValueError /\ halflives args = true)) /\
    grid rows cols (shape st') /\
    lines (layers st') = lines (layers st) /\
    (forall e, e ∈ squares (layers st') ->
       e ∈ squares (layers st) \/
       exists n fill, n ∈ data /\
         e = rect (nuclide_str n, 0%nat)
               ((nuc_N n - fst n_limits + 1) * SIZE_FIELD + SIZE_GAP,
                snd size - (nuc_Z n - fst z_limits + 2) * SIZE_FIELD) fill) /\
    (r = Go tt ->
     n_magic st' = magic_fold (map (fun n => (nuc_N n, nuc_Z n)) data) (n_magic st) /\
     z_magic st' = magic_fold (map (fun n => (nuc_Z n, nuc_N n)) data) (z_magic st) /\
     forall i j,
       cell (shape st') i j = Some true <->
       cell (shape st) i j = Some true \/
       exists n, n ∈ data /\ grid_index n_limits z_limits n = (i, j)).
Proof.
  intros Hgrid Hdata. revert st Hgrid.
  induction Hdata as [| n data [HN HZ] _ IH]; intros st Hgrid.
  - exists (Go tt), st. split; [reflexivity |]. split_and!; try done; [by left | by left |].
    intros _. split_and!; try done. intros i j. split; [by left |].
    intros [Hc | (n & Hn & _)]; [done | by apply elem_of_nil in Hn].
  - destruct (plot_step args n_limits z_limits size n st rows cols Hgrid HN HZ)
      as (r1 & st1 & Hplot & Hr1 & Hgrid1 & Hnm & Hzm & Hcell & Hlayers).
    pose proof (draw_nuclide_squares n (layers st)
                  ((nuc_N n - fst n_limits + 1) * SIZE_FIELD + SIZE_GAP,
                   snd size - (nuc_Z n - fst z_limits + 2) * SIZE_FIELD) args)
      as [Hlines Hsquares].
    rewrite <- Hlayers in Hlines, Hsquares.
    assert (Hsq1 : forall e, e ∈ squares (layers st1) ->
              e ∈ squares (layers st) \/
              exists fill, e = rect (nuclide_str n, 0%nat)
                ((nuc_N n - fst n_limits + 1) * SIZE_FIELD + SIZE_GAP,
                 snd size - (nuc_Z n - fst z_limits + 2) * SIZE_FIELD) fill).
    { intros e He. destruct Hsquares as [Heq | [fill Heq]]; rewrite Heq in He.
      - by left.
      - apply elem_of_app in He as [He | He]; [by left |].
        apply list_elem_of_singleton in He. right. by exists fill. }
    rewrite for_each_cons, Hplot.
    destruct Hr1 as [-> | [-> Hhl]].
    + destruct (IH st1 Hgrid1) as (r & st' & Hloop & Hr & Hgrid' & Hlines' & Hsq' & Hgo).
      exists r, st'. split; [exact Hloop |]. split_and!; try done.
      * congruence.
      * intros e He. destruct (Hsq' e He) as [He1 | (n' & fill & Hn' & ->)].
        -- destruct (Hsq1 e He1) as [He0 | [fill ->]]; [by left |].
           right. exists n, fill. split; [by left | done].
        -- right. exists n', fill. split; [by right | done].
      * intros Hgo'. destruct (Hgo Hgo') as (Hnm' & Hzm' & Hcell').
        split_and!.
        -- rewrite Hnm', Hnm. reflexivity.
        -- rewrite Hzm', Hzm. reflexivity.
        -- intros i j. rewrite Hcell', Hcell. split.
           ++ intros [Hc | (n' & Hn' & Hidx)].
              ** case_decide as Hd; [| by left]. right. exists n. split; [by left |].
                 destruct Hd as [-> ->]. by destruct (grid_index _ _ n).
              ** right. exists n'. split; [by right | done].
           ++ intros [Hc | (n' & Hn' & Hidx)].
              ** left. by case_decide.
              ** apply elem_of_cons in Hn' as [-> | Hn'].
                 --- left. rewrite Hidx. simpl. by rewrite decide_True.
                 --- right. by exists n'.
    + exists (Raise ValueError), st1. split; [reflexivity |]. split_and!; try done.
      * by right.
      * intros e He. destruct (Hsq1 e He) as [He0 | [fill ->]]; [by left |].
        right. exists n, fill. split; [by left | done].
Qed.

End PlotFacts.

(** The loop of the script body on what [load_xml_nuclear_table] gives. *)
Lemma plot_all_loaded `{PyEnv} (args : Args) (n_range z_range : Z * Z)
    (nodes : list XmlNuclide) :
  let loaded := snd (load_xml_nuclear_table (Some nodes) n_range z_range) in
  let nl := n_limits loaded in
  let zl := z_limits loaded in
  exists r st',
    plot_all args nl zl (data loaded) = (r, st') /\
    (r = Go tt \/ (r = Raise ValueError /\ halflives args = true)) /\
    grid (Z.to_nat (snd nl + 1 - fst nl)) (Z.to_nat (snd zl + 1 - fst zl)) (shape st') /\
    lines (layers st') = [] /\
    (forall e, e ∈ squares (layers st') ->
       exists n fill, n ∈ data loaded /\
         e = rect (nuclide_str n, 0%nat) (cell_position nl zl (nuc_N n) (nuc_Z n)) fill) /\
    (r = Go tt ->
     n_magic st' = magic_fold (map (fun n => (nuc_N n, nuc_Z n)) (data loaded)) [] /\
     z_magic st' = magic_fold (map (fun n => (nuc_Z n, nuc_N n)) (data loaded)) [] /\
     forall i j,
       cell (shape st') i j = Some true <->
       exists n, n ∈ data loaded /\ grid_index nl zl n = (i, j)).
Proof.
  intros loaded nl zl.
  destruct (load_limits n_range z_range nodes) as (Hin & _). fold loaded nl zl in Hin.
  unfold plot_all.
  set (start := {| n_magic := []; z_magic := []; shape := empty_shape nl zl;
                   layers := no_layers; drawn := []; said := [] |}).
  destruct (plot_loop args nl zl (canvas_size nl zl) (data loaded) start
              (Z.to_nat (snd nl + 1 - fst nl)) (Z.to_nat (snd zl + 1 - fst zl)))
    as (r & st' & Hloop & Hr & Hgrid & Hlines & Hsq & Hgo).
  { apply empty_shape_grid. }
  { eapply Forall_impl; [exact Hin |]. intros n [HN HZ]. lia. }
  exists r, st'. split; [exact Hloop |]. split_and!; try done.
  - intros e He. destruct (Hsq e He) as [Hbad | Hn]; [by apply elem_of_nil in Hbad | done].
  - intros Hgo'. destruct (Hgo Hgo') as (Hnm & Hzm & Hcell). split_and!; try done.
    intros i j. rewrite Hcell. split; [| by right].
    intros [Hbad | Hn]; [| done]. by apply empty_shape_cell in Hbad.
Qed.

(** X8. The loop of the script body over the loaded data never fails on
    the grid: every [shape[N - n_limits[0]][Z - z_limits[0]] = True] is
    inside the grid, and the [IndexError] of a nuclide without decay modes
    is caught.  The loop ends normally, or with the [ValueError] of a
    half-life text, which needs half-lives to be shown. *)
Theorem plot_loop_safe `{PyEnv} (args : Args) (n_range z_range : Z * Z)
    (nodes : list XmlNuclide) :
  let loaded := snd (load_xml_nuclear_table (Some nodes) n_range z_range) in
  let r := fst (plot_all args (n_limits loaded) (z_limits loaded) (data loaded)) in
  (r = Go tt \/ r = Raise ValueError) /\
  (halflives args = false -> r = Go tt).
Proof.
  intros loaded r. unfold r.
  destruct (plot_all_loaded args n_range z_range nodes) as (r' & st' & Hrun & Hr & _).
  fold loaded in Hrun. rewrite Hrun. simpl.
  destruct Hr as [-> | [-> Hhl]]; split; try tauto; congruence.
Qed.

Lemma plot_loop_safe_witness :
  let H := example_env in
  let nodes := [Sample.node "7" "3" [Sample.dm "is" "100"];
                {| attr_A := "9"; attr_Z := "3"; attr_id := "9";
                   fields := Some {| f_element := "Li"; f_decay_modes := [];
                                     f_half_life := Sample.seconds "1eE5" |} |}] in
  let loaded := snd (load_xml_nuclear_table (Some nodes) (0, 180) (0, 120)) in
  fst (plot_all (Sample.bare true) (n_limits loaded) (z_limits loaded) (data loaded))
  = Go tt.
Proof.
  intros H nodes loaded.
  apply (plot_loop_safe (Sample.bare true) (0, 180) (0, 120) nodes).
  reflexivity.
Defined.

(** X9. After a loop that ends normally the grid has one row per N and
    one column per Z between the limits, and a cell is occupied exactly
    when a retained nuclide has that N and Z. *)
Theorem grid_marks_data `{PyEnv} (args : Args) (n_range z_range : Z * Z)
    (nodes : list XmlNuclide) :
  let loaded := snd (load_xml_nuclear_table (Some nodes) n_range z_range) in
  let nl := n_limits loaded in
  let zl := z_limits loaded in
  let run := plot_all args nl zl (data loaded) in
  fst run = Go tt ->
  grid (Z.to_nat (snd nl + 1 - fst nl)) (Z.to_nat (snd zl + 1 - fst zl))
       (shape (snd run)) /\
  forall i j,
    cell (shape (snd run)) i j = Some true <->
    exists n, n ∈ data loaded /\
      nuc_N n = fst nl + Z.of_nat i /\ nuc_Z n = fst zl + Z.of_nat j.
Proof.
  intros loaded nl zl run. unfold run.
  destruct (plot_all_loaded args n_range z_range nodes)
    as (r' & st' & Hrun & _ & Hgrid & _ & _ & Hgo).
  fold loaded nl zl in Hrun, Hgrid, Hgo. rewrite Hrun. simpl.
  intros ->. destruct (Hgo eq_refl) as (_ & _ & Hcell).
  split; [exact Hgrid |]. intros i j. rewrite Hcell.
  destruct (load_limits n_range z_range nodes) as (Hin & _). fold loaded nl zl in Hin.
  rewrite Forall_forall in Hin.
  split; intros (n & Hn & Hidx); exists n; (split; [done |]).
  - destruct (Hin n Hn) as [HN HZ]. unfold grid_index in Hidx.
    injection Hidx as <- <-. lia.
  - destruct Hidx as [HN HZ]. unfold grid_index. f_equal; lia.
Qed.

Lemma grid_marks_data_witness :
  let H := example_env in
  let nodes := [Sample.node "7" "3" [Sample.dm "is" "100"];
                Sample.node "4" "2" [Sample.dm "is" "100"]] in
  let loaded := snd (load_xml_nuclear_table (Some nodes) (0, 180) (0, 120)) in
  let run := plot_all (Sample.bare true) (n_limits loaded) (z_limits loaded)
               (data loaded) in
  cell (shape (snd run)) 2 1 = Some true.
Proof.
  intros H nodes loaded run.
  destruct (grid_marks_data (Sample.bare true) (0, 180) (0, 120) nodes) as [_ Hcell].
  - reflexivity.
  - apply Hcell. exists (Sample.nuclide 3 7 [Sample.dm "is" "100"]).
    split; [| split; reflexivity].
    apply elem_of_cons. by left.
Defined.

(** X10. Every rectangle the loop draws belongs to a retained nuclide,
    carries its identifier with suffix 0, and lies inside the canvas:
    one field and a gap from the left edge, a gap from the top edge, a gap
    from the right edge and a field and a gap above the bottom edge. *)
Theorem rectangles_inside_canvas `{PyEnv} (args : Args) (n_range z_range : Z * Z)
    (nodes : list XmlNuclide) :
  let loaded := snd (load_xml_nuclear_table (Some nodes) n_range z_range) in
  let nl := n_limits loaded in
  let zl := z_limits loaded in
  let size := canvas_size nl zl in
  forall e, e ∈ squares (layers (snd (plot_all args nl zl (data loaded)))) ->
    exists n fill x y,
      n ∈ data loaded /\
      e = rect (nuc_N n, nuc_Z n, 0%nat) (x, y) fill /\
      (x, y) = cell_position nl zl (nuc_N n) (nuc_Z n) /\
      SIZE_FIELD + SIZE_GAP <= x /\ x + SIZE_SHAPE + SIZE_GAP <= fst size /\
      SIZE_GAP <= y /\ y + SIZE_SHAPE + SIZE_GAP + SIZE_FIELD <= snd size.
Proof.
  intros loaded nl zl size e He.
  destruct (plot_all_loaded args n_range z_range nodes)
    as (r' & st' & Hrun & _ & _ & _ & Hsq & _).
  fold loaded nl zl in Hrun, Hsq. rewrite Hrun in He. simpl in He.
  destruct (Hsq e He) as (n & fill & Hn & ->).
  destruct (load_limits n_range z_range nodes) as (Hin & _). fold loaded nl zl in Hin.
  rewrite Forall_forall in Hin. destruct (Hin n Hn) as [HN HZ].
  exists n, fill, (fst (cell_position nl zl (nuc_N n) (nuc_Z n))),
    (snd (cell_position nl zl (nuc_N n) (nuc_Z n))).
  split; [done |]. split; [by destruct (cell_position _ _ _ _) |].
  split; [by destruct (cell_position _ _ _ _) |].
  unfold size, cell_position, canvas_size, SIZE_FIELD, SIZE_SHAPE, SIZE_GAP. simpl. lia.
Qed.

Lemma rectangles_inside_canvas_witness :
  let H := example_env in
  let nodes := [Sample.node "7" "3" [Sample.dm "is" "100"]] in
  let loaded := snd (load_xml_nuclear_table (Some nodes) (0, 180) (0, 120)) in
  exists n fill x y,
    n ∈ data loaded /\
    rect (4, 3, 0%nat) (34, 2) "#000000" = rect (nuc_N n, nuc_Z n, 0%nat) (x, y) fill /\
    x + SIZE_SHAPE + SIZE_GAP <= 66.
Proof.
  intros H nodes loaded.
  destruct (rectangles_inside_canvas (Sample.bare true) (0, 180) (0, 120) nodes
              (rect (4, 3, 0%nat) (34, 2) "#000000"))
    as (n & fill & x & y & Hn & He & _ & _ & Hx & _).
  - apply elem_of_cons. by left.
  - exists n, fill, x, y. split; [exact Hn |]. split; [exact He | exact Hx].
Defined.

(** X11. Two different (N, Z) get positions at least one field apart in
    one direction, so the squares of side [SIZE_SHAPE] do not overlap; the
    square of a larger N is further right and that of a larger Z further
    up. *)
Theorem cells_apart (n_limits z_limits : Z * Z) (n1 z1 n2 z2 : Z) :
  let p1 := cell_position n_limits z_limits n1 z1 in
  let p2 := cell_position n_limits z_limits n2 z2 in
  (n1 < n2 -> fst p1 + SIZE_FIELD <= fst p2) /\
  (z1 < z2 -> snd p2 + SIZE_FIELD <= snd p1) /\
  ((n1, z1) <> (n2, z2) ->
   SIZE_FIELD <= Z.abs (fst p1 - fst p2) \/ SIZE_FIELD <= Z.abs (snd p1 - snd p2)).
Proof.
  intros p1 p2. unfold p1, p2, cell_position, canvas_size, SIZE_FIELD, SIZE_SHAPE, SIZE_GAP.
  simpl. split_and!; try lia.
  intros Hne.
  destruct (Z.eq_dec n1 n2) as [-> | Hn]; [| left; lia].
  destruct (Z.eq_dec z1 z2) as [-> | Hz]; [done | right; lia].
Qed.

Lemma cells_apart_witness :
  fst (cell_position (1, 4) (2, 3) 1 2) + SIZE_FIELD
  <= fst (cell_position (1, 4) (2, 3) 4 3).
Proof.
  destruct (cells_apart (1, 4) (2, 3) 1 2 4 3) as (Hx & _ & _).
  apply Hx. lia.
Defined.

(** ** The magic-number dictionaries, in general *)

Lemma magic_set_keys (d : magic_dict) (k : Z) (v : Z * Z) :
  map fst (magic_set d k v)
  = match magic_get d k with
    | Some _ => map fst d
    | None => map fst d ++ [k]
    end.
Proof.
  induction d as [| [k0 v0] d IH]; simpl; [done |].
  destruct (Z.eqb_spec k0 k) as [-> | Hne]; simpl; [done |].
  rewrite IH. by destruct (magic_get d k).
Qed.

Lemma magic_get_None (d : magic_dict) (k : Z) :
  magic_get d k = None <-> k ∉ map fst d.
Proof.
  induction d as [| [k0 v0] d IH]; simpl.
  - split; [intros _ Hin; by apply elem_of_nil in Hin | done].
  - destruct (Z.eqb_spec k0 k) as [-> | Hne].
    + split; [done |]. intros Hnot. exfalso. apply Hnot. by left.
    + rewrite IH. split.
      * intros Hnot Hin. apply elem_of_cons in Hin as [-> | Hin]; [done | by apply Hnot].
      * intros Hnot Hin. apply Hnot. by right.
Qed.

(** One record: what the entry of [k] becomes. *)
Lemma magic_record_get (d : magic_dict) (k' other k : Z) :
  magic_get (magic_record d k' other) k
  = if is_magic k' && (k' =? k) then
      match magic_get d k with
      | Some (lo, hi) => Some (lo, Z.max hi other)
      | None => Some (other, other)
      end
    else magic_get d k.
Proof.
  unfold magic_record. destruct (is_magic k'); simpl; [| done].
  destruct (Z.eqb_spec k' k) as [-> | Hne].
  - destruct (magic_get d k) as [[lo hi] |] eqn:Hk.
    + destruct (Z.ltb_spec hi other).
      * rewrite magic_get_set, Z.eqb_refl. f_equal. f_equal. lia.
      * rewrite Hk. f_equal. f_equal. lia.
    + by rewrite magic_get_set, Z.eqb_refl.
  - destruct (magic_get d k') as [[lo hi] |].
    + destruct (hi <? other); [| done].
      rewrite magic_get_set. by destruct (Z.eqb_spec k' k).
    + rewrite magic_get_set. by destruct (Z.eqb_spec k' k).
Qed.

Lemma magic_record_NoDup (d : magic_dict) (k other : Z) :
  NoDup (map fst d) -> NoDup (map fst (magic_record d k other)).
Proof.
  intros Hnd. unfold magic_record. destruct (is_magic k); [| done].
  destruct (magic_get d k) as [[lo hi] |] eqn:Hk.
  - destruct (hi <? other); [| done]. by rewrite magic_set_keys, Hk.
  - rewrite magic_set_keys, Hk. apply NoDup_app. split; [done |].
    split; [| apply NoDup_singleton].
    intros x Hx Hin. apply list_elem_of_singleton in Hin as ->.
    by apply magic_get_None in Hk.
Qed.

Lemma magic_record_magic (d : magic_dict) (k other : Z) :
  Forall (fun p => is_magic (fst p) = true /\ fst (snd p) <= snd (snd p)) d ->
  Forall (fun p => is_magic (fst p) = true /\ fst (snd p) <= snd (snd p))
         (magic_record d k other).
Proof.
  intros Hall. unfold magic_record. destruct (is_magic k) eqn:Hk; [| done].
  assert (Hset : forall v, fst v <= snd v ->
            Forall (fun p => is_magic (fst p) = true /\ fst (snd p) <= snd (snd p))
                   (magic_set d k v)).
  { intros v Hv. clear -Hall Hk Hv. induction d as [| [k0 v0] d IH]; simpl.
    - by repeat constructor.
    - inversion Hall as [| ? ? Hhead Htail]; subst.
      destruct (k0 =? k); constructor; simpl; try done. by apply IH. }
  destruct (magic_get d k) as [[lo hi] |] eqn:Hget.
  - destruct (Z.ltb_spec hi other); [| done]. apply Hset. simpl.
    assert (Hin : lo <= hi).
    { clear -Hall Hget. induction d as [| [k0 v0] d IH]; simpl in *; [done |].
      inversion Hall as [| ? ? [_ Hhead] Htail]; subst.
      destruct (k0 =? k); [injection Hget as ->; done | by apply IH]. }
    lia.
  - apply Hset. simpl. lia.
Qed.

(** The entry of [k] after a sequence of records: its low end is the
    first coordinate recorded for [k], its high end the greatest. *)
Lemma magic_fold_get (pairs : list (Z * Z)) (d : magic_dict) (k : Z) :
  is_magic k = true ->
  magic_get (magic_fold pairs d) k
  = let others := map snd (filter (fun p => fst p = k) pairs) in
    match magic_get d k with
    | Some (lo, hi) => Some (lo, fold_left Z.max others hi)
    | None =>
        match others with
        | [] => None
        | o :: rest => Some (o, fold_left Z.max rest o)
        end
    end.
Proof.
  intros Hk. revert d. induction pairs as [| [k' other] pairs IH]; intros d; simpl.
  - by destruct (magic_get d k) as [[lo hi] |].
  - unfold magic_fold in *. simpl. rewrite IH, magic_record_get.
    rewrite filter_cons. simpl.
    destruct (decide (k' = k)) as [-> | Hne].
    + rewrite Hk, Z.eqb_refl. simpl.
      by destruct (magic_get d k) as [[lo hi] |].
    + destruct (Z.eqb_spec k' k); [done |]. by rewrite andb_false_r.
Qed.

Lemma magic_fold_not_magic (pairs : list (Z * Z)) (k : Z) :
  is_magic k = false -> magic_get (magic_fold pairs []) k = None.
Proof.
  intros Hk.
  assert (Hgen : forall d, magic_get d k = None -> magic_get (magic_fold pairs d) k = None).
  { induction pairs as [| [k' other] pairs IH]; intros d Hd; [done |].
    unfold magic_fold in *. simpl. apply IH. rewrite magic_record_get. simpl.
    destruct (Z.eqb_spec k' k) as [-> | _]; [by rewrite Hk | by rewrite andb_false_r]. }
  by apply Hgen.
Qed.

Lemma magic_fold_keeps (pairs : list (Z * Z)) (d : magic_dict) :
  NoDup (map fst d) ->
  Forall (fun p => is_magic (fst p) = true /\ fst (snd p) <= snd (snd p)) d ->
  NoDup (map fst (magic_fold pairs d)) /\
  Forall (fun p => is_magic (fst p) = true /\ fst (snd p) <= snd (snd p))
         (magic_fold pairs d).
Proof.
  revert d. induction pairs as [| [k other] pairs IH]; intros d Hnd Hall; [done |].
  unfold magic_fold in *. simpl. apply IH.
  - by apply magic_record_NoDup.
  - by apply magic_record_magic.
Qed.

(** X12. After a loop that ends normally, [n_magic] has an entry exactly
    for the magic numbers that are the N of a retained nuclide, each once;
    the high end of the entry is the greatest Z among those nuclides, the
    low end is the Z of the first of them in the data, and the low end is
    not above the high end. *)
Theorem n_magic_entries `{PyEnv} (args : Args) (n_range z_range : Z * Z)
    (nodes : list XmlNuclide) :
  let loaded := snd (load_xml_nuclear_table (Some nodes) n_range z_range) in
  let run := plot_all args (n_limits loaded) (z_limits loaded) (data loaded) in
  let Zs k := map nuc_Z (filter (fun n => nuc_N n = k) (data loaded)) in
  fst run = Go tt ->
  NoDup (map fst (n_magic (snd run))) /\
  (forall k, magic_get (n_magic (snd run)) k = None <-> is_magic k = false \/ Zs k = []) /\
  (forall k lo hi,
     magic_get (n_magic (snd run)) k = Some (lo, hi) ->
     head (Zs k) = Some lo /\ is_greatest hi (Zs k) /\ lo <= hi).
Proof.
  intros loaded run Zs. unfold run.
  destruct (plot_all_loaded args n_range z_range nodes)
    as (r' & st' & Hrun & _ & _ & _ & _ & Hgo).
  fold loaded in Hrun, Hgo. rewrite Hrun. simpl.
  intros ->. destruct (Hgo eq_refl) as (Hnm & _ & _). rewrite Hnm.
  set (pairs := map (fun n => (nuc_N n, nuc_Z n)) (data loaded)).
  assert (Hothers : forall k, map snd (filter (fun p => fst p = k) pairs) = Zs k).
  { intros k. unfold pairs, Zs. clear. induction (data loaded) as [| n l IH]; [done |].
    simpl. rewrite !filter_cons. simpl. destruct (decide (nuc_N n = k)); simpl;
      by rewrite IH. }
  split; [| split].
  - apply magic_fold_keeps; [apply NoDup_nil_2 | constructor].
  - intros k. destruct (is_magic k) eqn:Hk.
    + rewrite (magic_fold_get pairs [] k Hk). simpl. rewrite Hothers.
      destruct (Zs k); split; try done; try tauto. intros [? | ?]; done.
    + rewrite (magic_fold_not_magic pairs k Hk). split; [by left | done].
  - intros k lo hi Hget. destruct (is_magic k) eqn:Hk;
      [| by rewrite (magic_fold_not_magic pairs k Hk) in Hget].
    rewrite (magic_fold_get pairs [] k Hk) in Hget. simpl in Hget.
    rewrite Hothers in Hget.
    destruct (Zs k) as [| z zs]; [done |]. injection Hget as <- <-.
    split; [done |].
    destruct (fold_max_bounds zs z) as (Hin & Hge & Hall).
    split; [split |]; [| | done].
    + destruct Hin as [-> | Hin]; [by left | by right].
    + intros x Hx. apply elem_of_cons in Hx as [-> | Hx]; [done | by apply Hall].
Qed.

Lemma n_magic_entries_witness :
  let H := example_env in
  let nodes := [Sample.node "5" "3" [Sample.dm "b-" "100"];
                Sample.node "3" "1" [Sample.dm "b-" "100"];
                Sample.node "4" "2" [Sample.dm "is" "100"]] in
  let loaded := snd (load_xml_nuclear_table (Some nodes) (0, 180) (0, 120)) in
  let run := plot_all (Sample.bare true) (n_limits loaded) (z_limits loaded)
               (data loaded) in
  head (map nuc_Z (filter (fun n => nuc_N n = 2) (data loaded))) = Some 3 /\
  is_greatest 3 (map nuc_Z (filter (fun n => nuc_N n = 2) (data loaded))).
Proof.
  intros H nodes loaded run.
  destruct (n_magic_entries (Sample.bare true) (0, 180) (0, 120) nodes)
    as (_ & _ & Hentry).
  - reflexivity.
  - destruct (Hentry 2 3 3) as (Hhead & Hmax & _); [reflexivity | by split].
Defined.

(** ** The boundary lines *)

Lemma fold_two_lines {A} (step : Layers -> A -> Layers) (g1 g2 : A -> svg_element)
    (l : list A) (ls : Layers) :
  (forall ls a, step ls a = appendChild layer2 (g2 a) (appendChild layer2 (g1 a) ls)) ->
  fold_left step l ls
  = {| squares := squares ls; triangles := triangles ls;
       lines := lines ls ++ flat_map (fun a => [g1 a; g2 a]) l; texts := texts ls |}.
Proof.
  intros Hstep. revert ls. induction l as [| a l IH]; intros ls; simpl.
  - rewrite app_nil_r. by destruct ls.
  - rewrite Hstep, IH. simpl. by rewrite <- !app_assoc.
Qed.

Lemma pairs_length {A B} (g1 g2 : A -> B) (l : list A) :
  length (flat_map (fun a => [g1 a; g2 a]) l) = (2 * length l)%nat.
Proof. induction l as [| a l IH]; simpl; [done | lia]. Qed.

Lemma pairs_lookup {A B} (g1 g2 : A -> B) (l : list A) (i : nat) (a : A) :
  l !! i = Some a ->
  flat_map (fun a => [g1 a; g2 a]) l !! (2 * i)%nat = Some (g1 a) /\
  flat_map (fun a => [g1 a; g2 a]) l !! (2 * i + 1)%nat = Some (g2 a).
Proof.
  revert i. induction l as [| b l IH]; intros i Hi; [done |].
  destruct i as [| i]; simpl in Hi.
  - by injection Hi as ->.
  - destruct (IH i Hi) as [H1 H2].
    replace (2 * S i)%nat with (S (S (2 * i))) by lia.
    replace (S (S (2 * i)) + 1)%nat with (S (S (2 * i + 1))) by lia.
    by split.
Qed.

Lemma pairs_Forall {A B} (P : B -> Prop) (g1 g2 : A -> B) (l : list A) :
  (forall a, P (g1 a) /\ P (g2 a)) ->
  Forall P (flat_map (fun a => [g1 a; g2 a]) l).
Proof.
  intros Hall. induction l as [| a l IH]; simpl; [done |].
  destruct (Hall a). by repeat constructor.
Qed.

(** X13. [draw_magic_lines] leaves every layer but that of the lines
    alone and appends to it two lines per entry of [n_magic] and then two
    per entry of [z_magic], entry by entry in the order of the
    dictionaries: the entry of index [i] gives the lines of index [2 i]
    and [2 i + 1], named after its key.  The two lines of a magic N are
    vertical, one field apart, and as long as the fields from the low to
    the high end of the entry; those of a magic Z are horizontal, one
    field apart, and span its entry likewise. *)
Theorem magic_lines_drawn (n_magic z_magic : magic_dict) (n_limits z_limits size : Z * Z)
    (ls : Layers) :
  let ls' := draw_magic_lines n_magic z_magic n_limits z_limits size ls in
  squares ls' = squares ls /\ triangles ls' = triangles ls /\ texts ls' = texts ls /\
  exists vertical horizontal,
    lines ls' = lines ls ++ vertical ++ horizontal /\
    length vertical = (2 * length n_magic)%nat /\
    length horizontal = (2 * length z_magic)%nat /\
    Forall (fun e => exists id x y1 y2, e = line id x y1 x y2) vertical /\
    Forall (fun e => exists id x1 x2 y, e = line id x1 y x2 y) horizontal /\
    (forall i N lo hi,
       n_magic !! i = Some (N, (lo, hi)) ->
       exists x x' y1 y2,
         vertical !! (2 * i)%nat = Some (line (N, "n0") x y1 x y2) /\
         vertical !! (2 * i + 1)%nat = Some (line (N, "n1") x' y1 x' y2) /\
         (x' - x == Qz SIZE_FIELD)%Q /\
         (y2 - y1 == Qz ((hi - lo + 1) * SIZE_FIELD))%Q) /\
    (forall i Z lo hi,
       z_magic !! i = Some (Z, (lo, hi)) ->
       exists x1 x2 y y',
         horizontal !! (2 * i)%nat = Some (line (Z, "z0") x1 y x2 y) /\
         horizontal !! (2 * i + 1)%nat = Some (line (Z, "z1") x1 y' x2 y') /\
         (y' - y == Qz SIZE_FIELD)%Q /\
         (x2 - x1 == Qz ((hi - lo + 1) * SIZE_FIELD))%Q).
Proof.
  intros ls'. unfold ls', draw_magic_lines.
  set (half_gap := (Qz SIZE_GAP / 2)%Q).
  set (n0 := fun e : Z * (Z * Z) =>
    line (fst e, "n0")
      (Qred (Qz ((fst e - fst n_limits + 1) * SIZE_FIELD) + half_gap))
      (Qred (Qz (snd size - (snd (snd e) - fst z_limits + 2) * SIZE_FIELD) - half_gap))
      (Qred (Qz ((fst e - fst n_limits + 1) * SIZE_FIELD) + half_gap))
      (Qred (Qz (snd size - (fst (snd e) - fst z_limits + 1) * SIZE_FIELD) - half_gap))).
  set (n1 := fun e : Z * (Z * Z) =>
    line (fst e, "n1")
      (Qred (Qz ((fst e - fst n_limits + 2) * SIZE_FIELD) + half_gap))
      (Qred (Qz (snd size - (snd (snd e) - fst z_limits + 2) * SIZE_FIELD) - half_gap))
      (Qred (Qz ((fst e - fst n_limits + 2) * SIZE_FIELD) + half_gap))
      (Qred (Qz (snd size - (fst (snd e) - fst z_limits + 1) * SIZE_FIELD) - half_gap))).
  set (z0 := fun e : Z * (Z * Z) =>
    line (fst e, "z0")
      (Qred (Qz ((fst (snd e) - fst n_limits + 1) * SIZE_FIELD) + half_gap))
      (Qred (Qz (snd size - (fst e - fst z_limits + 2) * SIZE_FIELD) - half_gap))
      (Qred (Qz ((snd (snd e) - fst n_limits + 2) * SIZE_FIELD) + half_gap))
      (Qred (Qz (snd size - (fst e - fst z_limits + 2) * SIZE_FIELD) - half_gap))).
  set (z1 := fun e : Z * (Z * Z) =>
    line (fst e, "z1")
      (Qred (Qz ((fst (snd e) - fst n_limits + 1) * SIZE_FIELD) + half_gap))
      (Qred (Qz (snd size - (fst e - fst z_limits + 1) * SIZE_FIELD) - half_gap))
      (Qred (Qz ((snd (snd e) - fst n_limits + 2) * SIZE_FIELD) + half_gap))
      (Qred (Qz (snd size - (fst e - fst z_limits + 1) * SIZE_FIELD) - half_gap))).
  match goal with
  | |- context [fold_left ?f2 z_magic (fold_left ?f1 n_magic ls)] =>
      rewrite (fold_two_lines f1 n0 n1 n_magic ls) by (by intros ls0 [N limits]);
      rewrite (fold_two_lines f2 z0 z1 z_magic) by (by intros ls0 [Z limits])
  end.
  simpl. split_and!; try done.
  exists (flat_map (fun a => [n0 a; n1 a]) n_magic),
         (flat_map (fun a => [z0 a; z1 a]) z_magic).
  split; [by rewrite <- app_assoc |].
  split; [apply pairs_length |]. split; [apply pairs_length |].
  split; [apply pairs_Forall; intros a; split; by eexists _, _, _, _ |].
  split; [apply pairs_Forall; intros a; split; by eexists _, _, _, _ |].
  split.
  - intros i N lo hi Hi.
    destruct (pairs_lookup n0 n1 n_magic i _ Hi) as [H0 H1].
    eexists _, _, _, _. split; [exact H0 |]. split; [exact H1 |]. simpl.
    rewrite !Qred_correct. unfold Qz. split.
    + rewrite <- (Qplus_0_r (inject_Z SIZE_FIELD)).
      replace ((N - fst n_limits + 2) * SIZE_FIELD)
        with ((N - fst n_limits + 1) * SIZE_FIELD + SIZE_FIELD) by lia.
      rewrite inject_Z_plus. ring.
    + replace (snd size - (lo - fst z_limits + 1) * SIZE_FIELD)
        with (snd size - (hi - fst z_limits + 2) * SIZE_FIELD
              + (hi - lo + 1) * SIZE_FIELD) by lia.
      rewrite inject_Z_plus. ring.
  - intros i Z lo hi Hi.
    destruct (pairs_lookup z0 z1 z_magic i _ Hi) as [H0 H1].
    eexists _, _, _, _. split; [exact H0 |]. split; [exact H1 |]. simpl.
    rewrite !Qred_correct. unfold Qz. split.
    + replace (snd size - (Z - fst z_limits + 1) * SIZE_FIELD)
        with (snd size - (Z - fst z_limits + 2) * SIZE_FIELD + SIZE_FIELD) by lia.
      rewrite inject_Z_plus. ring.
    + replace ((hi - fst n_limits + 2) * SIZE_FIELD)
        with ((lo - fst n_limits + 1) * SIZE_FIELD + (hi - lo + 1) * SIZE_FIELD) by lia.
      rewrite inject_Z_plus. ring.
Qed.

Lemma magic_lines_drawn_witness :
  let ls' := draw_magic_lines [(2, (1, 3))] [(8, (6, 10))] (0, 12) (0, 9) (450, 354)
               no_layers in
  exists x x' y1 y2,
    lines ls' !! 0%nat = Some (line (2, "n0") x y1 x y2) /\
    lines ls' !! 1%nat = Some (line (2, "n1") x' y1 x' y2) /\
    (x' - x == Qz SIZE_FIELD)%Q /\ (y2 - y1 == Qz 96)%Q.
Proof.
  intros ls'.
  destruct (magic_lines_drawn [(2, (1, 3))] [(8, (6, 10))] (0, 12) (0, 9) (450, 354)
              no_layers)
    as (_ & _ & _ & vertical & horizontal & Hlines & Hlv & _ & _ & _ & Hn & _).
  destruct (Hn 0%nat 2 1 3 eq_refl) as (x & x' & y1 & y2 & H0 & H1 & Hx & Hy).
  exists x, x', y1, y2. fold ls' in Hlines. rewrite Hlines. simpl.
  destruct vertical as [| e0 [| e1 vertical]]; try discriminate Hlv.
  simpl in H0, H1. simpl. by split_and!.
Defined.

(** ** The axis numbers *)

Lemma first_true_spec (row : list bool) (j : nat) :
  first_true row = Some j <->
  row !! j = Some true /\ forall j', (j' < j)%nat -> row !! j' = Some false.
Proof.
  revert j. induction row as [| b row IH]; intros j; simpl.
  - split; [done | by intros [? _]].
  - destruct b.
    + split.
      * intros [= <-]. split; [done | intros j' Hlt; lia].
      * intros [Hj Hbefore]. destruct j as [| j]; [done |].
        specialize (Hbefore 0%nat ltac:(lia)). discriminate Hbefore.
    + split.
      * intros Hfirst. destruct (first_true row) as [j0 |]; [| discriminate Hfirst].
        injection Hfirst as <-. destruct (proj1 (IH j0) eq_refl) as [Hj Hbefore].
        split; [done |]. intros [| j'] Hlt; [done | apply Hbefore; lia].
      * intros [Hj Hbefore]. destruct j as [| j]; [discriminate Hj |].
        assert (Hrow : first_true row = Some j).
        { apply IH. split; [done |]. intros j' Hlt. apply (Hbefore (S j')). lia. }
        by rewrite Hrow.
Qed.

Lemma first_true_None (row : list bool) :
  first_true row = None <-> forall j, row !! j <> Some true.
Proof.
  induction row as [| b row IH]; simpl.
  - split; [by intros _ j | done].
  - destruct b.
    + split; [done |]. intros Hall. by destruct (Hall 0%nat).
    + split.
      * intros Hfirst [| j]; [discriminate |].
        apply IH. by destruct (first_true row).
      * intros Hall. assert (Hrow : first_true row = None).
        { apply IH. intros j. apply (Hall (S j)). }
        by rewrite Hrow.
Qed.

(** The walk over a run of cells that all exist. *)
Lemma first_occupied_row (row : list bool) (bound k : Z) :
  match first_true row with
  | Some j =>
      k + Z.of_nat j <= bound ->
      first_occupied (map Go row) bound k = Go (k + Z.of_nat j)
  | None =>
      k + Z.of_nat (length row) <= bound ->
      first_occupied (map Go row) bound k = Raise IndexError
  end.
Proof.
  revert k. induction row as [| b row IH]; intros k; simpl; [done |].
  change (Go b ≫= ?f) with (f b). cbv beta.
  destruct b; simpl.
  - intros _. f_equal. lia.
  - specialize (IH (k + 1)).
    destruct (first_true row) as [j |]; simpl; intros Hbound;
      (destruct (Z.ltb_spec k bound); [| lia]); rewrite IH; [f_equal; lia | lia | done | lia].
Qed.

Lemma range0_elem (k a : Z) :
  a ∈ range0 k <-> exists i, a = Z.of_nat i /\ (i < Z.to_nat k)%nat.
Proof.
  unfold range0. rewrite list_elem_of_fmap. split.
  - intros (i & -> & Hi). exists i. split; [done |].
    apply list_elem_of_In, in_seq in Hi. lia.
  - intros (i & -> & Hi). exists i. split; [done |].
    apply list_elem_of_In, in_seq. lia.
Qed.

(** A loop whose turns either go on or raise [IndexError] without
    touching the state. *)
Lemma for_each_decide {S A} (R : S -> S -> Prop) (ok : A -> Prop) (l : list A)
    (body : A -> stateful S unit) (s : S) :
  (forall s, R s s) -> (forall s1 s2 s3, R s1 s2 -> R s2 s3 -> R s1 s3) ->
  (forall a s, a ∈ l ->
     (ok a /\ exists s', body a s = (Go tt, s') /\ R s s') \/
     (~ ok a /\ body a s = (Raise IndexError, s))) ->
  exists r s',
    for_each l body s = (r, s') /\ R s s' /\
    ((r = Go tt /\ forall a, a ∈ l -> ok a) \/
     (r = Raise IndexError /\ exists a, a ∈ l /\ ~ ok a)).
Proof.
  intros Hrefl Htrans. revert s. induction l as [| a l IH]; intros s Hbody.
  - exists (Go tt), s. split; [done |]. split; [done |]. left. split; [done |].
    intros a Ha. by apply elem_of_nil in Ha.
  - rewrite for_each_cons.
    destruct (Hbody a s ltac:(by left)) as [(Hok & s1 & -> & HR) | [Hbad ->]].
    + destruct (IH s1) as (r & s' & -> & HR' & Hr).
      { intros a' s0 Ha'. apply Hbody. by right. }
      exists r, s'. split; [done |]. split; [by eapply Htrans |].
      destruct Hr as [[-> Hall] | [-> (a' & Ha' & Hbad)]].
      * left. split; [done |]. intros a' Ha'.
        apply elem_of_cons in Ha' as [-> | Ha']; [done | by apply Hall].
      * right. split; [done |]. exists a'. split; [by right | done].
    + exists (Raise IndexError), s. split; [done |]. split; [done |].
      right. split; [done |]. exists a. split; [by left | done].
Qed.

Lemma only_texts_refl (ls : Layers) : only_texts ls ls.
Proof. unfold only_texts. split_and!; try done. exists []. by rewrite app_nil_r. Qed.

Lemma only_texts_trans (l1 l2 l3 : Layers) :
  only_texts l1 l2 -> only_texts l2 l3 -> only_texts l1 l3.
Proof.
  intros (H1 & H2 & H3 & t1 & H4) (H5 & H6 & H7 & t2 & H8).
  unfold only_texts. split_and!; try congruence.
  exists (t1 ++ t2). by rewrite H8, H4, app_assoc.
Qed.

Section NumberFacts.
Context `{PyEnv}.

Lemma number_column_result (shape : list (list bool)) (n_limits z_limits size : Z * Z)
    (rows cols i : nat) (ls : Layers) :
  grid rows cols shape ->
  cols = Z.to_nat (snd z_limits + 1 - fst z_limits) ->
  (i < rows)%nat ->
  let labelled := (fst n_limits + Z.of_nat i) mod 2 = 0 /\ 0 < fst n_limits + Z.of_nat i in
  let ok := labelled -> exists j, cell shape i j = Some true in
  (ok /\ exists ls', number_column shape n_limits z_limits size (Z.of_nat i) ls = (Go tt, ls')
                     /\ only_texts ls ls') \/
  (~ ok /\ number_column shape n_limits z_limits size (Z.of_nat i) ls
           = (Raise IndexError, ls)).
Proof.
  intros [Hrows Hcols] Hspan Hi labelled ok. unfold number_column.
  destruct (((Z.of_nat i + fst n_limits) mod 2 =? 0) && (0 <? Z.of_nat i + fst n_limits))
    eqn:Hlab.
  - apply andb_true_iff in Hlab as [Heven Hpos].
    apply Z.eqb_eq in Heven. apply Z.ltb_lt in Hpos.
    assert (Hl : labelled) by (unfold labelled; rewrite Z.add_comm; split; [done | lia]).
    destruct (lookup_lt_is_Some_2 shape i ltac:(lia)) as [row Hrow].
    assert (Hlen : length row = cols).
    { rewrite Forall_forall in Hcols. apply Hcols. by eapply list_elem_of_lookup_2. }
    unfold pure, mbind, stateful_bind, flow_bind, update. rewrite py_getitem_nat, Hrow.
    cbv beta iota.
    destruct (decide (cols = 0%nat)) as [Hzero | Hsome].
    { destruct row; [| simpl in Hlen; lia]. right. split; [| done].
      intros Hok. destruct (Hok Hl) as [j Hj]. unfold cell in Hj.
      rewrite Hrow in Hj. done. }
    replace (snd z_limits - fst z_limits + 1) with (0 + Z.of_nat (length row)) by lia.
    pose proof (first_occupied_row row (0 + Z.of_nat (length row)) 0) as Hscan.
    destruct (first_true row) as [j |] eqn:Hfirst.
    + left. split.
      * intros _. exists j. unfold cell. rewrite Hrow. simpl.
        by apply first_true_spec in Hfirst as [? _].
      * apply first_true_spec in Hfirst as [Hj _]. apply lookup_lt_Some in Hj.
        rewrite Hscan by lia. eexists. split; [reflexivity |].
        unfold only_texts, _draw_text. simpl. split_and!; try done. by eexists.
    + right. split.
      * intros Hok. destruct (Hok Hl) as [j Hj]. unfold cell in Hj.
        rewrite Hrow in Hj. simpl in Hj.
        by apply (proj1 (first_true_None row) Hfirst j).
      * by rewrite Hscan by lia.
  - left. split.
    + intros [Heven Hpos]. exfalso.
      apply andb_false_iff in Hlab as [Hlab | Hlab].
      * apply Z.eqb_neq in Hlab. apply Hlab. by rewrite Z.add_comm.
      * apply Z.ltb_ge in Hlab. lia.
    + exists ls. split; [done | apply only_texts_refl].
Qed.

Lemma column_cells (shape : list (list bool)) (cols j : nat) :
  Forall (fun row => length row = cols) shape -> (j < cols)%nat ->
  map (fun row => py_getitem row (Z.of_nat j)) shape
  = map Go (map (fun row => default false (row !! j)) shape).
Proof.
  intros Hcols Hj. rewrite map_map. apply map_ext_Forall.
  eapply Forall_impl; [exact Hcols |]. intros row Hlen. simpl in *.
  rewrite py_getitem_nat.
  destruct (lookup_lt_is_Some_2 row j ltac:(lia)) as [b ->]. done.
Qed.

Lemma number_row_result (shape : list (list bool)) (n_limits z_limits size : Z * Z)
    (rows cols j : nat) (ls : Layers) :
  grid rows cols shape ->
  rows = Z.to_nat (snd n_limits + 1 - fst n_limits) ->
  (j < cols)%nat ->
  let labelled := (fst z_limits + Z.of_nat j) mod 2 = 0 /\ 0 < fst z_limits + Z.of_nat j in
  let ok := labelled -> exists i, cell shape i j = Some true in
  (ok /\ exists ls', number_row shape n_limits z_limits size (Z.of_nat j) ls = (Go tt, ls')
                     /\ only_texts ls ls') \/
  (~ ok /\ number_row shape n_limits z_limits size (Z.of_nat j) ls
           = (Raise IndexError, ls)).
Proof.
  intros [Hrows Hcols] Hspan Hj labelled ok. unfold number_row.
  assert (Hparity : (Z.of_nat j + fst z_limits mod 2) mod 2
                    = (fst z_limits + Z.of_nat j) mod 2).
  { rewrite Z.add_mod_idemp_r by lia. by rewrite Z.add_comm. }
  rewrite Hparity.
  destruct (((fst z_limits + Z.of_nat j) mod 2 =? 0) && (0 <? Z.of_nat j + fst z_limits))
    eqn:Hlab.
  - apply andb_true_iff in Hlab as [Heven Hpos].
    apply Z.eqb_eq in Heven. apply Z.ltb_lt in Hpos.
    assert (Hl : labelled) by (unfold labelled; split; [done | lia]).
    unfold pure, mbind, stateful_bind, update.
    rewrite (column_cells shape cols j Hcols Hj).
    set (col := map (fun row => default false (row !! j)) shape).
    assert (Hcol : forall i, col !! i = Some true <-> cell shape i j = Some true).
    { intros i. unfold col, cell. rewrite list_lookup_fmap.
      destruct (shape !! i) as [row |] eqn:Hrow; simpl; [| done].
      assert (Hlen : length row = cols).
      { rewrite Forall_forall in Hcols. apply Hcols. by eapply list_elem_of_lookup_2. }
      destruct (lookup_lt_is_Some_2 row j ltac:(lia)) as [b ->]. simpl.
      split; congruence. }
    assert (Hlen : length col = rows) by (unfold col; by rewrite length_map).
    destruct (decide (rows = 0%nat)) as [Hzero | Hsome].
    { destruct col eqn:Hnil; [| simpl in Hlen; lia]. right. split; [| done].
      intros Hok. destruct (Hok Hl) as [i Hi]. apply Hcol in Hi. done. }
    replace (snd n_limits - fst n_limits + 1) with (0 + Z.of_nat (length col)) by lia.
    pose proof (first_occupied_row col (0 + Z.of_nat (length col)) 0) as Hscan.
    destruct (first_true col) as [i |] eqn:Hfirst.
    + left. split.
      * intros _. exists i. apply Hcol. by apply first_true_spec in Hfirst as [? _].
      * apply first_true_spec in Hfirst as [Hi _]. apply lookup_lt_Some in Hi.
        rewrite Hscan by lia. eexists. split; [reflexivity |].
        unfold only_texts, _draw_text. simpl. split_and!; try done. by eexists.
    + right. split.
      * intros Hok. destruct (Hok Hl) as [i Hi]. apply Hcol in Hi.
        by apply (proj1 (first_true_None col) Hfirst i).
      * by rewrite Hscan by lia.
  - left. split.
    + intros [Heven Hpos]. exfalso.
      apply andb_false_iff in Hlab as [Hlab | Hlab].
      * by apply Z.eqb_neq in Hlab.
      * apply Z.ltb_ge in Hlab. lia.
    + exists ls. split; [done | apply only_texts_refl].
Qed.

End NumberFacts.

(** [draw_numbers] on a grid of the size the limits give. *)
Lemma draw_numbers_result `{PyEnv} (shape : list (list bool)) (n_limits z_limits size : Z * Z)
    (rows cols : nat) (ls : Layers) :
  grid rows cols shape ->
  rows = Z.to_nat (snd n_limits + 1 - fst n_limits) ->
  cols = Z.to_nat (snd z_limits + 1 - fst z_limits) ->
  let columns_ok := forall i, (i < rows)%nat ->
    (fst n_limits + Z.of_nat i) mod 2 = 0 -> 0 < fst n_limits + Z.of_nat i ->
    exists j, cell shape i j = Some true in
  let rows_ok := forall j, (j < cols)%nat ->
    (fst z_limits + Z.of_nat j) mod 2 = 0 -> 0 < fst z_limits + Z.of_nat j ->
    exists i, cell shape i j = Some true in
  exists r ls',
    draw_numbers shape n_limits z_limits size ls = (r, ls') /\
    only_texts ls ls' /\
    ((r = Go tt /\ columns_ok /\ rows_ok) \/
     (r = Raise IndexError /\ ~ (columns_ok /\ rows_ok))).
Proof.
  intros Hgrid Hrows Hcols columns_ok rows_ok. unfold draw_numbers.
  destruct (for_each_decide only_texts
              (fun a => (fst n_limits + a) mod 2 = 0 /\ 0 < fst n_limits + a ->
                        exists j, cell shape (Z.to_nat a) j = Some true)
              (range0 (snd n_limits - fst n_limits + 1))
              (number_column shape n_limits z_limits size) ls)
    as (r1 & ls1 & Hloop1 & HR1 & Hr1).
  { apply only_texts_refl. }
  { apply only_texts_trans. }
  { intros a s Ha. apply range0_elem in Ha as (i & -> & Hi). rewrite Nat2Z.id.
    apply (number_column_result shape n_limits z_limits size rows cols i s Hgrid Hcols).
    lia. }
  unfold mbind, stateful_bind. rewrite Hloop1.
  destruct Hr1 as [[-> Hall1] | [-> (a & Ha & Hbad)]].
  - destruct (for_each_decide only_texts
                (fun a => (fst z_limits + a) mod 2 = 0 /\ 0 < fst z_limits + a ->
                          exists i, cell shape i (Z.to_nat a) = Some true)
                (range0 (snd z_limits - fst z_limits + 1))
                (number_row shape n_limits z_limits size) ls1)
      as (r2 & ls2 & Hloop2 & HR2 & Hr2).
    { apply only_texts_refl. }
    { apply only_texts_trans. }
    { intros a s Ha. apply range0_elem in Ha as (j & -> & Hj). rewrite Nat2Z.id.
      apply (number_row_result shape n_limits z_limits size rows cols j s Hgrid Hrows).
      lia. }
    exists r2, ls2. split; [exact Hloop2 |].
    split; [by eapply only_texts_trans |].
    assert (Hcolumns : columns_ok).
    { intros i Hi Heven Hpos.
      specialize (Hall1 (Z.of_nat i)). rewrite Nat2Z.id in Hall1. apply Hall1; [| done].
      apply range0_elem. exists i. split; [done | lia]. }
    destruct Hr2 as [[-> Hall2] | [-> (a & Ha & Hbad)]].
    + left. split; [done |]. split; [done |].
      intros j Hj Heven Hpos.
      specialize (Hall2 (Z.of_nat j)). rewrite Nat2Z.id in Hall2. apply Hall2; [| done].
      apply range0_elem. exists j. split; [done | lia].
    + right. split; [done |]. intros [_ Hrows_ok]. apply Hbad.
      apply range0_elem in Ha as (j & -> & Hj). rewrite Nat2Z.id.
      intros [Heven Hpos]. apply Hrows_ok; [lia | done | done].
  - exists (Raise IndexError), ls1. split; [done |]. split; [done |].
    right. split; [done |]. intros [Hcolumns _]. apply Hbad.
    apply range0_elem in Ha as (i & -> & Hi). rewrite Nat2Z.id.
    intros [Heven Hpos]. apply Hcolumns; [lia | done | done].
Qed.

(** X14. On a grid of the size the limits give, [draw_numbers] adds
    texts only, and it either ends normally or raises [IndexError]; it
    ends normally exactly when every column of even positive N and every
    row of even positive Z has an occupied cell. *)
Theorem axis_numbers_iff `{PyEnv} (shape : list (list bool)) (n_limits z_limits size : Z * Z)
    (rows cols : nat) (ls : Layers) :
  grid rows cols shape ->
  rows = Z.to_nat (snd n_limits + 1 - fst n_limits) ->
  cols = Z.to_nat (snd z_limits + 1 - fst z_limits) ->
  let r := fst (draw_numbers shape n_limits z_limits size ls) in
  let ls' := snd (draw_numbers shape n_limits z_limits size ls) in
  only_texts ls ls' /\
  (r = Go tt \/ r = Raise IndexError) /\
  (r = Go tt <->
   (forall i, (i < rows)%nat ->
      (fst n_limits + Z.of_nat i) mod 2 = 0 -> 0 < fst n_limits + Z.of_nat i ->
      exists j, cell shape i j = Some true) /\
   (forall j, (j < cols)%nat ->
      (fst z_limits + Z.of_nat j) mod 2 = 0 -> 0 < fst z_limits + Z.of_nat j ->
      exists i, cell shape i j = Some true)).
Proof.
  intros Hgrid Hrows Hcols r ls'. unfold r, ls'.
  destruct (draw_numbers_result shape n_limits z_limits size rows cols ls Hgrid Hrows Hcols)
    as (r0 & ls0 & -> & Honly & Hr). simpl.
  split; [exact Honly |].
  destruct Hr as [(-> & Hc & Hr) | (-> & Hbad)].
  - split; [by left |]. split; [done |]. by intros _.
  - split; [by right |]. split; [discriminate |]. intros Hok. by destruct (Hbad Hok).
Qed.

Lemma axis_numbers_iff_witness :
  let H := example_env in
  fst (draw_numbers [[true; false]; [false; true]] (2, 3) (2, 3)
         (canvas_size (2, 3) (2, 3)) no_layers)
  = Go tt.
Proof.
  intros H.
  destruct (axis_numbers_iff [[true; false]; [false; true]] (2, 3) (2, 3)
              (canvas_size (2, 3) (2, 3)) 2 2 no_layers)
    as (_ & _ & Hiff).
  - split; [reflexivity | repeat constructor].
  - reflexivity.
  - reflexivity.
  - apply Hiff. split.
    + intros [| [| i]] Hi Heven Hpos; [by exists 0%nat | by vm_compute in Heven | lia].
    + intros [| [| j]] Hj Heven Hpos; [by exists 0%nat | by vm_compute in Heven | lia].
Defined.

(** X15. The [while] loop of lines 470 to 472 on one row: with a budget
    above the length of the row it ends; it gives the index of the first
    occupied cell when there is one and the bound does not come first,
    and it raises [IndexError] when no cell is occupied and the bound is
    not below the length of the row. *)
Theorem while_scan_result (row : list bool) (bound : Z) (fuel : nat) :
  (length row < fuel)%nat ->
  let run := while_unoccupied fuel (fun k => a ← py_getitem row k; Go a) bound 0 in
  run <> None /\
  (forall j, row !! j = Some true ->
     (forall j', (j' < j)%nat -> row !! j' = Some false) ->
     Z.of_nat j <= bound ->
     run = Some (Go (Z.of_nat j))) /\
  ((forall j, row !! j <> Some true) ->
   Z.of_nat (length row) <= bound ->
   run = Some (Raise IndexError)).
Proof.
  intros Hfuel run. unfold run.
  pose proof (while_unoccupied_terminates row Go bound fuel 0 ltac:(lia)) as Hrun.
  change (Z.of_nat 0) with 0 in Hrun. rewrite drop_0 in Hrun. rewrite Hrun.
  pose proof (first_occupied_row row bound 0) as Hscan.
  split; [done |]. split.
  - intros j Hj Hbefore Hbound.
    assert (Hfirst : first_true row = Some j) by by apply first_true_spec.
    rewrite Hfirst in Hscan. rewrite Hscan by lia. do 2 f_equal.
  - intros Hnone Hbound.
    assert (Hfirst : first_true row = None) by by apply first_true_None.
    rewrite Hfirst in Hscan. by rewrite Hscan by lia.
Qed.

Lemma while_scan_result_witness :
  while_unoccupied 4 (fun k => a ← py_getitem [false; false; true] k; Go a) 3 0
  = Some (Go 2).
Proof.
  destruct (while_scan_result [false; false; true] 3 4) as (_ & Hfound & _).
  - simpl. lia.
  - apply (Hfound 2%nat).
    + reflexivity.
    + intros [| [| j']] Hlt; [reflexivity | reflexivity | lia].
    + lia.
Defined.

(** ** Whole runs *)

Lemma prints_are_not_writes (msgs : list message) :
  Forall (fun e => forall d, e <> WriteOutfile d) (map Print msgs).
Proof. apply Forall_fmap, Forall_forall. intros m _ d. discriminate. Qed.

(** A run on a readable document with ranges in order, step by step. *)
Lemma main_run `{PyEnv} (args : Args) (nodes : list XmlNuclide) :
  fst (arg_N args) <= snd (arg_N args) ->
  fst (arg_Z args) <= snd (arg_Z args) ->
  let loaded := snd (load_xml_nuclear_table (Some nodes) (arg_N args) (arg_Z args)) in
  let nl := n_limits loaded in
  let zl := z_limits loaded in
  let size := canvas_size nl zl in
  let run1 := plot_all args nl zl (data loaded) in
  let plotting :=
    (ParseDatafile :: map Print (printed loaded)) ++ map Print (said (snd run1)) in
  let layers1 :=
    if magic args
    then draw_magic_lines (n_magic (snd run1)) (z_magic (snd run1)) nl zl size
           (layers (snd run1))
    else layers (snd run1) in
  let run2 :=
    if numbers args then draw_numbers (shape (snd run1)) nl zl size layers1
    else (Go tt, layers1) in
  main args (Some nodes)
  = match fst run1 with
    | Raise e => {| trace := plotting; exit_status := 1 |}
    | _ =>
        match fst run2 with
        | Raise e => {| trace := plotting; exit_status := 1 |}
        | _ => {| trace := plotting ++
                    [WriteOutfile {| width := fst size; height := snd size;
                                     groups := snd run2 |}];
                  exit_status := 0 |}
        end
    end.
Proof.
  intros HN HZ. unfold main.
  destruct (Z.ltb_spec (snd (arg_N args)) (fst (arg_N args))); [lia |].
  destruct (Z.ltb_spec (snd (arg_Z args)) (fst (arg_Z args))); [lia |].
  simpl.
  destruct (plot_all _ _ _ _) as [r1 st1]. simpl.
  destruct r1 as [[] | | e]; try reflexivity.
  - destruct (numbers args).
    + destruct (draw_numbers _ _ _ _ _) as [r2 l2]. by destruct r2.
    + reflexivity.
  - destruct (numbers args).
    + destruct (draw_numbers _ _ _ _ _) as [r2 l2]. by destruct r2.
    + reflexivity.
Qed.

(** X16. A run writes at most one document, as its last action, and
    only when it ends with status 0; every run ends with status 0 or 1.
    With ranges in order, status 0 means that the document was written,
    and an unreadable data file gives the diagnostic, status 1 and no
    document. *)
Theorem document_written_last `{PyEnv} (args : Args) (datafile : option (list XmlNuclide)) :
  let run := main args datafile in
  (exit_status run = 0 \/ exit_status run = 1) /\
  (forall doc, WriteOutfile doc ∈ trace run ->
     exit_status run = 0 /\
     exists before, trace run = before ++ [WriteOutfile doc] /\
       Forall (fun e => forall d, e <> WriteOutfile d) before) /\
  (fst (arg_N args) <= snd (arg_N args) -> fst (arg_Z args) <= snd (arg_Z args) ->
   (exit_status run = 0 -> exists doc, WriteOutfile doc ∈ trace run) /\
   (datafile = None ->
    run = {| trace := [ParseDatafile; Print document_error]; exit_status := 1 |})).
Proof.
  intros run. unfold run.
  set (P := fun run : Run =>
    (exit_status run = 0 \/ exit_status run = 1) /\
    (forall doc, WriteOutfile doc ∈ trace run ->
       exit_status run = 0 /\
       exists before, trace run = before ++ [WriteOutfile doc] /\
         Forall (fun e => forall d, e <> WriteOutfile d) before) /\
    (exit_status run = 0 -> exists doc, WriteOutfile doc ∈ trace run)).
  assert (Hcrash : forall before,
            Forall (fun e => forall d, e <> WriteOutfile d) before ->
            P {| trace := before; exit_status := 1 |}).
  { intros before Hall. unfold P. simpl. split; [by right |]. split; [| discriminate].
    intros doc Hin. rewrite Forall_forall in Hall. by destruct (Hall _ Hin doc). }
  assert (Hdone : forall before doc,
            Forall (fun e => forall d, e <> WriteOutfile d) before ->
            P {| trace := before ++ [WriteOutfile doc]; exit_status := 0 |}).
  { intros before doc Hall. unfold P. simpl. split; [by left |]. split.
    - intros doc' Hin. split; [done |].
      apply elem_of_app in Hin as [Hin | Hin].
      + rewrite Forall_forall in Hall. by destruct (Hall _ Hin doc').
      + apply list_elem_of_singleton in Hin. injection Hin as ->. by exists before.
    - intros _. exists doc. apply elem_of_app. right. by left. }
  assert (Hplotting : forall msgs1 msgs2,
            Forall (fun e => forall d, e <> WriteOutfile d)
              ((ParseDatafile :: map Print msgs1) ++ map Print msgs2)).
  { intros msgs1 msgs2. apply Forall_app. split; [| apply prints_are_not_writes].
    constructor; [discriminate | apply prints_are_not_writes]. }
  destruct (Z.ltb_spec (snd (arg_N args)) (fst (arg_N args))) as [HN | HN].
  { unfold main. apply Z.ltb_lt in HN. rewrite HN. simpl.
    split; [by left |]. split; [| lia]. intros doc Hin. written Hin. }
  destruct (Z.ltb_spec (snd (arg_Z args)) (fst (arg_Z args))) as [HZ | HZ].
  { unfold main. apply Z.ltb_ge in HN. rewrite HN. apply Z.ltb_lt in HZ. rewrite HZ. simpl.
    split; [by left |]. split; [| lia]. intros doc Hin. written Hin. }
  destruct datafile as [nodes |].
  - assert (HP : P (main args (Some nodes))).
    { rewrite (main_run args nodes HN HZ).
      destruct (fst (plot_all _ _ _ _)) as [[] | | e1];
        [| | apply Hcrash, Hplotting];
        match goal with
        | |- context [match fst ?r2 with _ => _ end] =>
            destruct (fst r2) as [[] | | e2]
        end;
        first [apply Hdone, Hplotting | apply Hcrash, Hplotting]. }
    destruct HP as (H1 & H2 & H3). split; [done |]. split; [done |].
    intros _ _. split; [done | discriminate].
  - unfold main. apply Z.ltb_ge in HN. apply Z.ltb_ge in HZ. rewrite HN, HZ. simpl.
    split; [by right |]. split.
    + intros doc Hin. written Hin.
    + intros _ _. split; [discriminate | done].
Qed.

Lemma document_written_last_witness :
  let H := example_env in
  let run := main (Sample.args (0, 180) (0, 120))
               (Some [Sample.node "4" "2" [Sample.dm "is" "100"]]) in
  exists doc, WriteOutfile doc ∈ trace run.
Proof.
  intros H run.
  destruct (document_written_last (Sample.args (0, 180) (0, 120))
              (Some [Sample.node "4" "2" [Sample.dm "is" "100"]]))
    as (_ & _ & Hvalid).
  destruct Hvalid as [Hdoc _]; [simpl; lia | simpl; lia |].
  apply Hdoc. reflexivity.
Defined.

(** X17. With half-lives not shown, a run on a readable document with
    ranges in order ends with status 0, its document written, exactly
    when axis numbers are off or every even positive N between the limits
    is the N of a retained nuclide and every even positive Z between the
    limits is the Z of one; otherwise it ends with status 1. *)
Theorem run_succeeds_iff `{PyEnv} (args : Args) (nodes : list XmlNuclide) :
  fst (arg_N args) <= snd (arg_N args) ->
  fst (arg_Z args) <= snd (arg_Z args) ->
  halflives args = false ->
  let loaded := snd (load_xml_nuclear_table (Some nodes) (arg_N args) (arg_Z args)) in
  let nl := n_limits loaded in
  let zl := z_limits loaded in
  let run := main args (Some nodes) in
  (exit_status run = 0 \/ exit_status run = 1) /\
  (exit_status run = 0 <->
   (numbers args = true ->
    (forall N, fst nl <= N <= snd nl -> N mod 2 = 0 -> 0 < N ->
       exists n, n ∈ data loaded /\ nuc_N n = N) /\
    (forall Z, fst zl <= Z <= snd zl -> Z mod 2 = 0 -> 0 < Z ->
       exists n, n ∈ data loaded /\ nuc_Z n = Z))).
Proof.
  intros HN HZ Hhl loaded nl zl run. unfold run.
  rewrite (main_run args nodes HN HZ). fold loaded nl zl.
  destruct (plot_all_loaded args (arg_N args) (arg_Z args) nodes)
    as (r1 & st1 & Hrun1 & Hr1 & Hgrid & _ & _ & Hgo).
  fold loaded nl zl in Hrun1, Hgrid, Hgo. rewrite Hrun1. simpl.
  destruct Hr1 as [-> | [_ Hbad]]; [| congruence].
  destruct (Hgo eq_refl) as (_ & _ & Hcell).
  destruct (numbers args) eqn:Hnum; [| simpl; split; [by left | done]].
  set (layers1 := if magic args then _ else _).
  destruct (draw_numbers_result (shape st1) nl zl (canvas_size nl zl) _ _ layers1
              Hgrid eq_refl eq_refl) as (r2 & ls2 & -> & _ & Hr2).
  simpl.
  destruct (load_limits (arg_N args) (arg_Z args) nodes) as (Hin & _).
  fold loaded nl zl in Hin. rewrite Forall_forall in Hin.
  assert (Hcolumns :
    (forall i, (i < Z.to_nat (snd nl + 1 - fst nl))%nat ->
       (fst nl + Z.of_nat i) mod 2 = 0 -> 0 < fst nl + Z.of_nat i ->
       exists j, cell (shape st1) i j = Some true) <->
    (forall N, fst nl <= N <= snd nl -> N mod 2 = 0 -> 0 < N ->
       exists n, n ∈ data loaded /\ nuc_N n = N)).
  { split.
    - intros Hok N HNr Heven Hpos.
      destruct (Hok (Z.to_nat (N - fst nl))) as [j Hj]; [lia | | |].
      + by replace (fst nl + Z.of_nat (Z.to_nat (N - fst nl))) with N by lia.
      + lia.
      + apply Hcell in Hj as (n & Hn & Hidx). exists n. split; [done |].
        destruct (Hin n Hn) as [Hwn _]. unfold grid_index in Hidx.
        injection Hidx as Hi _. lia.
    - intros Hdata i Hi Heven Hpos.
      destruct (Hdata (fst nl + Z.of_nat i)) as (n & Hn & HnN); [lia | done | done |].
      exists (Z.to_nat (nuc_Z n - fst zl)). apply Hcell. exists n. split; [done |].
      unfold grid_index. f_equal. lia. }
  assert (Hrows :
    (forall j, (j < Z.to_nat (snd zl + 1 - fst zl))%nat ->
       (fst zl + Z.of_nat j) mod 2 = 0 -> 0 < fst zl + Z.of_nat j ->
       exists i, cell (shape st1) i j = Some true) <->
    (forall Z, fst zl <= Z <= snd zl -> Z mod 2 = 0 -> 0 < Z ->
       exists n, n ∈ data loaded /\ nuc_Z n = Z)).
  { split.
    - intros Hok Z HZr Heven Hpos.
      destruct (Hok (Z.to_nat (Z - fst zl))) as [i Hi]; [lia | | |].
      + by replace (fst zl + Z.of_nat (Z.to_nat (Z - fst zl))) with Z by lia.
      + lia.
      + apply Hcell in Hi as (n & Hn & Hidx). exists n. split; [done |].
        destruct (Hin n Hn) as [_ Hwz]. unfold grid_index in Hidx.
        injection Hidx as _ Hj. lia.
    - intros Hdata j Hj Heven Hpos.
      destruct (Hdata (fst zl + Z.of_nat j)) as (n & Hn & HnZ); [lia | done | done |].
      exists (Z.to_nat (nuc_N n - fst nl)). apply Hcell. exists n. split; [done |].
      unfold grid_index. f_equal. lia. }
  destruct Hr2 as [(-> & Hc & Hr) | (-> & Hnot)]; simpl.
  - split; [by left |]. split; [| done]. intros _ _.
    split; [by apply Hcolumns | by apply Hrows].
  - split; [by right |]. split; [discriminate |].
    intros Hok. exfalso. apply Hnot. destruct (Hok eq_refl) as [Hc Hr].
    split; [by apply Hcolumns | by apply Hrows].
Qed.

Lemma run_succeeds_iff_witness :
  let H := example_env in
  let nodes := [Sample.node "2" "1" [Sample.dm "b-" "100"];
                Sample.node "5" "2" [Sample.dm "b-" "100"]] in
  let args := {| names := true; halflives := false; magic := true; numbers := true;
                 unknown := true; arg_Z := (0, 120); arg_N := (0, 180) |} in
  exit_status (main args (Some nodes)) = 1.
Proof.
  intros H nodes args.
  destruct (run_succeeds_iff args nodes) as [Hstatus Hiff]; [simpl; lia.. | reflexivity |].
  destruct Hstatus as [Hzero | Hone]; [| exact Hone].
  exfalso. destruct (proj1 Hiff Hzero eq_refl) as [Hcolumns _].
  destruct (Hcolumns 2) as (n & Hn & HnN); [by vm_compute | reflexivity | lia |].
  vm_compute in Hn.
  apply elem_of_cons in Hn as [-> | Hn]; [discriminate HnN |].
  apply elem_of_cons in Hn as [-> | Hn]; [discriminate HnN |].
  by apply elem_of_nil in Hn.
Defined.

(** ** The cluster pattern and stable nuclides *)

Lemma lower_not_digit (c : ascii) :
  PyStr.is_digit c = true -> PyStr.is_lower c = false.
Proof.
  unfold PyStr.is_digit, PyStr.is_lower. intros Hd.
  apply andb_true_iff in Hd as [_ Hhi]. apply Nat.leb_le in Hhi.
  apply andb_false_iff. left. apply Nat.leb_gt. lia.
Qed.

(** The scan of the reversed mode: letters, then two digits. *)
Lemma letters_then_digits_spec (r : list ascii) (seen : bool) :
  ClusterRe.letters_then_digits seen r = true <->
  exists l d2 d1 rest,
    r = l ++ d2 :: d1 :: rest /\
    Forall (fun c => PyStr.is_lower c = true) l /\
    PyStr.is_digit d2 = true /\ PyStr.is_digit d1 = true /\
    (seen = true \/ l <> []).
Proof.
  revert seen. induction r as [| c r IH]; intros seen; simpl.
  - split; [discriminate |]. intros (l & d2 & d1 & rest & Hr & _).
    by destruct l.
  - destruct (PyStr.is_lower c) eqn:Hc.
    + rewrite IH. split.
      * intros (l & d2 & d1 & rest & -> & Hl & H2 & H1 & _).
        exists (c :: l), d2, d1, rest. split_and!; try done.
        -- by constructor.
        -- by right.
      * intros (l & d2 & d1 & rest & Hr & Hl & H2 & H1 & _).
        destruct l as [| c' l]; simpl in Hr; injection Hr as <- ->.
        -- apply lower_not_digit in H2. congruence.
        -- exists l, d2, d1, rest. apply Forall_cons in Hl as [_ Hl].
           split_and!; try done. by left.
    + split.
      * intros Hok. apply andb_true_iff in Hok as [Hok Hd].
        apply andb_true_iff in Hok as [-> Hcd].
        destruct r as [| d rest]; [discriminate |].
        exists [], c, d, rest. split_and!; try done. by left.
      * intros (l & d2 & d1 & rest & Hr & Hl & H2 & H1 & Hseen).
        destruct l as [| c' l]; simpl in Hr; injection Hr as <- ->.
        -- destruct Hseen as [-> | Hne]; [| done]. by rewrite H2, H1.
        -- apply Forall_cons in Hl as [Hc' _]. congruence.
Qed.

(** X18. A decay mode counts as a cluster emission exactly when it ends,
    up to one final newline, with two digits followed by one or more
    lower-case letters. *)
Theorem cluster_pattern (m : string) :
  ClusterRe.search m = true <->
  exists p d1 d2 l e,
    PyStr.chars m = p ++ d1 :: d2 :: l ++ e /\
    PyStr.is_digit d1 = true /\ PyStr.is_digit d2 = true /\
    l <> [] /\ Forall (fun c => PyStr.is_lower c = true) l /\
    (e = [] \/ e = ["010"%char]).
Proof.
  unfold ClusterRe.search. rewrite orb_true_iff. split.
  - intros [Hplain | Hnl].
    + apply letters_then_digits_spec in Hplain
        as (l & d2 & d1 & rest & Hr & Hl & H2 & H1 & Hseen).
      exists (rev rest), d1, d2, (rev l), [].
      split_and!; try done.
      * rewrite <- (rev_involutive (PyStr.chars m)), Hr, rev_app_distr. simpl.
        by rewrite <- !app_assoc, app_nil_r.
      * destruct Hseen as [? | Hne]; [done |]. intros Hrev. apply Hne.
        by rewrite <- (rev_involutive l), Hrev.
      * by apply Forall_rev.
      * by left.
    + destruct (rev (PyStr.chars m)) as [| c r] eqn:Hrev; [discriminate |].
      apply andb_true_iff in Hnl as [Hc Hr]. apply Ascii.eqb_eq in Hc as ->.
      apply letters_then_digits_spec in Hr
        as (l & d2 & d1 & rest & -> & Hl & H2 & H1 & Hseen).
      exists (rev rest), d1, d2, (rev l), ["010"%char].
      split_and!; try done.
      * rewrite <- (rev_involutive (PyStr.chars m)), Hrev. simpl.
        rewrite rev_app_distr. simpl. by rewrite <- !app_assoc.
      * destruct Hseen as [? | Hne]; [done |]. intros Hrl. apply Hne.
        by rewrite <- (rev_involutive l), Hrl.
      * by apply Forall_rev.
      * by right.
  - intros (p & d1 & d2 & l & e & Hm & H1 & H2 & Hne & Hl & He).
    assert (Hscan : ClusterRe.letters_then_digits false (rev l ++ d2 :: d1 :: rev p) = true).
    { apply letters_then_digits_spec. exists (rev l), d2, d1, (rev p).
      split_and!; try done.
      - by apply Forall_rev.
      - right. intros Hrl. apply Hne. by rewrite <- (rev_involutive l), Hrl. }
    rewrite Hm.
    replace (rev (p ++ d1 :: d2 :: l ++ e)) with (rev e ++ rev l ++ d2 :: d1 :: rev p).
    + destruct He as [-> | ->]; simpl.
      * by left.
      * right. by rewrite Hscan.
    + change (p ++ d1 :: d2 :: l ++ e) with (p ++ [d1; d2] ++ l ++ e).
      rewrite !rev_app_distr. simpl. by rewrite <- !app_assoc.
Qed.

(** X19. A nuclide whose first decay mode is "is" and whose half-life is
    not marked unstable is always drawn, whatever its other modes and
    values are: the call ends normally and leaves the nuclide as it was,
    the rectangle is black, no large triangle is added, the texts are
    bright, and the label shown under the name is the value of that first
    mode, the abundance; the half-life value is not looked at. *)
Theorem stable_nuclide_drawn `{PyEnv} (nuclide : Nuclide) (ls : Layers)
    (position : Z * Z) (args : Args) (m : DecayMode) (rest : list DecayMode) :
  decay_modes nuclide = m :: rest ->
  mode m = "is" ->
  PyStr.contains "unstable" (hl_value (half_life nuclide)) = false ->
  exists ls' tr tx,
    draw_nuclide nuclide ls position args = (Go tt, (nuclide, ls')) /\
    squares ls' = squares ls ++ [rect (nuclide_str nuclide, 0%nat) position "#000000"] /\
    triangles ls' = triangles ls ++ tr /\
    (forall id p fill c, triangle id p fill c ∉ tr) /\
    texts ls' = texts ls ++ tx /\
    Forall (fun e => exists x y size s, e = text x y FONT_COLOR_BRIGHT size s) tx /\
    (halflives args = true -> hl_extrapolated (half_life nuclide) <> "True" ->
     exists x y, last tx = Some (text x y FONT_COLOR_BRIGHT (inject_Z SIZE_FONT_HL) (value m))).
Proof.
  intros Hdm Hm Hun.
  destruct (primary_step_basic (unknown args) (decay_modes nuclide) m)
    as (c & Hc & Hstep); [by rewrite Hdm | by rewrite Hm |].
  rewrite Hm in Hc. injection Hc as <-.
  unfold draw_nuclide. rewrite Hstep, set_decay_modes_same, Hun.
  destruct (resolve_markers_cases "#000000" (decay_modes nuclide))
    as (sec & ter & -> & Hsec & Hter & Hstable & Hnl & _ & Hboth).
  destruct sec as [ssize scol], ter as [tsize tcol].
  unfold colored, never_large_on_stable in *. simpl in *.
  assert (Hsc : ssize <> None -> exists c, scol = Some c).
  { intros Hs. destruct scol; [by eexists | by destruct (Hsec Hs)]. }
  assert (Htc : tsize <> None -> exists c, tcol = Some c).
  { intros Hs. destruct tcol; [by eexists | by destruct (Hter Hs)]. }
  assert (Hlabel : half_life_string nuclide "#000000" = Go (value m)).
  { unfold half_life_string. simpl. by rewrite Hdm. }
  assert (Hextra : forall s, s <> "True" -> String.eqb s "True" = false).
  { intros s Hs. by apply String.eqb_neq. }
  destruct ssize as [[|] |], tsize as [[|] |]; try done;
    try (exfalso; by apply Hstable);
    try (exfalso; by apply Hboth).
  all: try (destruct Hsc as [sc ->]; [done |]).
  all: try (destruct Htc as [tc ->]; [done |];
            destruct (tertiary_corner_total "#000000" sc tc) as [k Hk]).
  all: unfold draw_shapes, when, update, pure, mbind, mret, stateful_bind, stateful_ret;
    simpl; rewrite ?Hk, ?Hlabel; simpl.
  all: destruct (names args); simpl;
    destruct (halflives args) eqn:Hhl; simpl;
    destruct (String.eqb (hl_extrapolated (half_life nuclide)) "True") eqn:Hex; simpl.
  all: eexists _, _, _; split; [reflexivity |]; simpl.
  all: split; [reflexivity |].
  all: split; [first [rewrite <- !app_assoc; reflexivity | symmetry; apply app_nil_r
                     | reflexivity] |].
  all: split; [intros id p fill c Hin; repeat (apply elem_of_cons in Hin as [Hin | Hin];
                 [discriminate Hin |]); by apply elem_of_nil in Hin |].
  all: split; [first [rewrite <- !app_assoc; reflexivity | symmetry; apply app_nil_r
                     | reflexivity] |].
  all: split; [repeat (apply Forall_cons; split; [by eexists _, _, _, _ |]);
               apply Forall_nil; done |].
  all: intros Hon Hne; try discriminate Hon;
    try (rewrite (Hextra _ Hne) in Hex; discriminate Hex).
  all: by eexists _, _.
Qed.

Lemma stable_nuclide_drawn_witness :
  let H := example_env in
  let nuclide := Sample.nuclide 2 4 [Sample.dm "is" "99.999866"; Sample.dm "a" "?"] in
  fst (draw_nuclide nuclide no_layers (0, 0) (Sample.args (0, 180) (0, 120))) = Go tt.
Proof.
  intros H nuclide.
  destruct (stable_nuclide_drawn nuclide no_layers (0, 0) (Sample.args (0, 180) (0, 120))
              (Sample.dm "is" "99.999866") [Sample.dm "a" "?"])
    as (ls' & tr & tx & -> & _); reflexivity.
Defined.
